(** * di_automata: configuration derivation and callback assembly

    A shallow embedding of [di_automata/config_setup.py] (the task
    configuration classes and the [MainConfig._set_fields] root validator)
    and of [create_callbacks] in [di_automata/devinterp/rlct_utils.py].

    Python integers are [Z]; a value that may be [None] is an [option];
    a dictionary with a fixed set of keys is a record; the registry
    [config_class_map] is a [gmap]; exceptions are values of [exn] carried
    by the [result] monad. Python floats are finite binary64 numbers,
    represented exactly as [mant * 2 ^ expo]. *)

From stdpp Require Import base option list strings gmap pretty.
From Stdlib Require Import ZArith QArith Qabs Lia.

Local Open Scope Z_scope.

(** ** Exceptions and results *)

(** The exception classes the modelled code can raise. pydantic turns
    [ValueError], [TypeError] and [AssertionError] raised inside a
    validator into its [ValidationError]; the others escape as they are.
    Either way the construction of the model fails. *)
Inductive exn : Type :=
  | KeyError (key : string)
  | IndexError (msg : string)
  | TypeError (msg : string)
  | ValueError (msg : string)
  | AssertionError (msg : string)
  | AttributeError (msg : string)
  | ZeroDivisionError (msg : string)
  | OverflowError (msg : string)
  | ValidationError (field : string)
  | IncompatibleCallbackSet.

Inductive result (A : Type) : Type :=
  | Ok (a : A)
  | Raise (e : exn).
Arguments Ok {A} a.
Arguments Raise {A} e.

#[global] Instance result_ret : MRet result := fun A a => Ok a.
#[global] Instance result_bind : MBind result := fun A B f m =>
  match m with
  | Ok a => f a
  | Raise e => Raise e
  end.

#[global] Instance result_fmap : FMap result := fun A B f m =>
  match m with
  | Ok a => Ok (f a)
  | Raise e => Raise e
  end.

(** [assert cond, msg] *)
Definition py_assert (cond : bool) (msg : string) : result unit :=
  if cond then Ok tt else Raise (AssertionError msg).

(** ** Floats

    A finite binary64 number is [mant * 2 ^ expo]. The rounding functions
    below return the canonical representative: [2^52 <= |mant| < 2^53] for
    normal numbers, [expo = -1074] for subnormal ones, and [Float 0 0] for
    zero (the sign of zero is not tracked: no modelled operation
    distinguishes it). *)
Record float : Type := Float { mant : Z; expo : Z }.

Definition float_to_Q (f : float) : Q :=
  if 0 <=? expo f then inject_Z (mant f * 2 ^ expo f)
  else Qmake (mant f) (Z.to_pos (2 ^ (- expo f))).

(** Nearest integer to [n / d], ties to even ([0 <= n], [0 < d]). *)
Definition round_half_even (n d : Z) : Z :=
  let q := n / d in
  let r := n mod d in
  if 2 * r <? d then q
  else if d <? 2 * r then q + 1
  else if Z.even q then q else q + 1.

(** [floor (log2 (a / d))] for [0 < a], [0 < d]. *)
Definition floor_log2_quot (a d : Z) : Z :=
  let k := Z.log2 a - Z.log2 d in
  let fits := if 0 <=? k then d * 2 ^ k <=? a else d <=? a * 2 ^ (- k) in
  if fits then k else k - 1.

(** The binary64 number nearest to [num / den] ([0 < den]), ties to even;
    [None] when the rounded magnitude exceeds the largest finite float. *)
Definition round_binary64 (num den : Z) : option float :=
  if num =? 0 then Some (Float 0 0)
  else
    let a := Z.abs num in
    let e := Z.max (floor_log2_quot a den - 52) (-1074) in
    let m := if 0 <=? e then round_half_even a (den * 2 ^ e)
             else round_half_even (a * 2 ^ (- e)) den in
    let '(m, e) := if m =? 2 ^ 53 then (2 ^ 52, e + 1) else (m, e) in
    if m =? 0 then Some (Float 0 0)
    else if 971 <? e then None
    else Some (Float (Z.sgn num * m) e).

(** [float(n)] for an [int] [n]. *)
Definition float_of_int (n : Z) : result float :=
  match round_binary64 n 1 with
  | Some f => Ok f
  | None => Raise (OverflowError "int too large to convert to float")
  end.

(** [a / b] for two [int]s: the correctly rounded quotient. *)
Definition int_truediv (a b : Z) : result float :=
  if b =? 0 then Raise (ZeroDivisionError "division by zero")
  else match round_binary64 (Z.sgn b * a) (Z.abs b) with
       | Some f => Ok f
       | None => Raise (OverflowError "integer division result too large for a float")
       end.

(** [x / y] for two [float]s. *)
Definition float_truediv (x y : float) : result float :=
  if mant y =? 0 then Raise (ZeroDivisionError "float division by zero")
  else
    let s := expo x - expo y in
    let num := Z.sgn (mant y) * mant x * 2 ^ (Z.max 0 s) in
    let den := Z.abs (mant y) * 2 ^ (Z.max 0 (- s)) in
    match round_binary64 num den with
    | Some f => Ok f
    | None => Raise (OverflowError "float division overflow")
    end.

(** [math.ceil(x)] for a [float] [x]: the result is an [int]. *)
Definition math_ceil (x : float) : Z :=
  if 0 <=? expo x then mant x * 2 ^ expo x
  else - ((- mant x) / 2 ^ (- expo x)).

(** [math.factorial(n)] *)
Definition math_factorial (n : Z) : result Z :=
  if n <? 0 then Raise (ValueError "factorial() not defined for negative values")
  else Ok (Z.of_nat (fact (Z.to_nat n))).

(** ** Python values

    A number-valued expression of the modelled code evaluates to [None],
    to an [int], or to a float obtained from [int ** negative int], which
    CPython computes with the C library's [pow]. The embedding does not
    track the value of such a float, nor of what is computed from it. *)
Inductive pyval : Type :=
  | PyNone
  | PyInt (z : Z)
  | Untracked.

Definition of_optional (o : option Z) : pyval :=
  match o with Some z => PyInt z | None => PyNone end.

(** [b ** e] for [int]s. *)
Definition int_pow (b e : Z) : result pyval :=
  if 0 <=? e then Ok (PyInt (b ^ e))
  else if b =? 0 then Raise (ZeroDivisionError "0.0 cannot be raised to a negative power")
  else Ok Untracked.

(** [b ** e] where [b] may be [None] and [e] is an [int]. *)
Definition py_pow (b : pyval) (e : Z) : result pyval :=
  match b with
  | PyNone => Raise (TypeError "unsupported operand type(s) for ** or pow(): 'NoneType' and 'int'")
  | PyInt z => int_pow z e
  | Untracked => Ok Untracked
  end.

(** [x - k] and [k * x] for an [int] [k]. *)
Definition py_sub_int (x : pyval) (k : Z) : result pyval :=
  match x with
  | PyNone => Raise (TypeError "unsupported operand type(s) for -: 'NoneType' and 'int'")
  | PyInt z => Ok (PyInt (z - k))
  | Untracked => Ok Untracked
  end.

Definition py_int_mul (k : Z) (x : pyval) : result pyval :=
  match x with
  | PyNone => Raise (TypeError "unsupported operand type(s) for *: 'int' and 'NoneType'")
  | PyInt z => Ok (PyInt (k * z))
  | Untracked => Ok Untracked
  end.

(** [min(x, y)] for an [int] [x]: [y] is returned when [y < x], else [x]. *)
Definition py_min (x : Z) (y : pyval) : result pyval :=
  match y with
  | PyNone => Raise (TypeError "'<' not supported between instances of 'NoneType' and 'int'")
  | PyInt z => Ok (PyInt (if z <? x then z else x))
  | Untracked => Ok Untracked
  end.

(** ** Keyword arguments of a pydantic model

    A key of the raw mapping handed to a model class is absent (the
    field's default applies), present with [None], or present with a
    value. *)
Inductive arg (A : Type) : Type :=
  | Absent
  | Null
  | Given (a : A).
Arguments Absent {A}.
Arguments Null {A}.
Arguments Given {A} a.

(** A field declared [Optional[T] = Field(default=d)]. *)
Definition optional_field {A} (d : option A) (a : arg A) : option A :=
  match a with
  | Absent => d
  | Null => None
  | Given x => Some x
  end.

(** A field declared [T = Field(default=d)]: [None] is rejected. *)
Definition required_field {A} (name : string) (d : A) (a : arg A) : result A :=
  match a with
  | Absent => Ok d
  | Null => Raise (ValidationError name)
  | Given x => Ok x
  end.

(** The pre-validation value of a field with [always=True] validators. *)
Definition pre_value {A} (d : option A) (a : arg A) : option A :=
  optional_field d a.

(** The raw [task_config] mapping. [dataset_type], [size] and [length]
    are read by key in [_set_fields]; the other keys are those the
    task classes declare. Fields no modelled computation reads
    ([random_length], [seed], [prob1], [prob_abab_pos_sample]) are left
    out. *)
Module RawTask.
Record t : Type := Build {
  dataset_type : string;
  size : Z;
  length : Z;
  n : arg Z;
  n_addends : arg Z;
  n_actions : arg Z;
  label_type : arg string;
  generators : arg (list (list Z));
  perm_probs : arg (list float);
}.
End RawTask.

(** ** Task configuration classes *)

Module DatasetConfig.
Record t : Type := Build {
  dataset_type : string;
  size : Z;
  length : Z;
}.

Definition new (raw : RawTask.t) : t :=
  Build (RawTask.dataset_type raw) (RawTask.size raw) (RawTask.length raw).
End DatasetConfig.

(** An [Optional[Label]] field: a string is accepted when it is the
    value of a member of the enumeration. *)
Definition label_field {L} (parse : string → option L) (d : L) (a : arg string)
  : result (option L) :=
  match a with
  | Absent => Ok (Some d)
  | Null => Ok None
  | Given s =>
      match parse s with
      | Some l => Ok (Some l)
      | None => Raise (ValidationError "label_type")
      end
  end.

Module ParityAutomatonConfig.
Record t : Type := Build { base : DatasetConfig.t }.

Definition new (raw : RawTask.t) : result t := Ok (Build (DatasetConfig.new raw)).

Definition vocab_size (self : t) : result pyval := Ok (PyInt 2).
Definition output_vocab_size (self : t) : result pyval := Ok (PyInt 2).
End ParityAutomatonConfig.

Module GridworldAutomatonConfig.
Inductive Label : Type := STATE | PARITY | BOUNDARY.

Definition Label_of_string (s : string) : option Label :=
  if String.eqb s "state" then Some STATE
  else if String.eqb s "parity" then Some PARITY
  else if String.eqb s "boundary" then Some BOUNDARY
  else None.

Record t : Type := Build {
  base : DatasetConfig.t;
  n : option Z;
  label_type : option Label;
}.

Definition new (raw : RawTask.t) : result t :=
  l ← label_field Label_of_string STATE (RawTask.label_type raw);
  Ok (Build (DatasetConfig.new raw) (optional_field (Some 9) (RawTask.n raw)) l).

Definition vocab_size (self : t) : result pyval := Ok (PyInt 2).

Definition output_vocab_size (self : t) : result pyval :=
  match label_type self with
  | Some STATE => Ok (of_optional (n self))
  | Some PARITY | Some BOUNDARY => Ok (PyInt 2)
  | None => Ok PyNone
  end.
End GridworldAutomatonConfig.

Module ABABAutomatonConfig.
Inductive Label : Type := STATE | BOUNDARY.

Definition Label_of_string (s : string) : option Label :=
  if String.eqb s "state" then Some STATE
  else if String.eqb s "boundary" then Some BOUNDARY
  else None.

Record t : Type := Build {
  base : DatasetConfig.t;
  label_type : option Label;
}.

Definition new (raw : RawTask.t) : result t :=
  l ← label_field Label_of_string STATE (RawTask.label_type raw);
  Ok (Build (DatasetConfig.new raw) l).

Definition vocab_size (self : t) : result pyval := Ok (PyInt 2).

Definition output_vocab_size (self : t) : result pyval :=
  match label_type self with
  | Some STATE => Ok (PyInt 4)
  | Some BOUNDARY => Ok (PyInt 2)
  | None => Ok PyNone
  end.
End ABABAutomatonConfig.

Module AdderAutomatonConfig.
Inductive Label : Type := STATE | DIGIT | POSITION.

Definition Label_of_string (s : string) : option Label :=
  if String.eqb s "state" then Some STATE
  else if String.eqb s "digit" then Some DIGIT
  else if String.eqb s "position" then Some POSITION
  else None.

Record t : Type := Build {
  base : DatasetConfig.t;
  n_addends : option Z;
  label_type : option Label;
}.

Definition new (raw : RawTask.t) : result t :=
  l ← label_field Label_of_string STATE (RawTask.label_type raw);
  Ok (Build (DatasetConfig.new raw) (optional_field (Some 2) (RawTask.n_addends raw)) l).

Definition vocab_size (self : t) : result pyval := Ok (PyInt 4).

Definition output_vocab_size (self : t) : result pyval :=
  match label_type self with
  | Some STATE =>
      match n_addends self with
      | None => Raise (TypeError "unsupported operand type(s) for ** or pow(): 'int' and 'NoneType'")
      | Some k =>
          p ← int_pow 2 k;
          d ← py_sub_int p 1;
          py_int_mul 2 d
      end
  | Some DIGIT => Ok (of_optional (n_addends self))
  | Some POSITION => Ok (PyInt 2)
  | None => Ok PyNone
  end.
End AdderAutomatonConfig.

Module FlipFlopAutomatonConfig.
Record t : Type := Build {
  base : DatasetConfig.t;
  n : option Z;
}.

Definition new (raw : RawTask.t) : result t :=
  Ok (Build (DatasetConfig.new raw) (optional_field (Some 2) (RawTask.n raw))).

Definition n_plus_1 (self : t) : result pyval :=
  match n self with
  | Some k => Ok (PyInt (k + 1))
  | None => Raise (TypeError "unsupported operand type(s) for +: 'NoneType' and 'int'")
  end.

Definition vocab_size (self : t) : result pyval := n_plus_1 self.
Definition output_vocab_size (self : t) : result pyval := n_plus_1 self.
End FlipFlopAutomatonConfig.

Module PermutationAutomatonConfig.
Inductive Label : Type := STATE | FIRST_CHAIR.

Definition Label_of_string (s : string) : option Label :=
  if String.eqb s "state" then Some STATE
  else if String.eqb s "first_chair" then Some FIRST_CHAIR
  else None.

Record t : Type := Build {
  base : DatasetConfig.t;
  n : option Z;
  label_type : option Label;
}.

Definition new (raw : RawTask.t) : result t :=
  l ← label_field Label_of_string STATE (RawTask.label_type raw);
  Ok (Build (DatasetConfig.new raw) (optional_field (Some 5) (RawTask.n raw)) l).

Definition vocab_size (self : t) : result pyval := Ok (of_optional (n self)).

Definition output_vocab_size (self : t) : result pyval :=
  match label_type self with
  | Some STATE =>
      match n self with
      | None => Raise (TypeError "'NoneType' object cannot be interpreted as an integer")
      | Some k => f ← math_factorial k; Ok (PyInt f)
      end
  | Some FIRST_CHAIR => Ok (of_optional (n self))
  | None => Ok PyNone
  end.
End PermutationAutomatonConfig.

(** [SymmetricAutomatonConfig] adds [n_actions] to its parent and
    inherits both queries. *)
Module SymmetricAutomatonConfig.
Record t : Type := Build {
  parent : PermutationAutomatonConfig.t;
  n_actions : option Z;
}.

Definition new (raw : RawTask.t) : result t :=
  p ← PermutationAutomatonConfig.new raw;
  Ok (Build p (optional_field (Some 3) (RawTask.n_actions raw))).

Definition vocab_size (self : t) := PermutationAutomatonConfig.vocab_size (parent self).
Definition output_vocab_size (self : t) :=
  PermutationAutomatonConfig.output_vocab_size (parent self).
End SymmetricAutomatonConfig.

(** [AlternatingAutomatonConfig] is its parent, unchanged. *)
Module AlternatingAutomatonConfig.
Definition t : Type := PermutationAutomatonConfig.t.
Definition new := PermutationAutomatonConfig.new.
Definition vocab_size := PermutationAutomatonConfig.vocab_size.
Definition output_vocab_size := PermutationAutomatonConfig.output_vocab_size.
End AlternatingAutomatonConfig.

Module CyclicAutomatonConfig.
Record t : Type := Build {
  base : DatasetConfig.t;
  n : option Z;
  n_actions : option Z;
}.

Definition new (raw : RawTask.t) : result t :=
  Ok (Build (DatasetConfig.new raw)
            (optional_field (Some 5) (RawTask.n raw))
            (optional_field (Some 2) (RawTask.n_actions raw))).

Definition vocab_size (self : t) : result pyval := Ok (of_optional (n self)).
Definition output_vocab_size (self : t) : result pyval := Ok (of_optional (n self)).
End CyclicAutomatonConfig.

Module DihedralAutomatonConfig.
Inductive Label : Type := STATE | TOGGLE | POSITION.

Definition Label_of_string (s : string) : option Label :=
  if String.eqb s "state" then Some STATE
  else if String.eqb s "toggle" then Some TOGGLE
  else if String.eqb s "position" then Some POSITION
  else None.

Record t : Type := Build {
  base : DatasetConfig.t;
  n : option Z;
  label_type : option Label;
}.

Definition new (raw : RawTask.t) : result t :=
  l ← label_field Label_of_string STATE (RawTask.label_type raw);
  Ok (Build (DatasetConfig.new raw) (optional_field (Some 4) (RawTask.n raw)) l).

Definition vocab_size (self : t) : result pyval := Ok (PyInt 2).

Definition output_vocab_size (self : t) : result pyval :=
  match label_type self with
  | Some STATE =>
      match n self with
      | Some k => Ok (PyInt (k * 2))
      | None => Raise (TypeError "unsupported operand type(s) for *: 'NoneType' and 'int'")
      end
  | Some TOGGLE => Ok (PyInt 2)
  | Some POSITION => Ok (of_optional (n self))
  | None => Ok PyNone
  end.
End DihedralAutomatonConfig.

Module QuaternionAutomatonConfig.
Record t : Type := Build { base : DatasetConfig.t }.

Definition new (raw : RawTask.t) : result t := Ok (Build (DatasetConfig.new raw)).

Definition vocab_size (self : t) : result pyval := Ok (PyInt 4).
Definition output_vocab_size (self : t) : result pyval := Ok (PyInt 8).
End QuaternionAutomatonConfig.

Module PermutationResetAutomatonConfig.
Record t : Type := Build {
  base : DatasetConfig.t;
  n : Z;
  generators : list (list Z);
  perm_probs : list float;
}.

Definition default_generators : list (list Z) :=
  [[1; 0; 2; 3; 4]; [4; 0; 1; 2; 3]].

(** [check_generators(cls, v, values)]: [v] is the value before
    validation ([None] when the key holds [None]) and [values_n] is
    [values.get("n")], [None] when [n] did not validate. *)
Definition check_generators (v : option (list (list Z))) (values_n : option Z)
  : result (list (list Z)) :=
  match v with
  | None => Raise (TypeError "'NoneType' object is not subscriptable")
  | Some [] => Raise (IndexError "list index out of range")
  | Some (g0 :: rest) =>
      _ ← py_assert (bool_decide (Some (Z.of_nat (length g0)) = values_n))
                    "Generators must be of length n.";
      Ok (g0 :: rest)
  end.

(** [1.0] *)
Definition one : float := Float (2 ^ 52) (-52).

(** [set_perm_probs(cls, v, values)]: [values_generators] is the entry
    of [values] for ["generators"], absent when that field did not
    validate. *)
Definition set_perm_probs (v : option (list float))
    (values_generators : option (list (list Z))) : result (list float) :=
  match v with
  | None =>
      let generators := default [] values_generators in
      let n_generators := length generators in
      (* the [else 0] of the source is an [int]; the list is empty then *)
      uniform_prob ←
        (if 0 <? Z.of_nat n_generators
         then d ← float_of_int (Z.of_nat n_generators); float_truediv one d
         else Ok (Float 0 0));
      Ok (replicate n_generators uniform_prob)
  | Some l => Ok l
  end.

Definition new (raw : RawTask.t) : result t :=
  n ← required_field "n" 4 (RawTask.n raw);
  g ← check_generators (pre_value (Some default_generators) (RawTask.generators raw)) (Some n);
  p ← set_perm_probs (pre_value None (RawTask.perm_probs raw)) (Some g);
  Ok (Build (DatasetConfig.new raw) n g p).

Definition vocab_size (self : t) : result pyval :=
  f ← math_factorial (n self);
  Ok (PyInt (f + Z.of_nat (length (generators self)))).

Definition output_vocab_size (self : t) : result pyval :=
  f ← math_factorial (n self);
  Ok (PyInt f).
End PermutationResetAutomatonConfig.

(** An instance of one of the task classes. *)
Inductive TaskConfig : Type :=
  | ABAB (c : ABABAutomatonConfig.t)
  | Adder (c : AdderAutomatonConfig.t)
  | Alternating (c : AlternatingAutomatonConfig.t)
  | Cyclic (c : CyclicAutomatonConfig.t)
  | Dihedral (c : DihedralAutomatonConfig.t)
  | FlipFlop (c : FlipFlopAutomatonConfig.t)
  | Gridworld (c : GridworldAutomatonConfig.t)
  | Parity (c : ParityAutomatonConfig.t)
  | Quaternion (c : QuaternionAutomatonConfig.t)
  | PermutationReset (c : PermutationResetAutomatonConfig.t)
  | Symmetric (c : SymmetricAutomatonConfig.t).

Definition task_base (t : TaskConfig) : DatasetConfig.t :=
  match t with
  | ABAB c => ABABAutomatonConfig.base c
  | Adder c => AdderAutomatonConfig.base c
  | Alternating c => PermutationAutomatonConfig.base c
  | Cyclic c => CyclicAutomatonConfig.base c
  | Dihedral c => DihedralAutomatonConfig.base c
  | FlipFlop c => FlipFlopAutomatonConfig.base c
  | Gridworld c => GridworldAutomatonConfig.base c
  | Parity c => ParityAutomatonConfig.base c
  | Quaternion c => QuaternionAutomatonConfig.base c
  | PermutationReset c => PermutationResetAutomatonConfig.base c
  | Symmetric c => PermutationAutomatonConfig.base (SymmetricAutomatonConfig.parent c)
  end.

(** The property [vocab_size] of an instance. *)
Definition vocab_size (t : TaskConfig) : result pyval :=
  match t with
  | ABAB c => ABABAutomatonConfig.vocab_size c
  | Adder c => AdderAutomatonConfig.vocab_size c
  | Alternating c => AlternatingAutomatonConfig.vocab_size c
  | Cyclic c => CyclicAutomatonConfig.vocab_size c
  | Dihedral c => DihedralAutomatonConfig.vocab_size c
  | FlipFlop c => FlipFlopAutomatonConfig.vocab_size c
  | Gridworld c => GridworldAutomatonConfig.vocab_size c
  | Parity c => ParityAutomatonConfig.vocab_size c
  | Quaternion c => QuaternionAutomatonConfig.vocab_size c
  | PermutationReset c => PermutationResetAutomatonConfig.vocab_size c
  | Symmetric c => SymmetricAutomatonConfig.vocab_size c
  end.

(** The property [output_vocab_size] of an instance. *)
Definition output_vocab_size (t : TaskConfig) : result pyval :=
  match t with
  | ABAB c => ABABAutomatonConfig.output_vocab_size c
  | Adder c => AdderAutomatonConfig.output_vocab_size c
  | Alternating c => AlternatingAutomatonConfig.output_vocab_size c
  | Cyclic c => CyclicAutomatonConfig.output_vocab_size c
  | Dihedral c => DihedralAutomatonConfig.output_vocab_size c
  | FlipFlop c => FlipFlopAutomatonConfig.output_vocab_size c
  | Gridworld c => GridworldAutomatonConfig.output_vocab_size c
  | Parity c => ParityAutomatonConfig.output_vocab_size c
  | Quaternion c => QuaternionAutomatonConfig.output_vocab_size c
  | PermutationReset c => PermutationResetAutomatonConfig.output_vocab_size c
  | Symmetric c => SymmetricAutomatonConfig.output_vocab_size c
  end.

(** A class of the registry is its constructor, applied to the raw
    mapping: [config_class( **task_config )]. *)
Definition config_class : Type := RawTask.t → result TaskConfig.

Definition config_class_map : gmap string config_class :=
  list_to_map [
    ("abab", fun raw => ABAB <$> ABABAutomatonConfig.new raw);
    ("adder", fun raw => Adder <$> AdderAutomatonConfig.new raw);
    ("alternating", fun raw => Alternating <$> AlternatingAutomatonConfig.new raw);
    ("cyclic", fun raw => Cyclic <$> CyclicAutomatonConfig.new raw);
    ("dihedral", fun raw => Dihedral <$> DihedralAutomatonConfig.new raw);
    ("flipflop", fun raw => FlipFlop <$> FlipFlopAutomatonConfig.new raw);
    ("gridworld", fun raw => Gridworld <$> GridworldAutomatonConfig.new raw);
    ("parity", fun raw => Parity <$> ParityAutomatonConfig.new raw);
    ("quaternion", fun raw => Quaternion <$> QuaternionAutomatonConfig.new raw);
    ("permutation_reset", fun raw => PermutationReset <$> PermutationResetAutomatonConfig.new raw);
    ("symmetric", fun raw => Symmetric <$> SymmetricAutomatonConfig.new raw)
  ].

(** [d[k]] on a dictionary. *)
Definition getitem {V} (d : gmap string V) (k : string) : result V :=
  match d !! k with
  | Some v => Ok v
  | None => Raise (KeyError k)
  end.

(** ** The raw input of [MainConfig]

    [_set_fields] is a [pre=True] root validator: it receives the raw
    keyword arguments, before any default is filled in, and reads them by
    key. The records below are that mapping with every key it reads
    present; a key whose value may be [None] is an [option]. Fields that
    no modelled computation reads are left out. *)

(** The Python class of a nested mapping. A builtin [dict] is read by
    key only ([m["k"]]); a mapping such as OmegaConf's [DictConfig]
    is read by key and by attribute ([m.k]). *)
Inductive mapping_class : Type := Dict | DictConfig.

(** [sgld_kwargs] and [sgnht_kwargs]: of their keys only [num_samples]
    is read or written. *)
Module SamplerKwargs.
Record t : Type := Build { num_samples : pyval }.
End SamplerKwargs.

Inductive RLCTSamplerType : Type := SGLD | SGLD_MA | SGNHT.

Module RLCT.
Record t : Type := Build {
  class : mapping_class;
  sampling_method : option RLCTSamplerType;
  num_chains : Z;
  num_draws : Z;
  num_samples : pyval;
  num_burnin_steps : Z;
  num_steps_bw_draws : Z;
  batch_size : Z;
  online : bool;
  use_distill_loss : bool;
  use_diagnostics : bool;
  sgld_kwargs : option SamplerKwargs.t;
  sgnht_kwargs : option SamplerKwargs.t;
  rlct_data_dir : option string;
}.

Definition set_rlct_data_dir (d : string) (c : t) : t :=
  Build (class c) (sampling_method c) (num_chains c) (num_draws c) (num_samples c) (num_burnin_steps c)
        (num_steps_bw_draws c) (batch_size c) (online c) (use_distill_loss c)
        (use_diagnostics c) (sgld_kwargs c) (sgnht_kwargs c) (Some d).

Definition set_num_samples (x : pyval) (c : t) : t :=
  Build (class c) (sampling_method c) (num_chains c) (num_draws c) x (num_burnin_steps c)
        (num_steps_bw_draws c) (batch_size c) (online c) (use_distill_loss c)
        (use_diagnostics c) (sgld_kwargs c) (sgnht_kwargs c) (rlct_data_dir c).

Definition set_sgld_kwargs (k : SamplerKwargs.t) (c : t) : t :=
  Build (class c) (sampling_method c) (num_chains c) (num_draws c) (num_samples c) (num_burnin_steps c)
        (num_steps_bw_draws c) (batch_size c) (online c) (use_distill_loss c)
        (use_diagnostics c) (Some k) (sgnht_kwargs c) (rlct_data_dir c).

Definition set_sgnht_kwargs (k : SamplerKwargs.t) (c : t) : t :=
  Build (class c) (sampling_method c) (num_chains c) (num_draws c) (num_samples c) (num_burnin_steps c)
        (num_steps_bw_draws c) (batch_size c) (online c) (use_distill_loss c)
        (use_diagnostics c) (sgld_kwargs c) (Some k) (rlct_data_dir c).

Definition set_num_burnin_steps (x : Z) (c : t) : t :=
  Build (class c) (sampling_method c) (num_chains c) (num_draws c) (num_samples c) x
        (num_steps_bw_draws c) (batch_size c) (online c) (use_distill_loss c)
        (use_diagnostics c) (sgld_kwargs c) (sgnht_kwargs c) (rlct_data_dir c).

(** [c.num_burnin_steps], by attribute. *)
Definition getattr_num_burnin_steps (c : t) : result Z :=
  match class c with
  | DictConfig => Ok (num_burnin_steps c)
  | Dict => Raise (AttributeError "'dict' object has no attribute 'num_burnin_steps'")
  end.
End RLCT.

Module NanoGPT.
Record t : Type := Build {
  block_size : Z;
  vocab_size : pyval;
  output_vocab_size : pyval;
  n_layers : Z;
}.
End NanoGPT.

Module DataLoader.
Record t : Type := Build { train_bs : Z }.
End DataLoader.

(** [default_lr] is a float that [_set_fields] only formats into the run
    name: it is kept as the text [str()] gives for it. *)
Module Optimizer.
Record t : Type := Build { default_lr : string }.
End Optimizer.

Module WandB.
Record t : Type := Build {
  log_to_wandb : bool;
  sweep : bool;
  sweep_num : option Z;
}.

(** [check_sweep_num(cls, value, values)] with [values.get('sweep')]. *)
Definition check_sweep_num (value : option Z) (values_sweep : bool) : result (option Z) :=
  if values_sweep && bool_decide (value = None)
  then Raise (ValueError "Must specify sweep_num if sweep is True.")
  else Ok value.

Definition validate (c : t) : result t :=
  s ← check_sweep_num (sweep_num c) (sweep c);
  Ok (Build (log_to_wandb c) (sweep c) s).
End WandB.

Module Main.
Record t : Type := Build {
  model_type : string;
  task_config : RawTask.t;
  dataloader_config : DataLoader.t;
  optimizer_config : Optimizer.t;
  nano_gpt_config : option NanoGPT.t;
  rlct_config : option RLCT.t;
  wandb_config : option WandB.t;
  num_training_iter : Z;
  run_name : option string;
  is_wandb_enabled : option bool;
  num_epochs : option Z;
  eval_frequency : option Z;
}.

Definition set_eval_frequency (x : Z) (v : t) : t :=
  Build (model_type v) (task_config v) (dataloader_config v) (optimizer_config v)
        (nano_gpt_config v) (rlct_config v) (wandb_config v) (num_training_iter v)
        (run_name v) (is_wandb_enabled v) (num_epochs v) (Some x).

Definition set_run_name (x : string) (v : t) : t :=
  Build (model_type v) (task_config v) (dataloader_config v) (optimizer_config v)
        (nano_gpt_config v) (rlct_config v) (wandb_config v) (num_training_iter v)
        (Some x) (is_wandb_enabled v) (num_epochs v) (eval_frequency v).

Definition set_is_wandb_enabled (x : option bool) (v : t) : t :=
  Build (model_type v) (task_config v) (dataloader_config v) (optimizer_config v)
        (nano_gpt_config v) (rlct_config v) (wandb_config v) (num_training_iter v)
        (run_name v) x (num_epochs v) (eval_frequency v).

Definition set_num_epochs (x : Z) (v : t) : t :=
  Build (model_type v) (task_config v) (dataloader_config v) (optimizer_config v)
        (nano_gpt_config v) (rlct_config v) (wandb_config v) (num_training_iter v)
        (run_name v) (is_wandb_enabled v) (Some x) (eval_frequency v).

Definition set_nano_gpt_config (x : NanoGPT.t) (v : t) : t :=
  Build (model_type v) (task_config v) (dataloader_config v) (optimizer_config v)
        (Some x) (rlct_config v) (wandb_config v) (num_training_iter v)
        (run_name v) (is_wandb_enabled v) (num_epochs v) (eval_frequency v).

Definition set_rlct_config (x : RLCT.t) (v : t) : t :=
  Build (model_type v) (task_config v) (dataloader_config v) (optimizer_config v)
        (nano_gpt_config v) (Some x) (wandb_config v) (num_training_iter v)
        (run_name v) (is_wandb_enabled v) (num_epochs v) (eval_frequency v).
End Main.

(** [m[...]] on a value that may be [None]. *)
Definition subscript {A} (o : option A) : result A :=
  match o with
  | Some a => Ok a
  | None => Raise (TypeError "'NoneType' object is not subscriptable")
  end.

(** [m[...] = x] on a value that may be [None]. *)
Definition subscript_store {A} (o : option A) : result A :=
  match o with
  | Some a => Ok a
  | None => Raise (TypeError "'NoneType' object does not support item assignment")
  end.

(** [not x] for an [Optional[int]]: [None] and [0] are false. *)
Definition not_truthy (o : option Z) : bool :=
  match o with
  | None => true
  | Some z => z =? 0
  end.

Definition burnin_message : string :=
  "Burn-in is currently not implemented correctly, please set num_burnin_steps to 0.".

(** ** [MainConfig] *)

(** The operand of an arithmetic operator read from a key that may hold
    [None]. *)
Definition int_operand (o : option Z) : result Z :=
  match o with
  | Some z => Ok z
  | None => Raise (TypeError "unsupported operand type(s) for /: 'int' and 'NoneType'")
  end.

(** The f-string of line 514. *)
Definition format_run_name (v : Main.t) (n_layers : Z) : string :=
  RawTask.dataset_type (Main.task_config v) +:+ "_" +:+ Main.model_type v
  +:+ "_LR" +:+ Optimizer.default_lr (Main.optimizer_config v)
  +:+ "_its" +:+ pretty (Main.num_training_iter v)
  +:+ "_layers" +:+ pretty n_layers
  +:+ "_seqlen" +:+ pretty (RawTask.length (Main.task_config v)).

(** [MainConfig._set_fields(cls, v)], statement by statement. The
    dictionary [v] is updated in place and returned; here each update
    gives the next [v]. *)
Definition _set_fields (v : Main.t) : result Main.t :=
  (* Instantiate correct class for task config *)
  let task_config := Main.task_config v in
  config_class ← getitem config_class_map (RawTask.dataset_type task_config);
  task_config_instance ← config_class task_config;
  let v := if not_truthy (Main.eval_frequency v)
           then Main.set_eval_frequency (RawTask.size task_config) v
           else v in
  nano ← subscript (Main.nano_gpt_config v);
  let v := Main.set_run_name (format_run_name v (NanoGPT.n_layers nano)) v in
  let v := Main.set_is_wandb_enabled
             (match Main.wandb_config v with
              | Some w => Some (WandB.log_to_wandb w)
              | None => None
              end) v in
  eval_frequency ← int_operand (Main.eval_frequency v);
  quotient ← int_truediv (Main.num_training_iter v) eval_frequency;
  let v := Main.set_num_epochs (math_ceil quotient) v in
  (* Adjust NanoGPTConfig based on DatasetConfig *)
  v ← match Main.nano_gpt_config v with
      | Some nano_gpt_config =>
          let block_size := RawTask.length task_config + 1 in
          vocab ← vocab_size task_config_instance;
          output_vocab ← output_vocab_size task_config_instance;
          Ok (Main.set_nano_gpt_config
                (NanoGPT.Build block_size vocab output_vocab
                               (NanoGPT.n_layers nano_gpt_config)) v)
      | None => Ok v
      end;
  (* Adjust RLCT parameters *)
  rlct_config ← subscript (Main.rlct_config v);
  let data_dir := if negb (RLCT.use_distill_loss rlct_config)
                  then "rlct_data" else "rlct_data_distill" in
  let rlct_config := RLCT.set_rlct_data_dir data_dir rlct_config in
  (* Set total number of unique samples seen (n) *)
  let seen := (RLCT.num_draws rlct_config * RLCT.num_steps_bw_draws rlct_config
               + RLCT.num_burnin_steps rlct_config)
              * DataLoader.train_bs (Main.dataloader_config v) in
  vocab ← vocab_size task_config_instance;
  population ← py_pow vocab (DatasetConfig.length (task_base task_config_instance));
  num_samples ← py_min seen population;
  let rlct_config := RLCT.set_num_samples num_samples rlct_config in
  (* Copy num samples to sampler kwargs *)
  _ ← subscript_store (RLCT.sgld_kwargs rlct_config);
  let rlct_config := RLCT.set_sgld_kwargs (SamplerKwargs.Build num_samples) rlct_config in
  _ ← subscript_store (RLCT.sgnht_kwargs rlct_config);
  let rlct_config := RLCT.set_sgnht_kwargs (SamplerKwargs.Build num_samples) rlct_config in
  let v := Main.set_rlct_config rlct_config v in
  (* Burnin not implemented yet *)
  burnin ← RLCT.getattr_num_burnin_steps rlct_config;
  _ ← py_assert (burnin =? 0) burnin_message;
  Ok v.

(** [MainConfig( **raw )]: the root validator, then the validation of the
    fields. With the raw input typed as above, the one field validator
    that can still fail is [WandBConfig.check_sweep_num]; [wandb_config]
    itself is not optional. The result is the validator's dictionary:
    [model_type] is taken to hold the value of a [ModelType] member, and
    the conversion of the entries to the declared field types, which
    builds the model object, is not part of the model. *)
Definition MainConfig (raw : Main.t) : result Main.t :=
  v ← _set_fields raw;
  match Main.wandb_config v with
  | None => Raise (ValidationError "wandb_config")
  | Some w => _ ← WandB.validate w; Ok v
  end.

(** The keyword arguments as a caller passes them. [Main.t] holds a
    value under every key; the key [eval_frequency] may also be left
    out, and [v["eval_frequency"]] at line 511 is then a [KeyError],
    raised once lines 507 to 509 have instantiated the task class. With
    the key present the construction is [MainConfig] on the mapping that
    holds its value. *)
Definition keyword_eval_frequency (eval_frequency : option Z) (rest : Main.t) : Main.t :=
  Main.Build (Main.model_type rest) (Main.task_config rest) (Main.dataloader_config rest)
             (Main.optimizer_config rest) (Main.nano_gpt_config rest) (Main.rlct_config rest)
             (Main.wandb_config rest) (Main.num_training_iter rest)
             (Main.run_name rest) (Main.is_wandb_enabled rest) (Main.num_epochs rest)
             eval_frequency.

Definition MainConfig_kwargs (eval_frequency : arg Z) (rest : Main.t) : result Main.t :=
  match eval_frequency with
  | Absent =>
      let task_config := Main.task_config rest in
      config_class ← getitem config_class_map (RawTask.dataset_type task_config);
      _ ← config_class task_config;
      Raise (KeyError "eval_frequency")
  | Null => MainConfig (keyword_eval_frequency None rest)
  | Given z => MainConfig (keyword_eval_frequency (Some z) rest)
  end.

(** ** Callback assembly ([rlct_utils.py]) *)

(** The estimator and diagnostic classes live outside the modelled
    files; an instance is the class together with the arguments its
    constructor was given. *)
Inductive Callback : Type :=
  | LLCEstimator (num_chains num_draws : Z) (num_samples : pyval) (device : string)
  | OnlineLLCEstimator (num_chains num_draws : Z) (num_samples : pyval) (device : string)
  | OnlineWBICEstimator (num_chains num_draws : Z) (num_samples : pyval) (device : string)
  | WeightNorm (num_chains num_draws : Z) (device : string) (p_norm : Z)
  | NoiseNorm (num_chains num_draws : Z) (device : string) (p_norm : Z)
  | GradientNorm (num_chains num_draws : Z) (device : string) (p_norm : Z).

(** [type(callback).__name__] *)
Definition type_name (c : Callback) : string :=
  match c with
  | LLCEstimator _ _ _ _ => "LLCEstimator"
  | OnlineLLCEstimator _ _ _ _ => "OnlineLLCEstimator"
  | OnlineWBICEstimator _ _ _ _ => "OnlineWBICEstimator"
  | WeightNorm _ _ _ _ => "WeightNorm"
  | NoiseNorm _ _ _ _ => "NoiseNorm"
  | GradientNorm _ _ _ _ => "GradientNorm"
  end.

(** [config.rlct_config.<field>] on a validated configuration. *)
Definition getattr_rlct_config (config : Main.t) : result RLCT.t :=
  match Main.rlct_config config with
  | Some c => Ok c
  | None => Raise (AttributeError "'NoneType' object has no attribute 'num_chains'")
  end.

Section create_callbacks.
(** [validate_callbacks] is imported from
    [di_automata.devinterp.slt.callback]: it returns nothing, or
    raises. *)
Variable validate_callbacks : list Callback → result unit.

Definition create_callbacks (config : Main.t) (device : string)
  : result (list Callback * list string) :=
  rlct_config ← getattr_rlct_config config;
  let num_chains := RLCT.num_chains rlct_config in
  let num_draws := RLCT.num_draws rlct_config in
  let num_samples := RLCT.num_samples rlct_config in
  let llc_estimator :=
    if RLCT.online rlct_config
    then OnlineLLCEstimator num_chains num_draws num_samples device
    else LLCEstimator num_chains num_draws num_samples device in
  let callbacks :=
    if RLCT.use_diagnostics rlct_config
    then [ OnlineWBICEstimator num_chains num_draws num_samples device;
           WeightNorm num_chains num_draws device 2;
           NoiseNorm num_chains num_draws device 2;
           GradientNorm num_chains num_draws device 2 ]
    else [] in
  let callbacks := llc_estimator :: callbacks in
  _ ← validate_callbacks callbacks;
  let callback_names := foldl (fun names callback => names ++ [type_name callback]) [] callbacks in
  Ok (callbacks, callback_names).
End create_callbacks.

(** The chain and draw counts a handle was built for. *)
Definition expectations (c : Callback) : Z * Z :=
  match c with
  | LLCEstimator ch dr _ _ | OnlineLLCEstimator ch dr _ _ | OnlineWBICEstimator ch dr _ _
  | WeightNorm ch dr _ _ | NoiseNorm ch dr _ _ | GradientNorm ch dr _ _ => (ch, dr)
  end.

(** Modelled from the spec: [validate_callbacks], whose source is not
    among the modelled files. The spec (section 4.4) has the assembler
    fail with [IncompatibleCallbackSet] "if two handles declare
    conflicting chain/draw expectations". *)
Definition validate_callbacks (callbacks : list Callback) : result unit :=
  match callbacks with
  | [] => Ok tt
  | c :: rest =>
      if forallb (fun c' => bool_decide (expectations c' = expectations c)) rest
      then Ok tt
      else Raise IncompatibleCallbackSet
  end.


(** ** Derived notions used in the statements *)

(** The instance a registry entry builds from a raw mapping: lines
    507 to 509 of [_set_fields]. *)
Definition resolve (raw : RawTask.t) : result TaskConfig :=
  cls ← getitem config_class_map (RawTask.dataset_type raw);
  cls raw.

(** One of the two queries, on the instance built from a raw mapping. *)
Definition query (q : TaskConfig → result pyval) (raw : RawTask.t) : result pyval :=
  instance ← resolve raw;
  q instance.

(** The primary estimator and the diagnostic handles of
    [create_callbacks]. *)
Definition primary_estimator (rlct_config : RLCT.t) (device : string) : Callback :=
  (if RLCT.online rlct_config then OnlineLLCEstimator else LLCEstimator)
    (RLCT.num_chains rlct_config) (RLCT.num_draws rlct_config)
    (RLCT.num_samples rlct_config) device.

Definition diagnostics (rlct_config : RLCT.t) (device : string) : list Callback :=
  [ OnlineWBICEstimator (RLCT.num_chains rlct_config) (RLCT.num_draws rlct_config)
      (RLCT.num_samples rlct_config) device;
    WeightNorm (RLCT.num_chains rlct_config) (RLCT.num_draws rlct_config) device 2;
    NoiseNorm (RLCT.num_chains rlct_config) (RLCT.num_draws rlct_config) device 2;
    GradientNorm (RLCT.num_chains rlct_config) (RLCT.num_draws rlct_config) device 2 ].

(** The value [v["eval_frequency"]] holds after line 512. *)
Definition effective_eval_frequency (v : Main.t) : Z :=
  match Main.eval_frequency v with
  | Some z => if z =? 0 then RawTask.size (Main.task_config v) else z
  | None => RawTask.size (Main.task_config v)
  end.

(** The first argument of the [min] of line 535. *)
Definition samples_seen (v : Main.t) (rlct_config : RLCT.t) : Z :=
  (RLCT.num_draws rlct_config * RLCT.num_steps_bw_draws rlct_config
   + RLCT.num_burnin_steps rlct_config)
  * DataLoader.train_bs (Main.dataloader_config v).

(** The RLCT section after lines 530 to 537. *)
Definition derived_rlct (rlct_config : RLCT.t) (num_samples : pyval) : RLCT.t :=
  RLCT.set_sgnht_kwargs (SamplerKwargs.Build num_samples)
    (RLCT.set_sgld_kwargs (SamplerKwargs.Build num_samples)
       (RLCT.set_num_samples num_samples
          (RLCT.set_rlct_data_dir
             (if negb (RLCT.use_distill_loss rlct_config)
              then "rlct_data" else "rlct_data_distill")
             rlct_config))).

(** The exact ceiling of the rational [a / b]. *)
Definition ceil_div (a b : Z) : Z := - ((- a) / b).

(** ** Sample inputs *)



Definition permutation_reset_task (n : arg Z) (generators : arg (list (list Z)))
    (perm_probs : arg (list float)) : RawTask.t :=
  RawTask.Build "permutation_reset" 600000 100 n Absent Absent Absent generators perm_probs.

(** A parity task on sequences of length 3: eight distinct sequences. *)
Definition parity_task : RawTask.t :=
  RawTask.Build "parity" 600000 3 Absent Absent Absent Absent Absent Absent.

Definition sample_rlct (class : mapping_class) (num_burnin_steps : Z) : RLCT.t :=
  RLCT.Build class (Some SGLD) 10 100 PyNone num_burnin_steps 1 64 false false true
             (Some (SamplerKwargs.Build PyNone)) (Some (SamplerKwargs.Build PyNone)) None.

Definition sample_input (class : mapping_class) (num_burnin_steps : Z)
    (eval_frequency : option Z) : Main.t :=
  Main.Build "NANO_GPT" parity_task (DataLoader.Build 64) (Optimizer.Build "0.001")
             (Some (NanoGPT.Build 1024 (PyInt 50304) PyNone 12))
             (Some (sample_rlct class num_burnin_steps))
             (Some (WandB.Build true false None))
             10000 None None None eval_frequency.

(** What the construction returns on an input it accepts. *)
Definition constructed (raw : Main.t) : Main.t :=
  match MainConfig raw with
  | Ok v => v
  | Raise _ => raw
  end.

(** The sample input with [DictConfig] sections, no burn-in and no
    [eval_frequency], and the configuration built from it. *)
Definition accepted_input : Main.t := sample_input DictConfig 0 None.
Definition accepted_output : Main.t := Eval vm_compute in constructed accepted_input.

(** The same with [eval_frequency = -5]. *)
Definition negative_input : Main.t := sample_input DictConfig 0 (Some (-5)).
Definition negative_output : Main.t := Eval vm_compute in constructed negative_input.

(** The sample input with [10^17 + 1] training iterations and an
    [eval_frequency] of [10^17]. *)
Definition beyond_input : Main.t :=
  Main.Build "NANO_GPT" parity_task (DataLoader.Build 64) (Optimizer.Build "0.001")
             (Some (NanoGPT.Build 1024 (PyInt 50304) PyNone 12))
             (Some (sample_rlct DictConfig 0))
             (Some (WandB.Build true false None))
             (10 ^ 17 + 1) None None None (Some (10 ^ 17)).
Definition beyond_output : Main.t := Eval vm_compute in constructed beyond_input.

(** The dictionary [_set_fields] returns on an input it accepts. *)
Definition derived_config (v : Main.t) (nano : NanoGPT.t) (rlct : RLCT.t)
    (vocab output_vocab num_samples : pyval) (quotient : float) : Main.t :=
  Main.Build (Main.model_type v) (Main.task_config v) (Main.dataloader_config v)
    (Main.optimizer_config v)
    (Some (NanoGPT.Build (RawTask.length (Main.task_config v) + 1) vocab output_vocab
                         (NanoGPT.n_layers nano)))
    (Some (derived_rlct rlct num_samples))
    (Main.wandb_config v) (Main.num_training_iter v)
    (Some (format_run_name v (NanoGPT.n_layers nano)))
    (match Main.wandb_config v with Some w => Some (WandB.log_to_wandb w) | None => None end)
    (Some (math_ceil quotient))
    (Some (effective_eval_frequency v)).

(** [DatasetType]: the members and their string values. *)
Module DatasetType.
Inductive t : Type :=
  | ABAB | ADDER | ALTERNATING | CYCLIC | DIHEDRAL | FLIPFLOP
  | GRIDWORLD | PARITY | QUATERNION | SYMMETRIC | PERMUTATION_RESET.

Definition value (d : t) : string :=
  match d with
  | ABAB => "abab"
  | ADDER => "adder"
  | ALTERNATING => "alternating"
  | CYCLIC => "cyclic"
  | DIHEDRAL => "dihedral"
  | FLIPFLOP => "flipflop"
  | GRIDWORLD => "gridworld"
  | PARITY => "parity"
  | QUATERNION => "quaternion"
  | SYMMETRIC => "symmetric"
  | PERMUTATION_RESET => "permutation_reset"
  end.
End DatasetType.

(** A variation of the sample input: another task and other sections. *)
Definition sample_input_with (task : RawTask.t) (nano : option NanoGPT.t)
    (rlct : option RLCT.t) (wandb : option WandB.t) : Main.t :=
  Main.Build "NANO_GPT" task (DataLoader.Build 64) (Optimizer.Build "0.001")
             nano rlct wandb 10000 None None None None.

Definition sample_nano : NanoGPT.t := NanoGPT.Build 1024 (PyInt 50304) PyNone 12.

Definition sample_wandb : WandB.t := WandB.Build true false None.

(** A task with a tag that is no [DatasetType]. *)
Definition mnist_task : RawTask.t :=
  RawTask.Build "mnist" 600000 3 Absent Absent Absent Absent Absent Absent.

(** A cyclic task whose [n] is [None]. *)
Definition cyclic_none_task : RawTask.t :=
  RawTask.Build "cyclic" 600000 3 Null Absent Absent Absent Absent Absent.

(** A gridworld task whose [label_type] is [None]. *)
Definition gridworld_unlabelled_task : RawTask.t :=
  RawTask.Build "gridworld" 600000 3 Absent Absent Absent Null Absent Absent.

(** Another accepted input on the same task, with the same draws, steps
    and training batch size; everything else differs. *)
Definition other_input : Main.t :=
  Main.Build "TRANSFORMERLENS_GPT2_SMALL" parity_task (DataLoader.Build 64) (Optimizer.Build "0.5")
    (Some (NanoGPT.Build 1 PyNone PyNone 2))
    (Some (RLCT.Build DictConfig (Some SGNHT) 3 100 PyNone 0 1 1 true true false
             (Some (SamplerKwargs.Build PyNone)) (Some (SamplerKwargs.Build PyNone)) None))
    (Some (WandB.Build false false None)) 77 None None None (Some 5).

(** What the constructor makes of it. *)
Definition other_output : Main.t := Eval vm_compute in constructed other_input.

(** * Properties *)

(** ** The task classes *)

(** The table of section 4.1 of the spec, variant by variant, on
    instances whose integer fields are set. *)
Lemma vocabulary_table (b : DatasetConfig.t) (n : Z) (k : nat) (gens : list (list Z))
    (probs : list float) :
  vocab_size (Parity (ParityAutomatonConfig.Build b)) = Ok (PyInt 2)
  ∧ output_vocab_size (Parity (ParityAutomatonConfig.Build b)) = Ok (PyInt 2)
  ∧ (∀ l, vocab_size (Gridworld (GridworldAutomatonConfig.Build b (Some n) l)) = Ok (PyInt 2))
  ∧ output_vocab_size (Gridworld (GridworldAutomatonConfig.Build b (Some n)
        (Some GridworldAutomatonConfig.STATE))) = Ok (PyInt n)
  ∧ output_vocab_size (Gridworld (GridworldAutomatonConfig.Build b (Some n)
        (Some GridworldAutomatonConfig.PARITY))) = Ok (PyInt 2)
  ∧ output_vocab_size (Gridworld (GridworldAutomatonConfig.Build b (Some n)
        (Some GridworldAutomatonConfig.BOUNDARY))) = Ok (PyInt 2)
  ∧ (∀ l, vocab_size (ABAB (ABABAutomatonConfig.Build b l)) = Ok (PyInt 2))
  ∧ output_vocab_size (ABAB (ABABAutomatonConfig.Build b (Some ABABAutomatonConfig.STATE)))
    = Ok (PyInt 4)
  ∧ output_vocab_size (ABAB (ABABAutomatonConfig.Build b (Some ABABAutomatonConfig.BOUNDARY)))
    = Ok (PyInt 2)
  ∧ vocab_size (FlipFlop (FlipFlopAutomatonConfig.Build b (Some n))) = Ok (PyInt (n + 1))
  ∧ output_vocab_size (FlipFlop (FlipFlopAutomatonConfig.Build b (Some n))) = Ok (PyInt (n + 1))
  ∧ (∀ l, vocab_size (Alternating (PermutationAutomatonConfig.Build b (Some n) l)) = Ok (PyInt n))
  ∧ output_vocab_size (Alternating (PermutationAutomatonConfig.Build b (Some (Z.of_nat k))
        (Some PermutationAutomatonConfig.STATE))) = Ok (PyInt (Z.of_nat (fact k)))
  ∧ output_vocab_size (Alternating (PermutationAutomatonConfig.Build b (Some n)
        (Some PermutationAutomatonConfig.FIRST_CHAIR))) = Ok (PyInt n)
  ∧ (∀ a, output_vocab_size (Symmetric (SymmetricAutomatonConfig.Build
        (PermutationAutomatonConfig.Build b (Some (Z.of_nat k))
           (Some PermutationAutomatonConfig.STATE)) a)) = Ok (PyInt (Z.of_nat (fact k))))
  ∧ (∀ a, vocab_size (Cyclic (CyclicAutomatonConfig.Build b (Some n) a)) = Ok (PyInt n))
  ∧ (∀ a, output_vocab_size (Cyclic (CyclicAutomatonConfig.Build b (Some n) a)) = Ok (PyInt n))
  ∧ vocab_size (Quaternion (QuaternionAutomatonConfig.Build b)) = Ok (PyInt 4)
  ∧ output_vocab_size (Quaternion (QuaternionAutomatonConfig.Build b)) = Ok (PyInt 8)
  ∧ vocab_size (PermutationReset (PermutationResetAutomatonConfig.Build b (Z.of_nat k) gens probs))
    = Ok (PyInt (Z.of_nat (fact k) + Z.of_nat (length gens)))
  ∧ output_vocab_size (PermutationReset
        (PermutationResetAutomatonConfig.Build b (Z.of_nat k) gens probs))
    = Ok (PyInt (Z.of_nat (fact k))).
Proof.
  assert (Hf : math_factorial (Z.of_nat k) = Ok (Z.of_nat (fact k))).
  { unfold math_factorial. destruct (Z.ltb_spec (Z.of_nat k) 0); [lia|]. by rewrite Nat2Z.id. }
  repeat split; intros; simpl; try reflexivity;
    unfold AlternatingAutomatonConfig.output_vocab_size,
      SymmetricAutomatonConfig.output_vocab_size,
      PermutationAutomatonConfig.output_vocab_size,
      PermutationResetAutomatonConfig.vocab_size,
      PermutationResetAutomatonConfig.output_vocab_size; simpl; rewrite ?Hf; reflexivity.
Qed.


(** ** Callback assembly *)

(** The loop that collects the class names. *)
Lemma foldl_type_names (l : list Callback) (acc : list string) :
  foldl (fun names callback => names ++ [type_name callback]) acc l = acc ++ map type_name l.
Proof.
  revert acc. induction l as [|c l IH]; intros acc; simpl.
  - by rewrite app_nil_r.
  - rewrite IH. by rewrite <- app_assoc.
Qed.

Section create_callbacks_spec.
Variable validate : list Callback → result unit.

(** Whatever the imported check is, when it accepts the assembled list
    the function returns that list and the class names, in order. *)
Lemma create_callbacks_accepted (config : Main.t) (device : string) (rlct_config : RLCT.t) :
  Main.rlct_config config = Some rlct_config →
  let callbacks :=
    primary_estimator rlct_config device
    :: (if RLCT.use_diagnostics rlct_config then diagnostics rlct_config device else []) in
  validate callbacks = Ok tt →
  create_callbacks validate config device = Ok (callbacks, map type_name callbacks).
Proof.
  intros Hrlct callbacks Hvalid.
  unfold create_callbacks, getattr_rlct_config. rewrite Hrlct. simpl.
  assert (Hcb : (if RLCT.online rlct_config
      then OnlineLLCEstimator (RLCT.num_chains rlct_config) (RLCT.num_draws rlct_config)
             (RLCT.num_samples rlct_config) device
      else LLCEstimator (RLCT.num_chains rlct_config) (RLCT.num_draws rlct_config)
             (RLCT.num_samples rlct_config) device) = primary_estimator rlct_config device).
  { unfold primary_estimator. by destruct (RLCT.online rlct_config). }
  rewrite Hcb. fold (diagnostics rlct_config device). fold callbacks.
  rewrite Hvalid. simpl. by rewrite foldl_type_names.
Qed.
End create_callbacks_spec.

(** Every handle of the assembled list is built with the same chain and
    draw counts, so the compatibility check accepts it. *)
Lemma validate_callbacks_assembled (rlct_config : RLCT.t) (device : string) :
  validate_callbacks
    (primary_estimator rlct_config device
     :: (if RLCT.use_diagnostics rlct_config then diagnostics rlct_config device else []))
  = Ok tt.
Proof.
  unfold validate_callbacks, primary_estimator, diagnostics.
  destruct (RLCT.use_diagnostics rlct_config), (RLCT.online rlct_config); simpl;
    rewrite ?bool_decide_eq_true_2; done.
Qed.

(** C8. On a configuration with an RLCT section, [create_callbacks]
    returns a list that starts with the complexity estimator
    ([OnlineLLCEstimator] when [online] is set, [LLCEstimator]
    otherwise), followed, when [use_diagnostics] is set, by exactly the
    four handles [OnlineWBICEstimator], [WeightNorm], [NoiseNorm],
    [GradientNorm] in this order, and by nothing when it is not set;
    the second component lists the class names in the same order. *)
Theorem create_callbacks_order (config : Main.t) (device : string) (rlct_config : RLCT.t) :
  Main.rlct_config config = Some rlct_config →
  ∃ rest,
    create_callbacks validate_callbacks config device
    = Ok (primary_estimator rlct_config device :: rest,
          type_name (primary_estimator rlct_config device) :: map type_name rest)
    ∧ type_name (primary_estimator rlct_config device)
      = (if RLCT.online rlct_config then "OnlineLLCEstimator" else "LLCEstimator")
    ∧ (RLCT.use_diagnostics rlct_config = true →
       rest = diagnostics rlct_config device ∧ length rest = 4%nat
       ∧ map type_name rest
         = ["OnlineWBICEstimator"; "WeightNorm"; "NoiseNorm"; "GradientNorm"])
    ∧ (RLCT.use_diagnostics rlct_config = false → rest = []).
Proof.
  intros Hrlct.
  exists (if RLCT.use_diagnostics rlct_config then diagnostics rlct_config device else []).
  split; [|split; [|split]].
  - apply (create_callbacks_accepted validate_callbacks config device rlct_config Hrlct).
    apply validate_callbacks_assembled.
  - unfold primary_estimator. by destruct (RLCT.online rlct_config).
  - intros ->. done.
  - intros ->. done.
Qed.

Lemma create_callbacks_order_witness :
  ∃ rest,
    create_callbacks validate_callbacks (sample_input DictConfig 0 None) "cpu"
    = Ok (primary_estimator (sample_rlct DictConfig 0) "cpu" :: rest,
          type_name (primary_estimator (sample_rlct DictConfig 0) "cpu") :: map type_name rest)
    ∧ type_name (primary_estimator (sample_rlct DictConfig 0) "cpu")
      = (if RLCT.online (sample_rlct DictConfig 0) then "OnlineLLCEstimator" else "LLCEstimator")
    ∧ (RLCT.use_diagnostics (sample_rlct DictConfig 0) = true →
       rest = diagnostics (sample_rlct DictConfig 0) "cpu" ∧ length rest = 4%nat
       ∧ map type_name rest
         = ["OnlineWBICEstimator"; "WeightNorm"; "NoiseNorm"; "GradientNorm"])
    ∧ (RLCT.use_diagnostics (sample_rlct DictConfig 0) = false → rest = []).
Proof.
  apply (create_callbacks_order (sample_input DictConfig 0 None) "cpu" (sample_rlct DictConfig 0)).
  reflexivity.
Defined.

(** ** Rounding to binary64 *)

Lemma round_half_even_bounds (n d : Z) :
  n / d ≤ round_half_even n d ≤ n / d + 1.
Proof.
  unfold round_half_even.
  destruct (2 * (n mod d) <? d); [lia|].
  destruct (d <? 2 * (n mod d)); [lia|].
  destruct (Z.even (n / d)); lia.
Qed.

(** [floor_log2_quot a d] is a lower bound: [2 ^ k <= a / d]. *)
Lemma floor_log2_quot_lower (a d : Z) :
  0 < a → 0 < d →
  let k := floor_log2_quot a d in
  (0 ≤ k → d * 2 ^ k ≤ a) ∧ (k < 0 → d ≤ a * 2 ^ (- k)).
Proof.
  intros Ha Hd. unfold floor_log2_quot.
  pose proof (Z.log2_spec a Ha) as [Ha1 Ha2].
  pose proof (Z.log2_spec d Hd) as [Hd1 Hd2].
  pose proof (Z.log2_nonneg a) as Hla. pose proof (Z.log2_nonneg d) as Hld.
  set (la := Z.log2 a) in *. set (ld := Z.log2 d) in *.
  rewrite <- Z.add_1_r in Ha2, Hd2.
  destruct (Z.leb_spec 0 (la - ld)) as [Hk|Hk].
  - destruct (Z.leb_spec (d * 2 ^ (la - ld)) a) as [Hfit|Hfit]; simpl.
    + split; [done | lia].
    + split.
      * intros Hk'.
        assert (Hpow : 2 ^ la = 2 ^ (ld + 1) * 2 ^ (la - ld - 1)).
        { rewrite <- Z.pow_add_r by lia. f_equal. lia. }
        assert (0 < 2 ^ (la - ld - 1)) by (apply Z.pow_pos_nonneg; lia).
        nia.
      * intros Hk'. assert (la - ld = 0) as Heq by lia.
        replace (- (la - ld - 1)) with 1 by lia.
        assert (la = ld) as -> by lia.
        change (2 ^ 1) with 2. rewrite Z.pow_add_r in Hd2 by lia.
        change (2 ^ 1) with 2 in Hd2. lia.
  - destruct (Z.leb_spec d (a * 2 ^ (- (la - ld)))) as [Hfit|Hfit]; simpl.
    + split; [lia | done].
    + split; [lia|]. intros _.
      assert (Hpow : 2 ^ (ld + 1) = 2 ^ la * 2 ^ (- (la - ld - 1))).
      { rewrite <- Z.pow_add_r by lia. f_equal. lia. }
      assert (0 < 2 ^ (- (la - ld - 1))) by (apply Z.pow_pos_nonneg; lia).
      nia.
Qed.

Lemma floor_log2_quot_le_log2 (a d : Z) :
  0 < a → 0 < d → floor_log2_quot a d ≤ Z.log2 a.
Proof.
  intros Ha Hd. unfold floor_log2_quot.
  pose proof (Z.log2_nonneg d).
  destruct (if 0 <=? Z.log2 a - Z.log2 d then _ else _); lia.
Qed.

(** No overflow below [2 ^ 1023]. *)
Lemma round_binary64_is_Some (num den : Z) :
  0 < den → Z.abs num < 2 ^ 1023 → ∃ f, round_binary64 num den = Some f.
Proof.
  intros Hden Hnum. unfold round_binary64.
  destruct (Z.eqb_spec num 0) as [|Hnz]; [eauto|].
  assert (Ha : 0 < Z.abs num) by lia.
  pose proof (floor_log2_quot_le_log2 _ _ Ha Hden) as Hlg.
  assert (Z.log2 (Z.abs num) < 1023) by (apply Z.log2_lt_pow2; lia).
  set (e := Z.max (floor_log2_quot (Z.abs num) den - 52) (-1074)).
  assert (He : e ≤ 970) by (unfold e; lia).
  destruct (_ =? 2 ^ 53).
  - destruct (Z.eqb_spec (2 ^ 52) 0); [eauto|].
    destruct (Z.ltb_spec 971 (e + 1)); [lia | eauto].
  - destruct (_ =? 0); [eauto|].
    destruct (Z.ltb_spec 971 e); [lia | eauto].
Qed.

(** [float(n)] for a positive [n] below [2 ^ 1023]: a positive float
    with exponent at least [-52]. *)
Lemma float_of_int_pos (n : Z) :
  0 < n → n < 2 ^ 1023 →
  ∃ d, float_of_int n = Ok d ∧ 0 < mant d ∧ -52 ≤ expo d.
Proof.
  intros Hn Hlt. unfold float_of_int, round_binary64.
  destruct (Z.eqb_spec n 0) as [|_]; [lia|].
  rewrite (Z.abs_eq n) by lia. rewrite (Z.sgn_pos n) by lia.
  pose proof (floor_log2_quot_lower n 1 Hn ltac:(lia)) as [Hlow _].
  pose proof (floor_log2_quot_le_log2 n 1 Hn ltac:(lia)) as Hup.
  assert (Hlog : Z.log2 n < 1023) by (apply Z.log2_lt_pow2; lia).
  assert (Hlg : 0 ≤ floor_log2_quot n 1).
  { unfold floor_log2_quot. change (Z.log2 1) with 0. rewrite Z.sub_0_r.
    pose proof (Z.log2_nonneg n). pose proof (Z.log2_spec n Hn) as [? _].
    destruct (Z.leb_spec 0 (Z.log2 n)); [|lia].
    destruct (Z.leb_spec (1 * 2 ^ Z.log2 n) n); lia. }
  specialize (Hlow Hlg).
  set (lg := floor_log2_quot n 1) in *.
  rewrite (Z.max_l (lg - 52) (-1074)) by lia.
  set (m := if 0 <=? lg - 52 then round_half_even n (1 * 2 ^ (lg - 52))
            else round_half_even (n * 2 ^ (- (lg - 52))) 1).
  assert (Hm : 1 ≤ m).
  { unfold m. destruct (Z.leb_spec 0 (lg - 52)) as [He|He].
    - pose proof (round_half_even_bounds n (1 * 2 ^ (lg - 52))) as [Hb _].
      assert (0 < 2 ^ (lg - 52)) by (apply Z.pow_pos_nonneg; lia).
      assert (2 ^ (lg - 52) ≤ 2 ^ lg) by (apply Z.pow_le_mono_r; lia).
      assert (1 ≤ n / (1 * 2 ^ (lg - 52))); [|lia].
      apply Z.div_le_lower_bound; lia.
    - pose proof (round_half_even_bounds (n * 2 ^ (- (lg - 52))) 1) as [Hb _].
      rewrite Z.div_1_r in Hb.
      assert (0 < 2 ^ (- (lg - 52))) by (apply Z.pow_pos_nonneg; lia). nia. }
  destruct (Z.eqb_spec m (2 ^ 53)) as [Heq|Hne].
  - destruct (Z.eqb_spec (2 ^ 52) 0) as [Hz|_]; [discriminate Hz|].
    destruct (Z.ltb_spec 971 (lg - 52 + 1)); [lia|].
    eexists. split; [reflexivity|]. simpl. lia.
  - destruct (Z.eqb_spec m 0); [lia|].
    destruct (Z.ltb_spec 971 (lg - 52)); [lia|].
    eexists. split; [reflexivity|]. simpl. lia.
Qed.

(** [1.0 / d] for a positive float [d] with exponent at least [-52]
    (that is, [d >= 1] or so): the division returns. *)
Lemma one_over_is_Ok (d : float) :
  0 < mant d → -52 ≤ expo d →
  ∃ p, float_truediv PermutationResetAutomatonConfig.one d = Ok p.
Proof.
  intros Hm He. unfold float_truediv, PermutationResetAutomatonConfig.one. simpl.
  destruct (Z.eqb_spec (mant d) 0); [lia|].
  rewrite (Z.sgn_pos (mant d)) by lia.
  rewrite (Z.max_l 0 (-52 - expo d)) by lia.
  destruct (round_binary64_is_Some (1 * 2 ^ 52 * 2 ^ 0)
              (Z.abs (mant d) * 2 ^ Z.max 0 (- (-52 - expo d)))) as [p Hp].
  - assert (0 < 2 ^ Z.max 0 (- (-52 - expo d))) by (apply Z.pow_pos_nonneg; lia). nia.
  - change (1 * 2 ^ 52 * 2 ^ 0) with (2 ^ 52). rewrite Z.abs_eq by lia.
    apply Z.pow_lt_mono_r; lia.
  - exists p. by rewrite Hp.
Qed.

(** Rounding [a * 2^E / d] to the nearest integer and dividing by [2^E]
    again gives the floor of [a / d], when [d < 2^(E+1)]. *)
Lemma round_half_even_floor (a d E : Z) :
  0 ≤ a → 0 < d → 0 ≤ E → d < 2 ^ (E + 1) →
  round_half_even (a * 2 ^ E) d / 2 ^ E = a / d.
Proof.
  intros Ha Hd HE Hlt.
  assert (HP : 0 < 2 ^ E) by (apply Z.pow_pos_nonneg; lia).
  rewrite Z.pow_add_r in Hlt by lia. change (2 ^ 1) with 2 in Hlt.
  set (P := 2 ^ E) in *.
  pose proof (Z.div_mod a d ltac:(lia)) as Hdm.
  pose proof (Z.mod_pos_bound a d Hd) as Hr.
  set (c := a / d) in *. set (r := a mod d) in *.
  symmetry. apply Z.div_unique_pos with (r := round_half_even (a * P) d - c * P); [|lia].
  (* c * P <= m < (c + 1) * P *)
  pose proof (round_half_even_bounds (a * P) d) as [Hlo Hhi].
  assert (HN : a * P = d * (c * P) + r * P) by nia.
  assert (Hq1 : c * P ≤ a * P / d).
  { apply Z.div_le_lower_bound; [lia|]. nia. }
  split; [lia|].
  assert (Hq2 : a * P / d ≤ (c + 1) * P - 1).
  { assert (a * P / d < (c + 1) * P); [|lia]. apply Z.div_lt_upper_bound; [lia|]. nia. }
  destruct (Z.eq_dec (a * P / d) ((c + 1) * P - 1)) as [Heq|Hne]; [|lia].
  (* the quotient is the last one below: the remainder is small *)
  unfold round_half_even in *.
  pose proof (Z.div_mod (a * P) d ltac:(lia)) as Hdm2.
  rewrite Heq in *.
  assert (Hrem : (a * P) mod d ≤ d - P) by nia.
  destruct (Z.ltb_spec (2 * ((a * P) mod d)) d); [lia|]. lia.
Qed.

Lemma round_half_even_ceil (a d E : Z) :
  0 ≤ a → 0 < d → 0 ≤ E → d < 2 ^ (E + 1) →
  - ((- round_half_even (a * 2 ^ E) d) / 2 ^ E) = - ((- a) / d).
Proof.
  intros Ha Hd HE Hlt.
  assert (HP : 0 < 2 ^ E) by (apply Z.pow_pos_nonneg; lia).
  rewrite Z.pow_add_r in Hlt by lia. change (2 ^ 1) with 2 in Hlt.
  set (P := 2 ^ E) in *.
  pose proof (Z.div_mod (- a) d ltac:(lia)) as Hdm.
  pose proof (Z.mod_pos_bound (- a) d Hd) as Hr.
  set (c := (- a) / d) in *. set (r := (- a) mod d) in *.
  f_equal. symmetry.
  (* -m = c * P + s with 0 <= s < P, i.e. -c*P - P < m <= -c * P *)
  apply Z.div_unique_pos with (r := - round_half_even (a * P) d - c * P); [|lia].
  pose proof (round_half_even_bounds (a * P) d) as [Hlo Hhi].
  pose proof (Z.div_mod (a * P) d ltac:(lia)) as Hdm2.
  pose proof (Z.mod_pos_bound (a * P) d Hd) as Hr2.
  (* a = - c * d - r *)
  assert (Hq1 : a * P / d ≤ - c * P).
  { assert (a * P / d < - c * P + 1); [|lia]. apply Z.div_lt_upper_bound; [lia|]. nia. }
  assert (Hq2 : (- c - 1) * P ≤ a * P / d).
  { apply Z.div_le_lower_bound; [lia|]. nia. }
  unfold round_half_even in *.
  split.
  - (* m <= - c * P *)
    destruct (Z.eq_dec (a * P / d) (- c * P)) as [Heq|Hne].
    + rewrite Heq in *. assert ((a * P) mod d = 0) by nia.
      destruct (Z.ltb_spec (2 * ((a * P) mod d)) d); lia.
    + lia.
  - (* (- c - 1) * P < m *)
    destruct (Z.eq_dec (a * P / d) ((- c - 1) * P)) as [Heq|Hne]; [|lia].
    destruct (Z.eq_dec r 0) as [Hr0|Hr0].
    + (* a is a multiple of d: a * P / d = - c * P *)
      assert (a * P = d * (- c * P)) by nia. nia.
    + rewrite Heq in *.
      assert (P ≤ (a * P) mod d) by nia.
      destruct (Z.ltb_spec (2 * ((a * P) mod d)) d); [lia|].
      destruct (Z.ltb_spec d (2 * ((a * P) mod d))); [lia|]. lia.
Qed.

(** On numerators below [2^53] the rounded quotient is [m0 * 2^(-E)]
    with [m0] the rounding of [|num| * 2^E / den] and [den < 2^(E+1)]. *)
Lemma round_binary64_small (num den : Z) :
  num ≠ 0 → 0 < den → Z.abs num < 2 ^ 53 → den < 2 ^ 1075 →
  ∃ E f, round_binary64 num den = Some f
       ∧ 0 ≤ E ∧ den < 2 ^ (E + 1)
       ∧ math_ceil f
         = - ((- (Z.sgn num * round_half_even (Z.abs num * 2 ^ E) den)) / 2 ^ E).
Proof.
  intros Hnz Hden Hnum Hden'.
  assert (HA : 0 < Z.abs num) by lia.
  pose proof (floor_log2_quot_lower _ _ HA Hden) as [Hlow1 Hlow2].
  pose proof (floor_log2_quot_le_log2 _ _ HA Hden) as Hup.
  assert (Hlog : Z.log2 (Z.abs num) < 53) by (apply Z.log2_lt_pow2; lia).
  unfold round_binary64.
  destruct (Z.eqb_spec num 0) as [|_]; [done|].
  set (A := Z.abs num) in *. set (lg := floor_log2_quot A den) in *.
  set (e0 := Z.max (lg - 52) (-1074)).
  assert (He0 : e0 ≤ 0) by (unfold e0; lia).
  exists (- e0).
  (* den < 2 ^ (- e0 + 1) *)
  assert (HdenE : den < 2 ^ (- e0 + 1)).
  { unfold e0. destruct (Z.max_spec (lg - 52) (-1074)) as [[_ ->]|[_ ->]].
    - exact Hden'.
    - replace (- (lg - 52) + 1) with (53 - lg) by lia.
      destruct (Z.le_gt_cases 0 lg) as [Hlg|Hlg].
      + specialize (Hlow1 Hlg).
        assert (Hp : 2 ^ 53 = 2 ^ (53 - lg) * 2 ^ lg).
        { rewrite <- Z.pow_add_r by lia. f_equal; lia. }
        assert (0 < 2 ^ lg) by (apply Z.pow_pos_nonneg; lia).
        assert (0 < 2 ^ (53 - lg)) by (apply Z.pow_pos_nonneg; lia).
        nia.
      + specialize (Hlow2 Hlg).
        assert (Hp : 2 ^ (53 - lg) = 2 ^ 53 * 2 ^ (- lg)).
        { rewrite <- Z.pow_add_r by lia. f_equal; lia. }
        assert (0 < 2 ^ (- lg)) by (apply Z.pow_pos_nonneg; lia).
        nia. }
  (* the two ways of scaling agree *)
  assert (Hm0 : (if 0 <=? e0 then round_half_even A (den * 2 ^ e0)
                 else round_half_even (A * 2 ^ (- e0)) den)
                = round_half_even (A * 2 ^ (- e0)) den).
  { destruct (Z.leb_spec 0 e0); [|done].
    assert (He00 : e0 = 0) by lia. rewrite He00. change (2 ^ 0) with 1. change (2 ^ (- 0)) with 1. by rewrite !Z.mul_1_r. }
  rewrite Hm0. set (m0 := round_half_even (A * 2 ^ (- e0)) den).
  pose proof (round_half_even_ceil A den (- e0) ltac:(lia) Hden ltac:(lia) HdenE) as Hceil.
  fold m0 in Hceil.
  assert (HP : 0 < 2 ^ (- e0)) by (apply Z.pow_pos_nonneg; lia).
  assert (Hm0pos : 0 < m0).
  { (* the ceiling of A / den is positive *)
    assert (Hc : 0 < - (- A / den)).
    { assert (- A / den < 0); [|lia]. apply Z.div_lt_upper_bound; lia. }
    rewrite <- Hceil in Hc.
    destruct (Z.le_gt_cases m0 0) as [Hle|]; [|done].
    assert (0 ≤ - m0 / 2 ^ (- e0)); [|lia]. apply Z.div_pos; lia. }
  destruct (Z.eqb_spec m0 (2 ^ 53)) as [Heq|Hne].
  - destruct (Z.eqb_spec (2 ^ 52) 0) as [Hz|_]; [discriminate Hz|].
    destruct (Z.ltb_spec 971 (e0 + 1)); [lia|].
    eexists. split; [reflexivity|]. split; [lia|]. split; [done|].
    unfold math_ceil. cbn [mant expo]. rewrite Heq.
    destruct (Z.leb_spec 0 (e0 + 1)) as [Hge|Hlt].
    + (* e0 is 0 or -1 *)
      assert (e0 = 0 ∨ e0 = -1) as [He00 | He00] by lia; rewrite He00.
      * change (2 ^ (0 + 1)) with 2. change (2 ^ (- 0)) with 1. rewrite Z.div_1_r.
        change (2 ^ 53) with (2 * 2 ^ 52). lia.
      * change (2 ^ (-1 + 1)) with 1. change (2 ^ (- -1)) with 2.
        replace (- (Z.sgn num * 2 ^ 53)) with (- (Z.sgn num * 2 ^ 52) * 2).
        2:{ change (2 ^ 53) with (2 * 2 ^ 52). lia. }
        rewrite Z.div_mul by done. lia.
    + replace (- e0) with (1 + (- (e0 + 1))) by lia.
      rewrite (Z.pow_add_r 2 1) by lia.
      replace (- (Z.sgn num * 2 ^ 53)) with (2 ^ 1 * (- (Z.sgn num * 2 ^ 52))).
      2:{ change (2 ^ 53) with (2 ^ 1 * 2 ^ 52). lia. }
      rewrite Z.div_mul_cancel_l.
      * reflexivity.
      * assert (0 < 2 ^ (- (e0 + 1))) by (apply Z.pow_pos_nonneg; lia). lia.
      * done.
  - destruct (Z.eqb_spec m0 0); [lia|].
    destruct (Z.ltb_spec 971 e0); [lia|].
    eexists. split; [reflexivity|]. split; [lia|]. split; [done|].
    unfold math_ceil. cbn [mant expo].
    destruct (Z.leb_spec 0 e0) as [Hge|Hlt]; [|done].
    assert (He00 : e0 = 0) by lia. rewrite He00. change (2 ^ 0) with 1. change (2 ^ (- 0)) with 1. rewrite Z.div_1_r. lia.
Qed.

(** Where numerator and denominator are below [2^53] in magnitude, the
    ceiling of the float quotient is the ceiling of the exact quotient. *)
Lemma math_ceil_int_truediv (a b : Z) :
  Z.abs a < 2 ^ 53 → b ≠ 0 → Z.abs b < 2 ^ 1075 →
  ∃ q, int_truediv a b = Ok q ∧ math_ceil q = ceil_div a b.
Proof.
  intros Ha Hb Hb'. unfold int_truediv.
  destruct (Z.eqb_spec b 0) as [|_]; [done|].
  assert (Hexact : ceil_div a b = ceil_div (Z.sgn b * a) (Z.abs b)).
  { unfold ceil_div. destruct (Z.lt_trichotomy b 0) as [Hneg|[->|Hpos]]; [|done|].
    - rewrite (Z.sgn_neg b), (Z.abs_neq b) by lia.
      replace (- (-1 * a)) with (- - a) by lia. by rewrite Z.div_opp_opp.
    - rewrite (Z.sgn_pos b), (Z.abs_eq b) by lia. by rewrite Z.mul_1_l. }
  rewrite Hexact.
  destruct (Z.eq_dec a 0) as [->|Hnz].
  { rewrite Z.mul_0_r. exists (Float 0 0). split; [done|].
    unfold ceil_div. simpl. by rewrite Z.div_0_l by lia. }
  set (num := Z.sgn b * a). set (den := Z.abs b).
  assert (Hnum : num ≠ 0) by (unfold num; destruct (Z.sgn_spec b); nia).
  assert (Hden : 0 < den) by (unfold den; lia).
  assert (Habs : Z.abs num = Z.abs a).
  { unfold num. destruct (Z.sgn_spec b) as [[? ->]|[[? ->]|[? ->]]]; lia. }
  destruct (round_binary64_small num den Hnum Hden ltac:(lia) Hb')
    as (E & f & Hf & HE & HdenE & Hceil).
  exists f. rewrite Hf. split; [done|]. rewrite Hceil.
  unfold ceil_div.
  destruct (Z.lt_trichotomy num 0) as [Hneg|[?|Hpos]]; [|done|].
  - rewrite (Z.sgn_neg num), (Z.abs_neq num) by lia.
    replace (- (-1 * round_half_even (- num * 2 ^ E) den))
      with (round_half_even (- num * 2 ^ E) den) by lia.
    rewrite round_half_even_floor by lia. done.
  - rewrite (Z.sgn_pos num), (Z.abs_eq num) by lia.
    rewrite Z.mul_1_l. apply round_half_even_ceil; lia.
Qed.

(** [round_half_even n d] is within one half of [n / d]. *)
Lemma round_half_even_nearest (n d : Z) :
  0 < d → 2 * Z.abs (round_half_even n d * d - n) ≤ d.
Proof.
  intros Hd. unfold round_half_even.
  pose proof (Z.div_mod n d ltac:(lia)) as Hdm.
  pose proof (Z.mod_pos_bound n d Hd) as Hr.
  destruct (Z.ltb_spec (2 * (n mod d)) d); [nia|].
  destruct (Z.ltb_spec d (2 * (n mod d))); [nia|].
  destruct (Z.even (n / d)); nia.
Qed.

(** Dividing by one rounds nothing. *)
Lemma round_half_even_one (n : Z) : round_half_even n 1 = n.
Proof.
  unfold round_half_even. rewrite Z.mod_1_r, Z.div_1_r. reflexivity.
Qed.

(** Against the denominator 1 the estimate is the binary logarithm. *)
Lemma floor_log2_quot_one (n : Z) : 0 < n → floor_log2_quot n 1 = Z.log2 n.
Proof.
  intros Hn. unfold floor_log2_quot. change (Z.log2 1) with 0. rewrite Z.sub_0_r.
  pose proof (Z.log2_nonneg n). pose proof (Z.log2_spec n Hn) as [? _].
  destruct (Z.leb_spec 0 (Z.log2 n)); [|lia].
  destruct (Z.leb_spec (1 * 2 ^ Z.log2 n) n); lia.
Qed.

(** [float(n)] is exact below [2 ^ 53]. *)
Lemma float_of_int_exact (n : Z) :
  0 < n → n < 2 ^ 53 →
  ∃ lg, 0 ≤ lg ≤ 52 ∧ float_of_int n = Ok (Float (n * 2 ^ (52 - lg)) (lg - 52)).
Proof.
  intros Hn Hlt. exists (Z.log2 n).
  pose proof (Z.log2_nonneg n) as H0. pose proof (Z.log2_spec n Hn) as [Hlo Hhi].
  assert (Hlog : Z.log2 n < 53) by (apply Z.log2_lt_pow2; lia).
  split; [lia|].
  unfold float_of_int, round_binary64.
  destruct (Z.eqb_spec n 0) as [|_]; [lia|].
  rewrite (Z.abs_eq n) by lia. rewrite (Z.sgn_pos n) by lia.
  rewrite (floor_log2_quot_one n Hn).
  set (lg := Z.log2 n) in *.
  rewrite (Z.max_l (lg - 52) (-1074)) by lia.
  assert (HP : 0 < 2 ^ (52 - lg)) by (apply Z.pow_pos_nonneg; lia).
  assert (Hm : (if 0 <=? lg - 52 then round_half_even n (1 * 2 ^ (lg - 52))
                else round_half_even (n * 2 ^ (- (lg - 52))) 1) = n * 2 ^ (52 - lg)).
  { destruct (Z.leb_spec 0 (lg - 52)).
    - assert (lg = 52) as -> by lia. change (1 * 2 ^ (52 - 52)) with 1.
      change (2 ^ (52 - 52)) with 1. rewrite round_half_even_one. lia.
    - rewrite round_half_even_one. do 2 f_equal. lia. }
  rewrite Hm.
  assert (Hb : n * 2 ^ (52 - lg) < 2 ^ 53).
  { replace 53 with ((lg + 1) + (52 - lg)) by lia. rewrite Z.pow_add_r by lia.
    replace (Z.succ lg) with (lg + 1) in Hhi by lia. nia. }
  destruct (Z.eqb_spec (n * 2 ^ (52 - lg)) (2 ^ 53)); [lia|].
  destruct (Z.eqb_spec (n * 2 ^ (52 - lg)) 0); [nia|].
  destruct (Z.ltb_spec 971 (lg - 52)); [lia|].
  by rewrite Z.mul_1_l.
Qed.

(** The float nearest to [1 / n], for [0 < n < 2^64]: relative error at
    most [2^-53]. *)
Lemma reciprocal_accuracy (n : Z) :
  0 < n → n < 2 ^ 64 →
  ∃ p, round_binary64 (2 ^ 52) (n * 2 ^ 52) = Some p
       ∧ 0 < mant p ∧ expo p < 0
       ∧ 2 ^ 53 * Z.abs (n * mant p - 2 ^ (- expo p)) ≤ 2 ^ (- expo p).
Proof.
  intros Hn Hlt.
  assert (HN : 0 < 2 ^ 52) by done.
  assert (HD : 0 < n * 2 ^ 52) by lia.
  pose proof (floor_log2_quot_lower _ _ HN HD) as [Hlow1 Hlow2].
  pose proof (floor_log2_quot_le_log2 _ _ HN HD) as Hup.
  change (Z.log2 (2 ^ 52)) with 52 in Hup.
  assert (Hge : -65 ≤ floor_log2_quot (2 ^ 52) (n * 2 ^ 52)).
  { unfold floor_log2_quot. change (Z.log2 (2 ^ 52)) with 52.
    assert (Z.log2 (n * 2 ^ 52) < 116).
    { apply Z.log2_lt_pow2; [lia|]. change (2 ^ 116) with (2 ^ 64 * 2 ^ 52). nia. }
    destruct (if 0 <=? _ then _ else _); lia. }
  assert (Hle : floor_log2_quot (2 ^ 52) (n * 2 ^ 52) ≤ 0).
  { destruct (Z.le_gt_cases (floor_log2_quot (2 ^ 52) (n * 2 ^ 52)) 0) as [|Hpos]; [done|].
    exfalso. specialize (Hlow1 ltac:(lia)).
    assert (2 ^ 1 ≤ 2 ^ floor_log2_quot (2 ^ 52) (n * 2 ^ 52))
      by (apply Z.pow_le_mono_r; lia).
    change (2 ^ 1) with 2 in *. nia. }
  unfold round_binary64. change (2 ^ 52 =? 0) with false. cbv iota.
  change (Z.abs (2 ^ 52)) with (2 ^ 52). change (Z.sgn (2 ^ 52)) with 1.
  set (lg := floor_log2_quot (2 ^ 52) (n * 2 ^ 52)) in *.
  rewrite (Z.max_l (lg - 52) (-1074)) by lia.
  destruct (Z.leb_spec 0 (lg - 52)) as [|_]; [lia|].
  set (E := - (lg - 52)).
  assert (HE : 52 ≤ E ≤ 117) by (unfold E; lia).
  assert (HPE : 0 < 2 ^ E) by (apply Z.pow_pos_nonneg; lia).
  assert (Hn' : n * 2 ^ 52 ≤ 2 ^ E).
  { destruct (Z.eq_dec lg 0) as [Hz|Hnz].
    - specialize (Hlow1 ltac:(lia)). rewrite Hz in Hlow1. unfold E. rewrite Hz.
      change (2 ^ 0) with 1 in Hlow1. change (2 ^ (- (0 - 52))) with (2 ^ 52). lia.
    - specialize (Hlow2 ltac:(lia)).
      replace E with (52 + - lg) by (unfold E; lia).
      rewrite Z.pow_add_r by lia. lia. }
  pose proof (round_half_even_nearest (2 ^ 52 * 2 ^ E) (n * 2 ^ 52) HD) as Hnear.
  set (m0 := round_half_even (2 ^ 52 * 2 ^ E) (n * 2 ^ 52)) in *.
  assert (Hacc : 2 ^ 53 * Z.abs (n * m0 - 2 ^ E) ≤ 2 ^ E).
  { change (2 ^ 53) with (2 * 2 ^ 52).
    assert (2 * Z.abs (n * m0 - 2 ^ E) * 2 ^ 52 ≤ n * 2 ^ 52); [|nia].
    replace (2 * Z.abs (n * m0 - 2 ^ E) * 2 ^ 52)
      with (2 * Z.abs (m0 * (n * 2 ^ 52) - 2 ^ 52 * 2 ^ E)); [done|].
    replace (m0 * (n * 2 ^ 52) - 2 ^ 52 * 2 ^ E) with ((n * m0 - 2 ^ E) * 2 ^ 52) by ring.
    rewrite Z.abs_mul. change (Z.abs (2 ^ 52)) with (2 ^ 52). ring. }
  assert (Hm0 : 0 < m0).
  { destruct (Z.le_gt_cases m0 0) as [Hneg|]; [|done]. exfalso.
    assert (2 ^ E ≤ Z.abs (n * m0 - 2 ^ E)) by nia.
    change (2 ^ 53) with (2 * 2 ^ 52) in Hacc. nia. }
  destruct (Z.eqb_spec m0 (2 ^ 53)) as [Heq|Hne].
  - destruct (Z.eqb_spec (2 ^ 52) 0) as [Hz|_]; [discriminate Hz|].
    destruct (Z.ltb_spec 971 (lg - 52 + 1)); [lia|].
    eexists. split; [reflexivity|]. cbn [mant expo].
    split; [lia|]. split; [lia|].
    replace (- (lg - 52 + 1)) with (E - 1) by (unfold E; lia).
    rewrite Heq in Hacc.
    assert (HE1 : 2 ^ E = 2 * 2 ^ (E - 1)).
    { replace E with (1 + (E - 1)) at 1 by lia. by rewrite Z.pow_add_r by lia. }
    rewrite HE1 in Hacc. rewrite Z.mul_1_l.
    replace (n * 2 ^ 53 - 2 * 2 ^ (E - 1)) with (2 * (n * 2 ^ 52 - 2 ^ (E - 1))) in Hacc.
    2:{ change (2 ^ 53) with (2 * 2 ^ 52). ring. }
    rewrite Z.abs_mul in Hacc. change (Z.abs 2) with 2 in Hacc. lia.
  - destruct (Z.eqb_spec m0 0); [lia|].
    destruct (Z.ltb_spec 971 (lg - 52)); [lia|].
    eexists. split; [reflexivity|]. cbn [mant expo].
    split; [lia|]. split; [lia|]. fold E. by rewrite Z.mul_1_l.
Qed.

(** [float(n)] below [2 ^ 63]: the float is an integer [D] within
    [n / 2^53] of [n], and [n] itself below [2 ^ 53]. *)
Lemma float_of_int_near (n : Z) :
  0 < n → n < 2 ^ 63 →
  ∃ m e D, float_of_int n = Ok (Float m e)
           ∧ 0 < m ∧ -52 ≤ e
           ∧ m * 2 ^ (52 + e) = D * 2 ^ 52
           ∧ 0 < D ∧ D < 2 ^ 64
           ∧ 2 ^ 53 * Z.abs (D - n) ≤ n
           ∧ (n < 2 ^ 53 → D = n).
Proof.
  intros Hn Hlt.
  destruct (Z.lt_ge_cases n (2 ^ 53)) as [Hsmall|Hbig].
  - destruct (float_of_int_exact n Hn Hsmall) as (lg & Hlg & Hd).
    exists (n * 2 ^ (52 - lg)), (lg - 52), n.
    assert (0 < 2 ^ (52 - lg)) by (apply Z.pow_pos_nonneg; lia).
    split; [done|]. split; [nia|]. split; [lia|]. split.
    { rewrite <- Z.mul_assoc, <- Z.pow_add_r by lia. do 2 f_equal. lia. }
    split; [done|]. split; [lia|]. split; [|done].
    rewrite Z.sub_diag. simpl. lia.
  - pose proof (Z.log2_spec n Hn) as [Hlo Hhi].
    assert (Hl1 : 53 ≤ Z.log2 n) by (apply Z.log2_le_pow2; lia).
    assert (Hl2 : Z.log2 n < 63) by (apply Z.log2_lt_pow2; lia).
    unfold float_of_int, round_binary64.
    destruct (Z.eqb_spec n 0) as [|_]; [lia|].
    rewrite (Z.abs_eq n) by lia. rewrite (Z.sgn_pos n) by lia.
    rewrite (floor_log2_quot_one n Hn).
    set (lg := Z.log2 n) in *.
    rewrite (Z.max_l (lg - 52) (-1074)) by lia.
    destruct (Z.leb_spec 0 (lg - 52)) as [_|]; [|lia].
    set (e := lg - 52) in *.
    assert (He : 1 ≤ e ≤ 10) by (unfold e; lia).
    assert (HX : 0 < 2 ^ e) by (apply Z.pow_pos_nonneg; lia).
    assert (HXle : 2 ^ e ≤ 2 ^ 10) by (apply Z.pow_le_mono_r; lia).
    assert (Hlg : 2 ^ lg = 2 ^ 52 * 2 ^ e).
    { rewrite <- Z.pow_add_r by lia. f_equal. unfold e. lia. }
    assert (Hlg' : 2 ^ Z.succ lg = 2 ^ 53 * 2 ^ e).
    { rewrite <- Z.pow_add_r by lia. f_equal. unfold e. lia. }
    rewrite Hlg in Hlo. rewrite Hlg' in Hhi.
    rewrite Z.mul_1_l.
    pose proof (round_half_even_nearest n (2 ^ e) HX) as Hnear.
    set (m0 := round_half_even n (2 ^ e)) in *.
    set (X := 2 ^ e) in *.
    change (2 ^ 53) with 9007199254740992 in *.
    change (2 ^ 52) with 4503599627370496 in *.
    change (2 ^ 10) with 1024 in *.
    assert (Hm0 : 4503599627370496 ≤ m0) by nia.
    assert (Hm0' : m0 ≤ 9007199254740992) by nia.
    assert (Hacc : 9007199254740992 * Z.abs (m0 * X - n) ≤ n) by lia.
    assert (HDlt : m0 * X < 2 ^ 64).
    { change (2 ^ 64) with (9007199254740992 * 2048). nia. }
    destruct (Z.eqb_spec m0 9007199254740992) as [Heq|Hne].
    + destruct (Z.eqb_spec 4503599627370496 0) as [Hz|_]; [discriminate Hz|].
      destruct (Z.ltb_spec 971 (e + 1)); [lia|].
      exists 4503599627370496, (e + 1), (m0 * X).
      split; [by rewrite Z.mul_1_l|]. split; [lia|]. split; [lia|]. split.
      { rewrite Heq. replace (52 + (e + 1)) with (1 + e + 52) by lia.
        rewrite !Z.pow_add_r by lia. fold X. change (2 ^ 1) with 2.
        change (2 ^ 52) with 4503599627370496. ring. }
      split; [nia|]. split; [done|]. split; [done|]. lia.
    + destruct (Z.eqb_spec m0 0); [lia|].
      destruct (Z.ltb_spec 971 e); [lia|].
      exists m0, e, (m0 * X).
      split; [by rewrite Z.mul_1_l|]. split; [lia|]. split; [lia|]. split.
      { replace (52 + e) with (e + 52) by lia. rewrite Z.pow_add_r by lia. fold X. ring. }
      split; [nia|]. split; [done|]. split; [done|]. lia.
Qed.

(** ** The permutation-with-reset class *)

(** [1.0 / d] is the rounding of the quotient of integers
    [2^52 / (mant d * 2 ^ (52 + expo d))]. *)
Lemma one_over_rounding (m e : Z) :
  0 < m → -52 ≤ e →
  float_truediv PermutationResetAutomatonConfig.one (Float m e)
  = match round_binary64 (2 ^ 52) (m * 2 ^ (52 + e)) with
    | Some f => Ok f
    | None => Raise (OverflowError "float division overflow")
    end.
Proof.
  intros Hm He.
  unfold float_truediv, PermutationResetAutomatonConfig.one. cbn [mant expo].
  destruct (Z.eqb_spec m 0); [lia|].
  rewrite (Z.sgn_pos m), (Z.abs_eq m) by lia.
  rewrite (Z.max_l 0 (-52 - e)), (Z.max_r 0 (- (-52 - e))) by lia.
  replace (- (-52 - e)) with (52 + e) by lia.
  reflexivity.
Qed.

(** The entry [1.0 / float(n)] of the uniform list, measured against
    the rational [1 / n]: [n] entries add up to 1 within [2^-51], and
    within [2^-53] when [n] is below [2 ^ 53]. *)
Lemma uniform_prob_accurate (n : Z) (d p : float) :
  0 < n → n < 2 ^ 63 →
  float_of_int n = Ok d →
  float_truediv PermutationResetAutomatonConfig.one d = Ok p →
  (Qabs (inject_Z n * float_to_Q p - 1) <= 1 # 2 ^ 51)%Q
  ∧ (n < 2 ^ 53 → (Qabs (inject_Z n * float_to_Q p - 1) <= 1 # 2 ^ 53)%Q).
Proof.
  intros Hn Hlt Hd Hp.
  destruct (float_of_int_near n Hn Hlt) as (m & e & D & Hd' & Hm & He & HD & HD0 & HDlt & Hnear & Hex).
  rewrite Hd in Hd'. injection Hd' as ->.
  rewrite (one_over_rounding m e Hm He), HD in Hp.
  destruct (reciprocal_accuracy D HD0 HDlt) as (p' & Hp' & Hmp & Hep & Hacc).
  rewrite Hp' in Hp. injection Hp as <-.
  assert (HP : 0 < 2 ^ (- expo p')) by (apply Z.pow_pos_nonneg; lia).
  assert (HQ : ∀ k : Z, 0 < k →
    k * Z.abs (n * mant p' - 2 ^ (- expo p')) ≤ 2 ^ (- expo p') →
    (Qabs (inject_Z n * float_to_Q p' - 1) <= 1 # Z.to_pos k)%Q).
  { intros k Hk0 Hk. unfold float_to_Q. destruct (Z.leb_spec 0 (expo p')); [lia|].
    unfold Qle, Qabs, Qminus, Qplus, Qmult, Qopp, inject_Z. cbn [Qnum Qden].
    rewrite !Pos.mul_1_l, !Pos.mul_1_r, !Z.mul_1_r, Z.mul_1_l.
    rewrite Z2Pos.id by lia.
    replace (n * mant p' + - (1) * 2 ^ (- expo p')) with (n * mant p' - 2 ^ (- expo p')) by ring.
    rewrite Z2Pos.id by lia. lia. }
  set (P := 2 ^ (- expo p')) in *.
  split.
  - apply (HQ (2 ^ 51)); [done|].
    set (a := (n - D) * mant p').
    assert (Ha : 2 ^ 53 * Z.abs a ≤ n * mant p').
    { unfold a. rewrite Z.abs_mul, (Z.abs_eq (mant p')) by lia.
      rewrite <- Z.abs_opp in Hnear. replace (- (D - n)) with (n - D) in Hnear by ring.
      nia. }
    assert (Hsplit : n * mant p' = a + D * mant p') by (unfold a; ring).
    set (nm := n * mant p') in *. set (dm := D * mant p') in *.
    change (2 ^ 53) with 9007199254740992 in *.
    change (2 ^ 51) with 2251799813685248. lia.
  - intros Hsmall. rewrite (Hex Hsmall) in Hacc. by apply (HQ (2 ^ 53)).
Qed.

(** The uniform entry [1.0 / n_generators] exists for every list a
    CPython process can hold. *)
Lemma uniform_prob_is_Ok (n : Z) :
  0 < n → n < 2 ^ 63 →
  ∃ d p, float_of_int n = Ok d
         ∧ float_truediv PermutationResetAutomatonConfig.one d = Ok p.
Proof.
  intros Hn Hlt.
  destruct (float_of_int_pos n Hn) as (d & Hd & Hm & He).
  { eapply Z.lt_trans; [exact Hlt|]. by apply Z.pow_lt_mono_r. }
  destruct (one_over_is_Ok d Hm He) as [p Hp]. eauto.
Qed.

(** The branch of [set_perm_probs] taken for [None]. *)
Lemma set_perm_probs_None (generators : list (list Z)) :
  Z.of_nat (length generators) < 2 ^ 63 →
  ∃ p, PermutationResetAutomatonConfig.set_perm_probs None (Some generators)
       = Ok (replicate (length generators) p)
       ∧ (generators ≠ [] →
          ∃ d, float_of_int (Z.of_nat (length generators)) = Ok d
               ∧ float_truediv PermutationResetAutomatonConfig.one d = Ok p).
Proof.
  intros Hlen.
  unfold PermutationResetAutomatonConfig.set_perm_probs. simpl.
  destruct (Z.ltb_spec 0 (Z.of_nat (length generators))) as [Hpos|Hzero].
  - destruct (uniform_prob_is_Ok _ Hpos Hlen) as (d & p & Hd & Hp).
    exists p. rewrite Hd. simpl. rewrite Hp. simpl. eauto.
  - exists (Float 0 0). split; [done|].
    destruct generators; [done | simpl in Hzero; lia].
Qed.

(** C9. When [perm_probs] is [None], [set_perm_probs] returns a list
    with one entry per declared generator, every entry being the float
    [1.0 / n_generators] (so the empty list when there is no generator,
    or no validated [generators] entry); a supplied list is returned
    unchanged. The same holds of the field of a constructed instance.
    The entry is measured against the rational [1 / n_generators]:
    [n_generators] times the entry is within [2^-51] of 1, and within
    [2^-53] for fewer than [2 ^ 53] generators. *)
Theorem set_perm_probs_uniform (generators : list (list Z)) :
  Z.of_nat (length generators) < 2 ^ 63 →
  (∃ p, PermutationResetAutomatonConfig.set_perm_probs None (Some generators)
        = Ok (replicate (length generators) p)
        ∧ (generators ≠ [] →
           (∃ d, float_of_int (Z.of_nat (length generators)) = Ok d
                 ∧ float_truediv PermutationResetAutomatonConfig.one d = Ok p)
           ∧ (Qabs (inject_Z (Z.of_nat (length generators)) * float_to_Q p - 1)
              <= 1 # 2 ^ 51)%Q
           ∧ (Z.of_nat (length generators) < 2 ^ 53 →
              (Qabs (inject_Z (Z.of_nat (length generators)) * float_to_Q p - 1)
               <= 1 # 2 ^ 53)%Q)))
  ∧ (generators = [] →
     PermutationResetAutomatonConfig.set_perm_probs None (Some generators) = Ok [])
  ∧ PermutationResetAutomatonConfig.set_perm_probs None None = Ok []
  ∧ (∀ l values_generators,
       PermutationResetAutomatonConfig.set_perm_probs (Some l) values_generators = Ok l)
  ∧ (∀ raw c,
       RawTask.generators raw = Given generators →
       PermutationResetAutomatonConfig.new raw = Ok c →
       PermutationResetAutomatonConfig.generators c = generators
       ∧ match RawTask.perm_probs raw with
         | Given l => PermutationResetAutomatonConfig.perm_probs c = l
         | Absent | Null =>
             ∃ d p, float_of_int (Z.of_nat (length generators)) = Ok d
                    ∧ float_truediv PermutationResetAutomatonConfig.one d = Ok p
                    ∧ PermutationResetAutomatonConfig.perm_probs c
                      = replicate (length generators) p
                    ∧ (Qabs (inject_Z (Z.of_nat (length generators)) * float_to_Q p - 1)
                       <= 1 # 2 ^ 51)%Q
                    ∧ (Z.of_nat (length generators) < 2 ^ 53 →
                       (Qabs (inject_Z (Z.of_nat (length generators)) * float_to_Q p - 1)
                        <= 1 # 2 ^ 53)%Q)
         end).
Proof.
  intros Hlen.
  pose proof (set_perm_probs_None generators Hlen) as Hnone.
  assert (Hacc : ∀ d p,
    generators ≠ [] →
    float_of_int (Z.of_nat (length generators)) = Ok d →
    float_truediv PermutationResetAutomatonConfig.one d = Ok p →
    (Qabs (inject_Z (Z.of_nat (length generators)) * float_to_Q p - 1) <= 1 # 2 ^ 51)%Q
    ∧ (Z.of_nat (length generators) < 2 ^ 53 →
       (Qabs (inject_Z (Z.of_nat (length generators)) * float_to_Q p - 1)
        <= 1 # 2 ^ 53)%Q)).
  { intros d p Hne Hd Hdiv.
    apply (uniform_prob_accurate _ d p); [|done..].
    destruct generators; [done | simpl; lia]. }
  split.
  { destruct Hnone as (p & Hset & Hp). exists p. split; [exact Hset|].
    intros Hne. destruct (Hp Hne) as (d & Hd & Hdiv).
    split; [by exists d|]. by apply (Hacc d p). }
  split; [by intros ->|]. split; [done|]. split; [done|].
  intros raw c Hgens Hnew.
  unfold PermutationResetAutomatonConfig.new in Hnew.
  destruct (required_field "n" 4 (RawTask.n raw)) as [n|]; [simpl in Hnew | discriminate].
  rewrite Hgens in Hnew. simpl in Hnew.
  destruct generators as [|g0 rest]; [discriminate|].
  simpl in Hnew.
  destruct (py_assert _ _) as [[]|]; [simpl in Hnew | discriminate].
  destruct (RawTask.perm_probs raw) as [| |l]; simpl in Hnew.
  1,2: destruct Hnone as (p & Hset & Hp);
       destruct (Hp ltac:(done)) as (d & Hd & Hdiv);
       destruct (Hacc d p ltac:(done) Hd Hdiv) as [Hacc1 Hacc2];
       unfold PermutationResetAutomatonConfig.set_perm_probs in Hset; simpl in Hset;
       rewrite Hset in Hnew; simpl in Hnew; injection Hnew as <-; simpl;
       split; [done|]; exists d, p; done.
  injection Hnew as <-. done.
Qed.

Lemma set_perm_probs_uniform_witness :
  Z.of_nat (length PermutationResetAutomatonConfig.default_generators) < 2 ^ 63
  ∧ ∃ p, PermutationResetAutomatonConfig.set_perm_probs None
           (Some PermutationResetAutomatonConfig.default_generators)
         = Ok [p; p]
         ∧ (Qabs (inject_Z 2 * float_to_Q p - 1) <= 1 # 2 ^ 53)%Q.
Proof.
  assert (H : Z.of_nat (length PermutationResetAutomatonConfig.default_generators) < 2 ^ 63)
    by reflexivity.
  split; [exact H|].
  destruct (set_perm_probs_uniform PermutationResetAutomatonConfig.default_generators H)
    as ((p & Hp & Hacc) & _).
  exists p. split; [exact Hp|].
  destruct (Hacc ltac:(discriminate)) as (_ & _ & Hacc53).
  apply Hacc53. reflexivity.
Defined.

(** With two generators every entry is one half; with three, the float
    nearest to one third. *)
Example set_perm_probs_two_three :
  PermutationResetAutomatonConfig.set_perm_probs None (Some [[1; 0]; [0; 1]])
  = Ok [Float (2 ^ 52) (-53); Float (2 ^ 52) (-53)]
  ∧ float_to_Q (Float (2 ^ 52) (-53)) == 1 # 2
  ∧ PermutationResetAutomatonConfig.set_perm_probs None (Some [[0]; [0]; [0]])
    = Ok (replicate 3 (Float 6004799503160661 (-54))).
Proof. split; [|split]; reflexivity. Qed.

(** C10. Of the generators only the first has its length compared with
    [n]: the construction fails with the assertion's message when that
    length differs from [n], and succeeds when it equals [n], whatever
    the lengths of the other generators. *)
Theorem check_generators_first_only (raw : RawTask.t) (n : Z) (g0 : list Z)
    (rest : list (list Z)) :
  RawTask.n raw = Given n →
  RawTask.generators raw = Given (g0 :: rest) →
  Z.of_nat (length (g0 :: rest)) < 2 ^ 63 →
  (Z.of_nat (length g0) ≠ n →
   PermutationResetAutomatonConfig.new raw
   = Raise (AssertionError "Generators must be of length n."))
  ∧ (Z.of_nat (length g0) = n →
     ∃ c, PermutationResetAutomatonConfig.new raw = Ok c
          ∧ PermutationResetAutomatonConfig.n c = n
          ∧ PermutationResetAutomatonConfig.generators c = g0 :: rest).
Proof.
  intros Hn Hgens Hlen.
  unfold PermutationResetAutomatonConfig.new. rewrite Hn, Hgens. simpl.
  split.
  - intros Hne. rewrite bool_decide_eq_false_2; [done | congruence].
  - intros Heq. rewrite bool_decide_eq_true_2 by congruence. simpl.
    destruct (RawTask.perm_probs raw) as [| |l]; simpl.
    3: by eexists.
    all: destruct (set_perm_probs_None (g0 :: rest) Hlen) as (p & Hp & _);
      unfold PermutationResetAutomatonConfig.set_perm_probs in Hp; simpl in Hp;
      rewrite Hp; simpl; by eexists.
Qed.

Lemma check_generators_first_only_witness :
  let raw := permutation_reset_task (Given 4) (Given [[1; 0; 2; 3]; [4; 0; 1]]) Absent in
  RawTask.n raw = Given 4
  ∧ RawTask.generators raw = Given [[1; 0; 2; 3]; [4; 0; 1]]
  ∧ Z.of_nat (length [[1; 0; 2; 3]; [4; 0; 1]]) < 2 ^ 63
  ∧ Z.of_nat (length [1; 0; 2; 3]) = 4
  ∧ ∃ c, PermutationResetAutomatonConfig.new raw = Ok c
         ∧ PermutationResetAutomatonConfig.n c = 4
         ∧ PermutationResetAutomatonConfig.generators c = [[1; 0; 2; 3]; [4; 0; 1]].
Proof.
  intros raw.
  assert (H1 : RawTask.n raw = Given 4) by reflexivity.
  assert (H2 : RawTask.generators raw = Given [[1; 0; 2; 3]; [4; 0; 1]]) by reflexivity.
  assert (H3 : Z.of_nat (length [[1; 0; 2; 3]; [4; 0; 1]]) < 2 ^ 63) by reflexivity.
  assert (H4 : Z.of_nat (length [1; 0; 2; 3]) = 4) by reflexivity.
  repeat (split; [assumption|]).
  exact (proj2 (check_generators_first_only raw 4 [1; 0; 2; 3] [[4; 0; 1]] H1 H2 H3) H4).
Defined.

(** The declared defaults ([n = 4], generators of length five) do not
    pass the class's own validator. *)
Example default_generators_rejected :
  PermutationResetAutomatonConfig.new (permutation_reset_task Absent Absent Absent)
  = Raise (AssertionError "Generators must be of length n.").
Proof. reflexivity. Qed.

(** ** The root validator *)

Ltac smp H :=
  cbn -[config_class_map getitem int_truediv vocab_size output_vocab_size py_pow py_min
        math_ceil format_run_name Z.mul Z.add Z.eqb] in H.

(** Case analysis on the innermost call whose result is bound. *)
Ltac step H :=
  match type of H with
  | context [match ?m with Ok _ => _ | Raise _ => _ end] =>
      lazymatch m with
      | context [match _ with Ok _ => _ | Raise _ => _ end] => fail
      | _ => let E := fresh "E" in destruct m eqn:E; smp H; [|discriminate H]
      end
  end.

Ltac case_eval_frequency ef H :=
  destruct ef as [ef|]; [smp H; destruct (ef =? 0) eqn:?|]; smp H.

(** What a successful run of [_set_fields] went through, and what it
    returns. *)
Lemma _set_fields_Ok (v v' : Main.t) :
  _set_fields v = Ok v' →
  ∃ instance nano rlct sgld sgnht quotient vocab output_vocab population num_samples,
    resolve (Main.task_config v) = Ok instance
    ∧ Main.nano_gpt_config v = Some nano
    ∧ Main.rlct_config v = Some rlct
    ∧ RLCT.sgld_kwargs rlct = Some sgld
    ∧ RLCT.sgnht_kwargs rlct = Some sgnht
    ∧ RLCT.class rlct = DictConfig
    ∧ RLCT.num_burnin_steps rlct = 0
    ∧ int_truediv (Main.num_training_iter v) (effective_eval_frequency v) = Ok quotient
    ∧ vocab_size instance = Ok vocab
    ∧ output_vocab_size instance = Ok output_vocab
    ∧ py_pow vocab (DatasetConfig.length (task_base instance)) = Ok population
    ∧ py_min (samples_seen v rlct) population = Ok num_samples
    ∧ Main.eval_frequency v' = Some (effective_eval_frequency v)
    ∧ Main.num_epochs v' = Some (math_ceil quotient)
    ∧ Main.rlct_config v' = Some (derived_rlct rlct num_samples)
    ∧ Main.nano_gpt_config v'
      = Some (NanoGPT.Build (RawTask.length (Main.task_config v) + 1) vocab output_vocab
                            (NanoGPT.n_layers nano))
    ∧ Main.run_name v' = Some (format_run_name v (NanoGPT.n_layers nano))
    ∧ Main.wandb_config v' = Main.wandb_config v
    ∧ Main.task_config v' = Main.task_config v
    ∧ Main.dataloader_config v' = Main.dataloader_config v
    ∧ Main.num_training_iter v' = Main.num_training_iter v.
Proof.
  intros H. unfold _set_fields, mbind, result_bind in H.
  destruct v as [mt task dl opt nano rlct wandb iters rn iwe ne ef].
  smp H. step H. step H.
  destruct nano as [nano|].
  2:{ case_eval_frequency ef H; discriminate H. }
  destruct rlct as [rlct|].
  2:{ case_eval_frequency ef H; repeat step H; discriminate H. }
  destruct rlct as [cls sm chains draws ns burn steps bs online distill diag sgld sgnht dir].
  destruct sgld as [sgld|].
  2:{ case_eval_frequency ef H; repeat step H; discriminate H. }
  destruct sgnht as [sgnht|].
  2:{ case_eval_frequency ef H; repeat step H; discriminate H. }
  destruct cls.
  { case_eval_frequency ef H; repeat step H; discriminate H. }
  assert (Hres : ∀ cls instance,
    getitem config_class_map (RawTask.dataset_type task) = Ok cls → cls task = Ok instance →
    resolve task = Ok instance).
  { intros cls instance Hcls Hinst. unfold resolve, mbind, result_bind. by rewrite Hcls. }
  case_eval_frequency ef H; repeat step H;
    injection H as <-;
    match goal with
    | Hc : getitem _ _ = Ok ?c, Hi : ?c task = Ok ?inst,
      Hq : int_truediv _ _ = Ok ?q, Hv : vocab_size _ = Ok ?vo,
      Ho : output_vocab_size _ = Ok ?ov, Hp : py_pow _ _ = Ok ?po,
      Hm : py_min _ _ = Ok ?nsm, Hb : py_assert (burn =? 0) _ = Ok _ |- _ =>
        exists inst, nano, (RLCT.Build DictConfig sm chains draws ns burn steps bs online distill
                              diag (Some sgld) (Some sgnht) dir), sgld, sgnht, q, vo, ov, po, nsm;
        pose proof (Hres c inst Hc Hi);
        assert (burn = 0)
          by (unfold py_assert in Hb; destruct (Z.eqb_spec burn 0); [done | discriminate Hb])
    end;
    unfold effective_eval_frequency, samples_seen; simpl;
    rewrite ?Heqb; repeat split; eauto.
Qed.

(** Every class of the registry keeps the inherited fields as given. *)
Lemma resolve_base (raw : RawTask.t) (instance : TaskConfig) :
  resolve raw = Ok instance → task_base instance = DatasetConfig.new raw.
Proof.
  unfold resolve, getitem, mbind, result_bind.
  destruct (config_class_map !! RawTask.dataset_type raw) as [cls|] eqn:Hcls; [|done].
  apply elem_of_list_to_map_2 in Hcls.
  repeat (apply elem_of_cons in Hcls as [Hcls|Hcls];
          [injection Hcls as _ ->; clear|]).
  12: by apply elem_of_nil in Hcls.
  all: unfold fmap, result_fmap.
  all: unfold ABABAutomatonConfig.new, AdderAutomatonConfig.new, AlternatingAutomatonConfig.new,
         CyclicAutomatonConfig.new, DihedralAutomatonConfig.new, FlipFlopAutomatonConfig.new,
         GridworldAutomatonConfig.new, ParityAutomatonConfig.new,
         QuaternionAutomatonConfig.new, PermutationResetAutomatonConfig.new,
         SymmetricAutomatonConfig.new, PermutationAutomatonConfig.new, mbind, result_bind.
  all: repeat match goal with
         | |- context [match ?m with Ok _ => _ | Raise _ => _ end] =>
             lazymatch m with
             | context [match _ with Ok _ => _ | Raise _ => _ end] => fail
             | _ => destruct m
             end
         end;
       intros H; try discriminate H; by injection H as <-.
Qed.

(** [vocab_size] is [None] or an [int]. *)
Lemma vocab_size_tracked (instance : TaskConfig) :
  vocab_size instance ≠ Ok Untracked.
Proof.
  destruct instance as [c|c|c|c|c|c|c|c|c|c|c]; simpl; try discriminate.
  - unfold AlternatingAutomatonConfig.vocab_size, PermutationAutomatonConfig.vocab_size.
    by destruct (PermutationAutomatonConfig.n c).
  - unfold CyclicAutomatonConfig.vocab_size. by destruct (CyclicAutomatonConfig.n c).
  - unfold FlipFlopAutomatonConfig.vocab_size, FlipFlopAutomatonConfig.n_plus_1.
    by destruct (FlipFlopAutomatonConfig.n c).
  - unfold PermutationResetAutomatonConfig.vocab_size, mbind, result_bind.
    by destruct (math_factorial _).
  - unfold SymmetricAutomatonConfig.vocab_size, PermutationAutomatonConfig.vocab_size.
    by destruct (PermutationAutomatonConfig.n _).
Qed.

(** What a successful construction went through. *)
Lemma MainConfig_Ok (raw v : Main.t) :
  MainConfig raw = Ok v →
  _set_fields raw = Ok v
  ∧ ∃ w, Main.wandb_config raw = Some w
         ∧ WandB.check_sweep_num (WandB.sweep_num w) (WandB.sweep w) = Ok (WandB.sweep_num w).
Proof.
  unfold MainConfig, mbind, result_bind. intros H.
  destruct (_set_fields raw) as [v0|] eqn:Hset; [|discriminate H].
  destruct (_set_fields_Ok _ _ Hset) as (? & ? & ? & ? & ? & ? & ? & ? & ? & ? & Hrest).
  destruct Hrest as (_ & _ & _ & _ & _ & _ & _ & _ & _ & _ & _ & _ & _ & _ & _ & _ & _ & Hw & _).
  destruct (Main.wandb_config v0) as [w|] eqn:Hw0; [|discriminate H].
  unfold WandB.validate, mbind, result_bind in H.
  destruct (WandB.check_sweep_num _ _) as [s|] eqn:Hs; [|discriminate H].
  injection H as <-. split; [done|]. exists w. split; [congruence|].
  unfold WandB.check_sweep_num in *. by destruct (_ && _).
Qed.

(** The derived quantities of a successful construction, in terms of
    the raw input. *)
Lemma MainConfig_derived (raw v : Main.t) :
  MainConfig raw = Ok v →
  ∃ instance rlct V quotient num_samples,
    resolve (Main.task_config raw) = Ok instance
    ∧ Main.rlct_config raw = Some rlct
    ∧ RLCT.class rlct = DictConfig
    ∧ RLCT.num_burnin_steps rlct = 0
    ∧ vocab_size instance = Ok (PyInt V)
    ∧ DatasetConfig.length (task_base instance) = RawTask.length (Main.task_config raw)
    ∧ DatasetConfig.size (task_base instance) = RawTask.size (Main.task_config raw)
    ∧ int_truediv (Main.num_training_iter raw) (effective_eval_frequency raw) = Ok quotient
    ∧ (0 ≤ RawTask.length (Main.task_config raw) →
       num_samples
       = PyInt (Z.min (samples_seen raw rlct) (V ^ RawTask.length (Main.task_config raw))))
    ∧ (RawTask.length (Main.task_config raw) < 0 → num_samples = Untracked)
    ∧ Main.eval_frequency v = Some (effective_eval_frequency raw)
    ∧ Main.num_epochs v = Some (math_ceil quotient)
    ∧ Main.rlct_config v = Some (derived_rlct rlct num_samples)
    ∧ Main.num_training_iter v = Main.num_training_iter raw.
Proof.
  intros H. apply MainConfig_Ok in H as [H _].
  apply _set_fields_Ok in H
    as (instance & nano & rlct & sgld & sgnht & quotient & vocab & ov & population & num_samples
        & Hres & _ & Hrlct & _ & _ & Hclass & Hburn & Hq & Hvocab & _ & Hpow & Hmin
        & Hef & Hne & Hrlct' & _ & _ & _ & _ & _ & Hiter).
  pose proof (resolve_base _ _ Hres) as Hbase.
  rewrite Hbase in Hpow. cbn [DatasetConfig.length DatasetConfig.new] in Hpow.
  destruct vocab as [|V|]; cbn [py_pow] in Hpow.
  - discriminate Hpow.
  - exists instance, rlct, V, quotient, num_samples.
    rewrite Hbase. simpl. repeat split; try done.
    + intros Hlen. unfold int_pow in Hpow.
      rewrite (proj2 (Z.leb_le _ _) Hlen) in Hpow.
      injection Hpow as <-. simpl in Hmin. injection Hmin as <-. f_equal.
      destruct (Z.ltb_spec (V ^ RawTask.length (Main.task_config raw)) (samples_seen raw rlct));
        lia.
    + intros Hlen. unfold int_pow in Hpow.
      rewrite (proj2 (Z.leb_gt _ _) Hlen) in Hpow.
      destruct (V =? 0); [discriminate Hpow|].
      injection Hpow as <-. simpl in Hmin. by injection Hmin as <-.
  - by apply vocab_size_tracked in Hvocab.
Qed.

(** C2. After a successful construction both [sgld_kwargs] and
    [sgnht_kwargs] are present and hold, under [num_samples], the value
    of [rlct_config["num_samples"]], whatever [sampling_method] is. *)
Theorem sampler_kwargs_synchronised (raw v : Main.t) :
  MainConfig raw = Ok v →
  ∃ rlct rlct' sgld sgnht,
    Main.rlct_config raw = Some rlct
    ∧ Main.rlct_config v = Some rlct'
    ∧ RLCT.sampling_method rlct' = RLCT.sampling_method rlct
    ∧ RLCT.sgld_kwargs rlct' = Some sgld
    ∧ RLCT.sgnht_kwargs rlct' = Some sgnht
    ∧ SamplerKwargs.num_samples sgld = RLCT.num_samples rlct'
    ∧ SamplerKwargs.num_samples sgnht = RLCT.num_samples rlct'.
Proof.
  intros H.
  apply MainConfig_derived in H
    as (instance & rlct & V & quotient & num_samples & _ & Hrlct & _ & _ & _ & _ & _ & _ & _ & _
        & _ & _ & Hrlct' & _).
  exists rlct, (derived_rlct rlct num_samples),
    (SamplerKwargs.Build num_samples), (SamplerKwargs.Build num_samples).
  repeat split; done.
Qed.

(** C3. After a successful construction on sequences of length
    [length >= 0], [num_samples] is an integer not greater than
    [vocab_size ^ length] of the resolved task. *)
Theorem num_samples_within_population (raw v : Main.t) :
  MainConfig raw = Ok v →
  0 ≤ RawTask.length (Main.task_config raw) →
  ∃ instance V rlct' n,
    resolve (Main.task_config raw) = Ok instance
    ∧ vocab_size instance = Ok (PyInt V)
    ∧ DatasetConfig.length (task_base instance) = RawTask.length (Main.task_config raw)
    ∧ Main.rlct_config v = Some rlct'
    ∧ RLCT.num_samples rlct' = PyInt n
    ∧ n ≤ V ^ DatasetConfig.length (task_base instance).
Proof.
  intros H Hlen.
  apply MainConfig_derived in H
    as (instance & rlct & V & quotient & num_samples & Hres & Hrlct & _ & _ & Hvocab & Hl & _ & _
        & Hns & _ & _ & _ & Hrlct' & _).
  exists instance, V, (derived_rlct rlct num_samples),
    (Z.min (samples_seen raw rlct) (V ^ RawTask.length (Main.task_config raw))).
  rewrite Hl. repeat split; try done.
  - simpl. by apply Hns.
  - lia.
Qed.

(** The same steps, simplifying the goal along with the hypothesis. *)
Ltac smp_all H :=
  cbn -[config_class_map getitem int_truediv vocab_size output_vocab_size py_pow py_min
        math_ceil format_run_name Z.mul Z.add Z.eqb] in H;
  cbn -[config_class_map getitem int_truediv vocab_size output_vocab_size py_pow py_min
        math_ceil format_run_name Z.mul Z.add Z.eqb].
Ltac step_all H :=
  match type of H with
  | context [match ?m with Ok _ => _ | Raise _ => _ end] =>
      lazymatch m with
      | context [match _ with Ok _ => _ | Raise _ => _ end] => fail
      | _ => let E := fresh "E" in destruct m eqn:E; smp_all H; [|discriminate H]
      end
  end.

(** On an input that is accepted, so one whose RLCT section offers
    attribute access, any nonzero burn-in count makes [_set_fields] fail
    with the assertion of line 539. *)
Lemma burnin_assertion (raw v : Main.t) (rlct : RLCT.t) (b : Z) :
  Main.rlct_config raw = Some rlct →
  _set_fields raw = Ok v →
  b ≠ 0 →
  _set_fields (Main.set_rlct_config (RLCT.set_num_burnin_steps b rlct) raw)
  = Raise (AssertionError burnin_message).
Proof.
  intros Hrlct H Hb.
  destruct raw as [mt task dl opt nano rlct0 wandb iters rn iwe ne ef].
  simpl in Hrlct. subst rlct0.
  destruct rlct as [cls sm chains draws ns burn steps bs online distill diag sgld sgnht dir].
  unfold _set_fields, mbind, result_bind in *.
  smp_all H. step_all H. step_all H.
  destruct nano as [nano|].
  2:{ destruct ef as [ef|]; [smp_all H; destruct (ef =? 0)|]; smp_all H; discriminate H. }
  destruct sgld as [sgld|].
  2:{ destruct ef as [ef|]; [smp_all H; destruct (ef =? 0)|]; smp_all H; repeat step_all H; discriminate H. }
  destruct sgnht as [sgnht|].
  2:{ destruct ef as [ef|]; [smp_all H; destruct (ef =? 0)|]; smp_all H; repeat step_all H; discriminate H. }
  destruct cls.
  { destruct ef as [ef|]; [smp_all H; destruct (ef =? 0)|]; smp_all H; repeat step_all H; discriminate H. }
  destruct ef as [ef|]; [smp_all H; destruct (ef =? 0)|]; smp_all H.
  all: step_all H; step_all H; step_all H; step_all H.
  all: match goal with p : pyval, Hp : py_pow _ _ = Ok ?p |- _ => destruct p end;
       cbn [py_min] in *; try discriminate H; smp_all H.
  all: unfold py_assert; by rewrite (proj2 (Z.eqb_neq b 0) Hb).
Qed.

(** A nonzero burn-in count is never accepted. *)
Lemma burnin_nonzero_rejected (raw : Main.t) (rlct : RLCT.t) :
  Main.rlct_config raw = Some rlct →
  RLCT.num_burnin_steps rlct ≠ 0 →
  ∃ e, MainConfig raw = Raise e.
Proof.
  intros Hrlct Hburn.
  destruct (MainConfig raw) as [v|e] eqn:H; [|by exists e].
  apply MainConfig_derived in H
    as (? & rlct' & ? & ? & ? & _ & Hrlct' & _ & Hzero & _).
  congruence.
Qed.

(** [eval_frequency] zero is never reached: the division fails. *)
Lemma eval_frequency_zero_rejected (raw : Main.t) :
  effective_eval_frequency raw = 0 → ∃ e, MainConfig raw = Raise e.
Proof.
  intros Hzero.
  destruct (MainConfig raw) as [v|e] eqn:H; [|by exists e].
  apply MainConfig_derived in H
    as (? & ? & ? & ? & ? & _ & _ & _ & _ & _ & _ & _ & Hq & _).
  rewrite Hzero in Hq. discriminate Hq.
Qed.

(** ** The claims on the derived configuration *)

(** C1, as the spec states it, fails on the sample input: the code
    returns [min(100 * 64, 2 ^ 3) = 8] where the spec's formula gives
    [min(100, 2 ^ 3) * 64 = 512], whether the batch size is read as the
    data loader's [train_bs] or as the RLCT section's [batch_size]. *)
Lemma num_samples_min_then_batch_refuted :
  ¬ (∀ (raw v : Main.t) (rlct rlct' : RLCT.t) (instance : TaskConfig) (V batch : Z),
       MainConfig raw = Ok v →
       Main.rlct_config raw = Some rlct →
       Main.rlct_config v = Some rlct' →
       resolve (Main.task_config raw) = Ok instance →
       vocab_size instance = Ok (PyInt V) →
       batch = DataLoader.train_bs (Main.dataloader_config raw)
       ∨ batch = RLCT.batch_size rlct →
       RLCT.num_samples rlct'
       = PyInt (Z.min (RLCT.num_draws rlct * RLCT.num_steps_bw_draws rlct
                       + RLCT.num_burnin_steps rlct)
                      (V ^ DatasetConfig.length (task_base instance))
                * batch)).
Proof.
  intros Hclaim.
  specialize (Hclaim accepted_input accepted_output (sample_rlct DictConfig 0)
                (derived_rlct (sample_rlct DictConfig 0) (PyInt 8))
                (Parity (ParityAutomatonConfig.Build (DatasetConfig.new parity_task)))
                2 64 eq_refl eq_refl eq_refl eq_refl eq_refl (or_introl eq_refl)).
  discriminate Hclaim.
Qed.

(** C1, amended. After a successful construction on sequences of
    length [length >= 0], [num_samples] is
    [min((num_draws * num_steps_bw_draws + num_burnin_steps) * train_bs,
    vocab_size ^ length)], with [train_bs] the data loader's training
    batch size: the product with the batch size is taken first, then the
    minimum with the population bound. *)
Theorem num_samples_formula (raw v : Main.t) :
  MainConfig raw = Ok v →
  0 ≤ RawTask.length (Main.task_config raw) →
  ∃ rlct rlct' instance V,
    Main.rlct_config raw = Some rlct
    ∧ Main.rlct_config v = Some rlct'
    ∧ resolve (Main.task_config raw) = Ok instance
    ∧ vocab_size instance = Ok (PyInt V)
    ∧ DatasetConfig.length (task_base instance) = RawTask.length (Main.task_config raw)
    ∧ RLCT.num_samples rlct'
      = PyInt (Z.min ((RLCT.num_draws rlct * RLCT.num_steps_bw_draws rlct
                       + RLCT.num_burnin_steps rlct)
                      * DataLoader.train_bs (Main.dataloader_config raw))
                     (V ^ DatasetConfig.length (task_base instance))).
Proof.
  intros H Hlen.
  apply MainConfig_derived in H
    as (instance & rlct & V & quotient & num_samples & Hres & Hrlct & _ & _ & Hvocab & Hl & _ & _
        & Hns & _ & _ & _ & Hrlct' & _).
  exists rlct, (derived_rlct rlct num_samples), instance, V.
  rewrite Hl. repeat split; try done. simpl. by apply Hns.
Qed.

Lemma num_samples_formula_witness :
  MainConfig accepted_input = Ok accepted_output
  ∧ 0 ≤ RawTask.length (Main.task_config accepted_input)
  ∧ ∃ rlct', Main.rlct_config accepted_output = Some rlct'
             ∧ RLCT.num_samples rlct' = PyInt 8.
Proof.
  assert (H1 : MainConfig accepted_input = Ok accepted_output) by reflexivity.
  assert (H2 : 0 ≤ RawTask.length (Main.task_config accepted_input)) by (simpl; lia).
  split; [exact H1|]. split; [exact H2|].
  destruct (num_samples_formula accepted_input accepted_output H1 H2)
    as (rlct & rlct' & instance & V & Hrlct & Hrlct' & Hres & Hvocab & Hl & Hns).
  exists rlct'. split; [exact Hrlct'|].
  injection Hrlct' as <-. reflexivity.
Defined.

Lemma sampler_kwargs_synchronised_witness :
  MainConfig accepted_input = Ok accepted_output
  ∧ ∃ rlct' sgld sgnht,
      Main.rlct_config accepted_output = Some rlct'
      ∧ RLCT.sgld_kwargs rlct' = Some sgld
      ∧ RLCT.sgnht_kwargs rlct' = Some sgnht
      ∧ SamplerKwargs.num_samples sgld = RLCT.num_samples rlct'
      ∧ SamplerKwargs.num_samples sgnht = RLCT.num_samples rlct'.
Proof.
  assert (H1 : MainConfig accepted_input = Ok accepted_output) by reflexivity.
  split; [exact H1|].
  destruct (sampler_kwargs_synchronised accepted_input accepted_output H1)
    as (rlct & rlct' & sgld & sgnht & _ & Hrlct' & _ & Hsgld & Hsgnht & H2 & H3).
  exists rlct', sgld, sgnht. repeat split; assumption.
Defined.

Lemma num_samples_within_population_witness :
  MainConfig accepted_input = Ok accepted_output
  ∧ 0 ≤ RawTask.length (Main.task_config accepted_input)
  ∧ ∃ instance V rlct' n,
      resolve (Main.task_config accepted_input) = Ok instance
      ∧ vocab_size instance = Ok (PyInt V)
      ∧ Main.rlct_config accepted_output = Some rlct'
      ∧ RLCT.num_samples rlct' = PyInt n
      ∧ n ≤ V ^ DatasetConfig.length (task_base instance).
Proof.
  assert (H1 : MainConfig accepted_input = Ok accepted_output) by reflexivity.
  assert (H2 : 0 ≤ RawTask.length (Main.task_config accepted_input)) by (simpl; lia).
  split; [exact H1|]. split; [exact H2|].
  destruct (num_samples_within_population accepted_input accepted_output H1 H2)
    as (instance & V & rlct' & n & Hres & Hvocab & _ & Hrlct' & Hns & Hle).
  exists instance, V, rlct', n. repeat split; assumption.
Defined.

(** C5, as the spec states it, fails on the sample input with
    [10^17 + 1] iterations and [eval_frequency = 10^17]: the float
    quotient is [1.0], so [num_epochs] is 1, and the ceiling of the
    quotient is 2. *)
Lemma num_epochs_exact_ceiling_refuted :
  ¬ (∀ (raw v : Main.t) (eval_frequency num_epochs : Z),
       MainConfig raw = Ok v →
       Main.eval_frequency v = Some eval_frequency →
       Main.num_epochs v = Some num_epochs →
       num_epochs = ceil_div (Main.num_training_iter v) eval_frequency).
Proof.
  intros Hclaim.
  specialize (Hclaim beyond_input beyond_output (10 ^ 17) 1 eq_refl eq_refl eq_refl).
  vm_compute in Hclaim. discriminate Hclaim.
Qed.

(** C5, amended. After a successful construction from an input whose
    [eval_frequency] is [None], [eval_frequency] is the task's [size];
    after every successful construction [num_epochs] is
    [math.ceil(num_training_iter / eval_frequency)] on the float
    quotient, which is the exact ceiling of the quotient as long as the
    iteration count is below [2 ^ 53] and [eval_frequency] below
    [2 ^ 1075] in magnitude; and the same input with the key
    [eval_frequency] left out is a [KeyError]. *)
Theorem eval_frequency_default_and_epochs (raw v : Main.t) :
  MainConfig raw = Ok v →
  (Main.eval_frequency raw = None →
   ∃ instance,
     resolve (Main.task_config raw) = Ok instance
     ∧ Main.eval_frequency v = Some (DatasetConfig.size (task_base instance)))
  ∧ (∃ eval_frequency quotient,
      Main.eval_frequency v = Some eval_frequency
      ∧ int_truediv (Main.num_training_iter v) eval_frequency = Ok quotient
      ∧ Main.num_epochs v = Some (math_ceil quotient)
      ∧ (Z.abs (Main.num_training_iter v) < 2 ^ 53 →
         Z.abs eval_frequency < 2 ^ 1075 →
         Main.num_epochs v = Some (ceil_div (Main.num_training_iter v) eval_frequency)))
  ∧ MainConfig_kwargs Absent raw = Raise (KeyError "eval_frequency")
  ∧ MainConfig_kwargs (match Main.eval_frequency raw with
                       | None => Null
                       | Some z => Given z
                       end) raw = Ok v.
Proof.
  intros H.
  pose proof H as H0.
  apply MainConfig_derived in H
    as (instance & rlct & V & quotient & num_samples & Hres & _ & _ & _ & _ & _ & Hsize & Hq
        & _ & _ & Hef & Hne & _ & Hiter).
  split; [|split; [|split]].
  - intros Hnone. exists instance. split; [done|].
    rewrite Hef, Hsize. unfold effective_eval_frequency. by rewrite Hnone.
  - exists (effective_eval_frequency raw), quotient. rewrite Hiter.
    repeat split; try done.
    intros Hsmall Hbound. rewrite Hne. f_equal.
    destruct (Z.eq_dec (effective_eval_frequency raw) 0) as [Hz|Hnz].
    { rewrite Hz in Hq. discriminate Hq. }
    destruct (math_ceil_int_truediv _ _ Hsmall Hnz Hbound) as (q & Hq' & Hceil).
    congruence.
  - unfold resolve, mbind, result_bind in Hres.
    unfold MainConfig_kwargs, mbind, result_bind.
    destruct (getitem config_class_map _) as [cls|]; [|discriminate Hres].
    by rewrite Hres.
  - destruct raw as [? ? ? ? ? ? ? ? ? ? ? [z|]]; exact H0.
Qed.

Lemma eval_frequency_default_and_epochs_witness :
  MainConfig accepted_input = Ok accepted_output
  ∧ Main.eval_frequency accepted_input = None
  ∧ Main.eval_frequency accepted_output = Some 600000
  ∧ Main.num_epochs accepted_output = Some 1
  ∧ (∃ quotient,
      int_truediv (Main.num_training_iter accepted_output) 600000 = Ok quotient
      ∧ Main.num_epochs accepted_output = Some (math_ceil quotient))
  ∧ MainConfig_kwargs Absent accepted_input = Raise (KeyError "eval_frequency")
  ∧ MainConfig_kwargs Null accepted_input = Ok accepted_output.
Proof.
  assert (H1 : MainConfig accepted_input = Ok accepted_output) by reflexivity.
  assert (H2 : Main.eval_frequency accepted_input = None) by reflexivity.
  split; [exact H1|]. split; [exact H2|].
  destruct (eval_frequency_default_and_epochs accepted_input accepted_output H1)
    as (Hdefault & (ef & quotient & Hef & Hq & Hne & _) & Habsent & Hpresent).
  destruct (Hdefault H2) as (instance & Hres & Hef').
  split; [reflexivity|]. split; [reflexivity|].
  split; [|split; [exact Habsent | exact Hpresent]].
  exists quotient. injection Hef as <-. split; [exact Hq | exact Hne].
Defined.

(** Beyond [2 ^ 53] iterations the float quotient may round down to an
    integer: [(10^17 + 1) / 10^17] is [1.0]. *)
Example num_epochs_beyond_binary64 :
  (q ← int_truediv (10 ^ 17 + 1) (10 ^ 17); Ok (math_ceil q)) = Ok 1
  ∧ ceil_div (10 ^ 17 + 1) (10 ^ 17) = 2.
Proof. split; reflexivity. Qed.

(** C6, as the spec states it, fails on the sample input with
    [eval_frequency = -5]: the construction succeeds and keeps [-5]. *)
Lemma eval_frequency_positive_refuted :
  ¬ (∀ (raw v : Main.t) (eval_frequency : Z),
       MainConfig raw = Ok v →
       Main.eval_frequency v = Some eval_frequency →
       0 < eval_frequency).
Proof.
  intros Hclaim.
  specialize (Hclaim negative_input negative_output (-5) eq_refl eq_refl).
  lia.
Qed.

(** C6, amended. A successfully constructed configuration has a
    nonzero [eval_frequency]: a raw value of [None] or [0] is replaced
    by the task's [size], the construction fails when the value is then
    still [0], and any other raw value, negative ones included, is kept
    as it is. *)
Theorem eval_frequency_nonzero (raw : Main.t) :
  (∀ v, MainConfig raw = Ok v →
     ∃ eval_frequency,
       Main.eval_frequency v = Some eval_frequency
       ∧ eval_frequency ≠ 0
       ∧ eval_frequency = effective_eval_frequency raw)
  ∧ (∀ z, Main.eval_frequency raw = Some z → z ≠ 0 → effective_eval_frequency raw = z)
  ∧ (Main.eval_frequency raw = None ∨ Main.eval_frequency raw = Some 0 →
     effective_eval_frequency raw = RawTask.size (Main.task_config raw))
  ∧ (effective_eval_frequency raw = 0 → ∃ e, MainConfig raw = Raise e).
Proof.
  split; [|split; [|split]].
  - intros v H.
    destruct (MainConfig_derived _ _ H)
      as (? & ? & ? & ? & ? & _ & _ & _ & _ & _ & _ & _ & Hq & _ & _ & Hef & _).
    exists (effective_eval_frequency raw). split; [done|]. split; [|done].
    intros Hz. rewrite Hz in Hq. discriminate Hq.
  - intros z Hz Hnz. unfold effective_eval_frequency. rewrite Hz.
    by rewrite (proj2 (Z.eqb_neq z 0) Hnz).
  - intros [Hn|Hz]; unfold effective_eval_frequency; by rewrite ?Hn, ?Hz.
  - apply eval_frequency_zero_rejected.
Qed.

Lemma eval_frequency_nonzero_witness :
  MainConfig negative_input = Ok negative_output
  ∧ Main.eval_frequency negative_input = Some (-5)
  ∧ -5 ≠ 0
  ∧ Main.eval_frequency negative_output = Some (-5)
  ∧ Main.num_epochs negative_output = Some (-2000).
Proof.
  assert (H1 : MainConfig negative_input = Ok negative_output) by reflexivity.
  assert (H2 : Main.eval_frequency negative_input = Some (-5)) by reflexivity.
  assert (H3 : -5 ≠ 0) by lia.
  split; [exact H1|]. split; [exact H2|]. split; [exact H3|].
  destruct (eval_frequency_nonzero negative_input) as (Hok & Hkeep & _ & _).
  destruct (Hok negative_output H1) as (ef & Hef & _ & Heq).
  rewrite (Hkeep (-5) H2 H3) in Heq. subst ef.
  split; [exact Hef | reflexivity].
Defined.

(** C4. With the RLCT section given as a builtin [dict] and a burn-in
    count of zero, line 539 does not pass: reading
    [rlct_config.num_burnin_steps] raises [AttributeError]. The same
    input with a [DictConfig] section is accepted. *)
Theorem burnin_check_on_dict :
  RLCT.num_burnin_steps (sample_rlct Dict 0) = 0
  ∧ MainConfig (sample_input Dict 0 None)
    = Raise (AttributeError "'dict' object has no attribute 'num_burnin_steps'")
  ∧ MainConfig (sample_input DictConfig 0 None) = Ok accepted_output
  ∧ MainConfig (sample_input DictConfig 5 None) = Raise (AssertionError burnin_message).
Proof. repeat split; reflexivity. Qed.

(** * Further properties *)

(** When [_set_fields] returns, and what: the converse of
    [_set_fields_Ok], with the returned dictionary written out. *)
Lemma _set_fields_iff (v v' : Main.t) :
  _set_fields v = Ok v' ↔
  ∃ instance nano rlct sgld sgnht quotient vocab output_vocab population num_samples,
    resolve (Main.task_config v) = Ok instance
    ∧ Main.nano_gpt_config v = Some nano
    ∧ Main.rlct_config v = Some rlct
    ∧ RLCT.sgld_kwargs rlct = Some sgld
    ∧ RLCT.sgnht_kwargs rlct = Some sgnht
    ∧ RLCT.class rlct = DictConfig
    ∧ RLCT.num_burnin_steps rlct = 0
    ∧ int_truediv (Main.num_training_iter v) (effective_eval_frequency v) = Ok quotient
    ∧ vocab_size instance = Ok vocab
    ∧ output_vocab_size instance = Ok output_vocab
    ∧ py_pow vocab (DatasetConfig.length (task_base instance)) = Ok population
    ∧ py_min (samples_seen v rlct) population = Ok num_samples
    ∧ v' = derived_config v nano rlct vocab output_vocab num_samples quotient.
Proof.
  split.
  - intros H. unfold _set_fields, mbind, result_bind in H.
    destruct v as [mt task dl opt nano rlct wandb iters rn iwe ne ef].
    smp H. step H. step H.
    destruct nano as [nano|].
    2:{ case_eval_frequency ef H; discriminate H. }
    destruct rlct as [rlct|].
    2:{ case_eval_frequency ef H; repeat step H; discriminate H. }
    destruct rlct as [cls sm chains draws ns burn steps bs online distill diag sgld sgnht dir].
    destruct sgld as [sgld|].
    2:{ case_eval_frequency ef H; repeat step H; discriminate H. }
    destruct sgnht as [sgnht|].
    2:{ case_eval_frequency ef H; repeat step H; discriminate H. }
    destruct cls.
    { case_eval_frequency ef H; repeat step H; discriminate H. }
    assert (Hres : ∀ cls instance,
      getitem config_class_map (RawTask.dataset_type task) = Ok cls → cls task = Ok instance →
      resolve task = Ok instance).
    { intros cls instance Hcls Hinst. unfold resolve, mbind, result_bind. by rewrite Hcls. }
    case_eval_frequency ef H; repeat step H;
      injection H as <-;
      match goal with
      | Hc : getitem _ _ = Ok ?c, Hi : ?c task = Ok ?inst,
        Hq : int_truediv _ _ = Ok ?q, Hv : vocab_size _ = Ok ?vo,
        Ho : output_vocab_size _ = Ok ?ov, Hp : py_pow _ _ = Ok ?po,
        Hm : py_min _ _ = Ok ?nsm, Hb : py_assert (burn =? 0) _ = Ok _ |- _ =>
          exists inst, nano, (RLCT.Build DictConfig sm chains draws ns burn steps bs online distill
                                diag (Some sgld) (Some sgnht) dir), sgld, sgnht, q, vo, ov, po, nsm;
          pose proof (Hres c inst Hc Hi);
          assert (burn = 0)
            by (unfold py_assert in Hb; destruct (Z.eqb_spec burn 0); [done | discriminate Hb])
      end;
      unfold effective_eval_frequency, samples_seen, derived_config;
      cbn -[config_class_map getitem int_truediv vocab_size output_vocab_size py_pow py_min
            math_ceil format_run_name Z.mul Z.add Z.eqb];
      rewrite ?Heqb; repeat (split; [by eauto|]); reflexivity.
  - intros (instance & nano & rlct & sgld & sgnht & quotient & vocab & ov & population & ns
            & Hres & Hnano & Hrlct & Hsgld & Hsgnht & Hclass & Hburn & Hq & Hvocab & Hov
            & Hpow & Hmin & ->).
    destruct v as [mt task dl opt nano0 rlct0 wandb iters rn iwe ne ef].
    simpl in Hnano, Hrlct. subst nano0 rlct0.
    destruct rlct as [cls sm chains draws ns0 burn steps bs online distill diag sgld0 sgnht0 dir].
    simpl in Hsgld, Hsgnht, Hclass, Hburn. subst sgld0 sgnht0 cls burn.
    unfold resolve, mbind, result_bind in Hres. simpl in Hres.
    destruct (getitem config_class_map (RawTask.dataset_type task)) as [cls|] eqn:Hcls;
      [|discriminate Hres].
    unfold samples_seen in Hmin. simpl in Hmin.
    unfold _set_fields, mbind, result_bind, derived_config.
    cbn -[config_class_map getitem int_truediv vocab_size output_vocab_size py_pow py_min
          math_ceil format_run_name Z.mul Z.add Z.eqb].
    rewrite Hcls, Hres.
    unfold effective_eval_frequency in *. simpl in Hq |- *.
    destruct ef as [ef|]; [destruct (ef =? 0) eqn:Hef|];
      cbn -[config_class_map getitem int_truediv vocab_size output_vocab_size py_pow py_min
            math_ceil format_run_name Z.mul Z.add Z.eqb];
      rewrite ?Hef;
      cbn -[config_class_map getitem int_truediv vocab_size output_vocab_size py_pow py_min
            math_ceil format_run_name Z.mul Z.add Z.eqb];
      rewrite Hq;
      cbn -[config_class_map getitem int_truediv vocab_size output_vocab_size py_pow py_min
            math_ceil format_run_name Z.mul Z.add Z.eqb];
      rewrite Hvocab, Hov;
      cbn -[config_class_map getitem int_truediv vocab_size output_vocab_size py_pow py_min
            math_ceil format_run_name Z.mul Z.add Z.eqb];
      rewrite Hpow;
      cbn -[config_class_map getitem int_truediv vocab_size output_vocab_size py_pow py_min
            math_ceil format_run_name Z.mul Z.add Z.eqb];
      rewrite Hmin; reflexivity.
Qed.

(** The construction succeeds exactly when the root validator does
    and the sweep check passes. *)
Lemma MainConfig_iff (raw v : Main.t) :
  MainConfig raw = Ok v ↔
  _set_fields raw = Ok v
  ∧ ∃ w, Main.wandb_config raw = Some w
         ∧ ¬ (WandB.sweep w = true ∧ WandB.sweep_num w = None).
Proof.
  unfold MainConfig, mbind, result_bind. split.
  - intros H. destruct (_set_fields raw) as [v0|] eqn:Hset; [|discriminate H].
    pose proof (proj1 (_set_fields_iff _ _) Hset)
      as (? & ? & ? & ? & ? & ? & ? & ? & ? & ? & _ & _ & _ & _ & _ & _ & _ & _ & _ & _ & _ & _ & Hv0).
    destruct (Main.wandb_config v0) as [w|] eqn:Hw; [|discriminate H].
    assert (Hw' : Main.wandb_config raw = Some w) by (by subst v0).
    unfold WandB.validate, WandB.check_sweep_num, mbind, result_bind in H.
    destruct (WandB.sweep w) eqn:Hs, (WandB.sweep_num w) as [k|] eqn:Hk; simpl in H;
      try discriminate H; injection H as <-; (split; [done|]); exists w; split; try done;
      intros [? ?]; congruence.
  - intros (Hset & w & Hw & Hsweep). rewrite Hset.
    pose proof (proj1 (_set_fields_iff _ _) Hset)
      as (? & ? & ? & ? & ? & ? & ? & ? & ? & ? & _ & _ & _ & _ & _ & _ & _ & _ & _ & _ & _ & _ & Hv).
    assert (Hw' : Main.wandb_config v = Some w) by (by subst v).
    rewrite Hw'. unfold WandB.validate, WandB.check_sweep_num, mbind, result_bind.
    destruct (WandB.sweep w) eqn:Hs, (WandB.sweep_num w) as [k|] eqn:Hk; simpl; try done.
    exfalso. by apply Hsweep.
Qed.

(** The keys of the registry are the values of [DatasetType]. *)
Lemma config_class_map_keys (tag : string) :
  is_Some (config_class_map !! tag) ↔ ∃ d, DatasetType.value d = tag.
Proof.
  split.
  - intros [cls Hcls]. apply elem_of_list_to_map_2 in Hcls.
    repeat (apply elem_of_cons in Hcls as [Hcls|Hcls];
            [injection Hcls as -> _; clear|]).
    12: by apply elem_of_nil in Hcls.
    + by exists DatasetType.ABAB.
    + by exists DatasetType.ADDER.
    + by exists DatasetType.ALTERNATING.
    + by exists DatasetType.CYCLIC.
    + by exists DatasetType.DIHEDRAL.
    + by exists DatasetType.FLIPFLOP.
    + by exists DatasetType.GRIDWORLD.
    + by exists DatasetType.PARITY.
    + by exists DatasetType.QUATERNION.
    + by exists DatasetType.PERMUTATION_RESET.
    + by exists DatasetType.SYMMETRIC.
  - intros [d <-]. destruct d; eexists; reflexivity.
Qed.

(** The class each tag of the registry builds. *)
Lemma resolve_by_tag (raw : RawTask.t) :
  (RawTask.dataset_type raw = "abab" → resolve raw = ABAB <$> ABABAutomatonConfig.new raw)
  ∧ (RawTask.dataset_type raw = "adder" → resolve raw = Adder <$> AdderAutomatonConfig.new raw)
  ∧ (RawTask.dataset_type raw = "alternating" →
     resolve raw = Alternating <$> AlternatingAutomatonConfig.new raw)
  ∧ (RawTask.dataset_type raw = "cyclic" →
     resolve raw = Cyclic <$> CyclicAutomatonConfig.new raw)
  ∧ (RawTask.dataset_type raw = "dihedral" →
     resolve raw = Dihedral <$> DihedralAutomatonConfig.new raw)
  ∧ (RawTask.dataset_type raw = "flipflop" →
     resolve raw = FlipFlop <$> FlipFlopAutomatonConfig.new raw)
  ∧ (RawTask.dataset_type raw = "gridworld" →
     resolve raw = Gridworld <$> GridworldAutomatonConfig.new raw)
  ∧ (RawTask.dataset_type raw = "parity" →
     resolve raw = Parity <$> ParityAutomatonConfig.new raw)
  ∧ (RawTask.dataset_type raw = "quaternion" →
     resolve raw = Quaternion <$> QuaternionAutomatonConfig.new raw)
  ∧ (RawTask.dataset_type raw = "permutation_reset" →
     resolve raw = PermutationReset <$> PermutationResetAutomatonConfig.new raw)
  ∧ (RawTask.dataset_type raw = "symmetric" →
     resolve raw = Symmetric <$> SymmetricAutomatonConfig.new raw).
Proof.
  unfold resolve. repeat split; intros ->; reflexivity.
Qed.

(** X1. [config_class_map] has a class for every member of
    [DatasetType], and a raw task is only ever instantiated when its
    [dataset_type] is the value of one of them. *)
Theorem registry_covers_dataset_types (raw : RawTask.t) :
  (∀ d, ∃ cls, config_class_map !! DatasetType.value d = Some cls)
  ∧ ((∃ instance, resolve raw = Ok instance) →
     ∃ d, DatasetType.value d = RawTask.dataset_type raw).
Proof.
  split.
  - intros d. apply (proj2 (config_class_map_keys _)). by exists d.
  - intros [instance Hres]. apply config_class_map_keys.
    unfold resolve, getitem, mbind, result_bind in Hres.
    destruct (config_class_map !! RawTask.dataset_type raw); [eauto | discriminate Hres].
Qed.

Lemma registry_covers_dataset_types_witness :
  (∃ instance, resolve parity_task = Ok instance)
  ∧ ∃ d, DatasetType.value d = RawTask.dataset_type parity_task.
Proof.
  assert (H : ∃ instance, resolve parity_task = Ok instance) by (eexists; reflexivity).
  split; [exact H|]. exact (proj2 (registry_covers_dataset_types parity_task) H).
Defined.

(** X2. A [dataset_type] that is no [DatasetType] value is a
    [KeyError] on that tag, raised by line 508 before anything else, for
    the task lookup and for the whole construction. *)
Theorem unknown_dataset_type (raw : Main.t) :
  (∀ d, DatasetType.value d ≠ RawTask.dataset_type (Main.task_config raw)) →
  resolve (Main.task_config raw) = Raise (KeyError (RawTask.dataset_type (Main.task_config raw)))
  ∧ MainConfig raw = Raise (KeyError (RawTask.dataset_type (Main.task_config raw))).
Proof.
  intros Hunknown.
  assert (Hnone : config_class_map !! RawTask.dataset_type (Main.task_config raw) = None).
  { apply eq_None_not_Some. intros Hsome. apply config_class_map_keys in Hsome as [d Hd].
    by apply (Hunknown d). }
  unfold MainConfig, _set_fields, resolve, getitem, mbind, result_bind.
  by rewrite Hnone.
Qed.

Lemma unknown_dataset_type_witness :
  let raw := sample_input_with mnist_task (Some sample_nano)
               (Some (sample_rlct DictConfig 0)) (Some sample_wandb) in
  (∀ d, DatasetType.value d ≠ RawTask.dataset_type (Main.task_config raw))
  ∧ MainConfig raw = Raise (KeyError "mnist").
Proof.
  intros raw.
  assert (H : ∀ d, DatasetType.value d ≠ RawTask.dataset_type (Main.task_config raw))
    by (intros d; destruct d; discriminate).
  split; [exact H|]. exact (proj2 (unknown_dataset_type raw H)).
Defined.

(** X3. After a successful construction [nano_gpt_config] holds the
    task's sequence length plus one as [block_size] and the task's two
    vocabulary sizes, whatever the raw input held there; [n_layers] is
    kept. *)
Theorem model_dimensions_from_task (raw v : Main.t) :
  MainConfig raw = Ok v →
  ∃ instance nano V output_vocab,
    resolve (Main.task_config raw) = Ok instance
    ∧ Main.nano_gpt_config raw = Some nano
    ∧ vocab_size instance = Ok (PyInt V)
    ∧ output_vocab_size instance = Ok output_vocab
    ∧ Main.nano_gpt_config v
      = Some (NanoGPT.Build (DatasetConfig.length (task_base instance) + 1)
                            (PyInt V) output_vocab (NanoGPT.n_layers nano)).
Proof.
  intros H. apply MainConfig_iff in H as [H _].
  apply _set_fields_iff in H
    as (instance & nano & rlct & sgld & sgnht & q & vocab & ov & pop & ns
        & Hres & Hnano & _ & _ & _ & _ & _ & _ & Hvocab & Hov & Hpow & _ & ->).
  exists instance, nano.
  destruct vocab as [|V|]; [discriminate Hpow | | by apply vocab_size_tracked in Hvocab].
  exists V, ov. rewrite (resolve_base _ _ Hres). by repeat split.
Qed.

Lemma model_dimensions_from_task_witness :
  MainConfig accepted_input = Ok accepted_output
  ∧ Main.nano_gpt_config accepted_output = Some (NanoGPT.Build 4 (PyInt 2) (PyInt 2) 12).
Proof.
  assert (H : MainConfig accepted_input = Ok accepted_output) by reflexivity.
  split; [exact H|].
  destruct (model_dimensions_from_task accepted_input accepted_output H)
    as (instance & nano & V & out & Hres & Hnano & Hv & Ho & Hcfg).
  reflexivity.
Defined.

(** X4. After a successful construction [rlct_data_dir] is
    ["rlct_data_distill"] when [use_distill_loss] is set and
    ["rlct_data"] otherwise, the burn-in count is zero, and the counts
    and flags of the RLCT section are those of the raw input. *)
Theorem rlct_section_derived (raw v : Main.t) :
  MainConfig raw = Ok v →
  ∃ rlct rlct',
    Main.rlct_config raw = Some rlct
    ∧ Main.rlct_config v = Some rlct'
    ∧ RLCT.rlct_data_dir rlct'
      = Some (if RLCT.use_distill_loss rlct then "rlct_data_distill" else "rlct_data")
    ∧ RLCT.num_chains rlct' = RLCT.num_chains rlct
    ∧ RLCT.num_draws rlct' = RLCT.num_draws rlct
    ∧ RLCT.num_steps_bw_draws rlct' = RLCT.num_steps_bw_draws rlct
    ∧ RLCT.num_burnin_steps rlct' = 0
    ∧ RLCT.batch_size rlct' = RLCT.batch_size rlct
    ∧ RLCT.sampling_method rlct' = RLCT.sampling_method rlct
    ∧ RLCT.online rlct' = RLCT.online rlct
    ∧ RLCT.use_distill_loss rlct' = RLCT.use_distill_loss rlct
    ∧ RLCT.use_diagnostics rlct' = RLCT.use_diagnostics rlct.
Proof.
  intros H. apply MainConfig_iff in H as [H _].
  apply _set_fields_iff in H
    as (instance & nano & rlct & sgld & sgnht & q & vocab & ov & pop & ns
        & _ & _ & Hrlct & _ & _ & _ & Hburn & _ & _ & _ & _ & _ & ->).
  exists rlct, (derived_rlct rlct ns). simpl.
  repeat split; try done. by destruct (RLCT.use_distill_loss rlct).
Qed.

Lemma rlct_section_derived_witness :
  MainConfig accepted_input = Ok accepted_output
  ∧ ∃ rlct', Main.rlct_config accepted_output = Some rlct'
             ∧ RLCT.rlct_data_dir rlct' = Some "rlct_data".
Proof.
  assert (H : MainConfig accepted_input = Ok accepted_output) by reflexivity.
  split; [exact H|].
  destruct (rlct_section_derived accepted_input accepted_output H)
    as (rlct & rlct' & Hrlct & Hrlct' & Hdir & _).
  exists rlct'. split; [exact Hrlct'|]. injection Hrlct' as <-. reflexivity.
Defined.

(** X5. The construction fails when [nano_gpt_config], [rlct_config]
    or [wandb_config] is [None], and when either of [sgld_kwargs] and
    [sgnht_kwargs] is [None], whichever sampler is selected. *)
Theorem missing_section_rejected (raw : Main.t) :
  Main.nano_gpt_config raw = None
  ∨ Main.rlct_config raw = None
  ∨ Main.wandb_config raw = None
  ∨ (∃ rlct, Main.rlct_config raw = Some rlct
             ∧ (RLCT.sgld_kwargs rlct = None ∨ RLCT.sgnht_kwargs rlct = None)) →
  ∃ e, MainConfig raw = Raise e.
Proof.
  intros Hmissing.
  destruct (MainConfig raw) as [v|e] eqn:H; [|by exists e].
  apply MainConfig_iff in H as (H & w & Hw & _).
  apply _set_fields_iff in H
    as (instance & nano & rlct & sgld & sgnht & q & vocab & ov & pop & ns
        & _ & Hnano & Hrlct & Hsgld & Hsgnht & _).
  destruct Hmissing as [?|[?|[?|(rlct0 & Hrlct0 & [?|?])]]]; congruence.
Qed.

Lemma missing_section_rejected_witness :
  let raw := sample_input_with parity_task (Some sample_nano)
               (Some (RLCT.set_sgnht_kwargs (SamplerKwargs.Build PyNone)
                        (RLCT.Build DictConfig (Some SGLD) 10 100 PyNone 0 1 64 false false true
                                    None None None)))
               (Some sample_wandb) in
  (∃ rlct, Main.rlct_config raw = Some rlct
           ∧ (RLCT.sgld_kwargs rlct = None ∨ RLCT.sgnht_kwargs rlct = None))
  ∧ ∃ e, MainConfig raw = Raise e.
Proof.
  intros raw.
  assert (H : ∃ rlct, Main.rlct_config raw = Some rlct
                      ∧ (RLCT.sgld_kwargs rlct = None ∨ RLCT.sgnht_kwargs rlct = None))
    by (eexists; split; [reflexivity | left; reflexivity]).
  split; [exact H|].
  exact (missing_section_rejected raw (or_intror (or_intror (or_intror H)))).
Defined.

(** X6. With [sweep] set and [sweep_num] [None] the construction
    fails; when [_set_fields] itself passes, the error is the
    [ValueError] of [check_sweep_num]. *)
Theorem sweep_num_required (raw : Main.t) (w : WandB.t) :
  Main.wandb_config raw = Some w →
  WandB.sweep w = true →
  WandB.sweep_num w = None →
  (∃ e, MainConfig raw = Raise e)
  ∧ (∀ v, _set_fields raw = Ok v →
          MainConfig raw = Raise (ValueError "Must specify sweep_num if sweep is True.")).
Proof.
  intros Hw Hsweep Hnum. split.
  - destruct (MainConfig raw) as [v|e] eqn:H; [|by exists e].
    apply MainConfig_iff in H as (_ & w' & Hw' & Hnot).
    exfalso. apply Hnot. by replace w' with w by congruence.
  - intros v Hset. unfold MainConfig, mbind, result_bind. rewrite Hset.
    apply _set_fields_iff in Hset
      as (? & ? & ? & ? & ? & ? & ? & ? & ? & ? & _ & _ & _ & _ & _ & _ & _ & _ & _ & _ & _ & _ & ->).
    simpl. rewrite Hw. unfold WandB.validate, WandB.check_sweep_num, mbind, result_bind.
    by rewrite Hsweep, Hnum.
Qed.

Lemma sweep_num_required_witness :
  let w := WandB.Build true true None in
  let raw := sample_input_with parity_task (Some sample_nano)
               (Some (sample_rlct DictConfig 0)) (Some w) in
  Main.wandb_config raw = Some w
  ∧ WandB.sweep w = true
  ∧ WandB.sweep_num w = None
  ∧ MainConfig raw = Raise (ValueError "Must specify sweep_num if sweep is True.").
Proof.
  intros w raw.
  assert (H1 : Main.wandb_config raw = Some w) by reflexivity.
  assert (H2 : WandB.sweep w = true) by reflexivity.
  assert (H3 : WandB.sweep_num w = None) by reflexivity.
  repeat (split; [assumption|]).
  destruct (sweep_num_required raw w H1 H2 H3) as [_ Herr].
  destruct (_set_fields raw) as [v|e] eqn:Hset; [exact (Herr v eq_refl)|].
  exfalso. vm_compute in Hset. discriminate Hset.
Defined.

(** X7. A successful construction returns the model type, the task,
    data loader, optimizer and tracking sections and the iteration count
    as given; [is_wandb_enabled] is [log_to_wandb], and the run name is
    the task tag, model type, learning rate, iteration count, layer
    count and sequence length, in this order. *)
Theorem inputs_kept_and_flags (raw v : Main.t) :
  MainConfig raw = Ok v →
  Main.model_type v = Main.model_type raw
  ∧ Main.task_config v = Main.task_config raw
  ∧ Main.dataloader_config v = Main.dataloader_config raw
  ∧ Main.optimizer_config v = Main.optimizer_config raw
  ∧ Main.wandb_config v = Main.wandb_config raw
  ∧ Main.num_training_iter v = Main.num_training_iter raw
  ∧ ∃ w nano,
      Main.wandb_config raw = Some w
      ∧ Main.nano_gpt_config raw = Some nano
      ∧ Main.is_wandb_enabled v = Some (WandB.log_to_wandb w)
      ∧ Main.run_name v
        = Some (RawTask.dataset_type (Main.task_config raw) +:+ "_" +:+ Main.model_type raw
                +:+ "_LR" +:+ Optimizer.default_lr (Main.optimizer_config raw)
                +:+ "_its" +:+ pretty (Main.num_training_iter raw)
                +:+ "_layers" +:+ pretty (NanoGPT.n_layers nano)
                +:+ "_seqlen" +:+ pretty (RawTask.length (Main.task_config raw))).
Proof.
  intros H. apply MainConfig_iff in H as (H & w & Hw & _).
  apply _set_fields_iff in H
    as (instance & nano & rlct & sgld & sgnht & q & vocab & ov & pop & ns
        & _ & Hnano & _ & _ & _ & _ & _ & _ & _ & _ & _ & _ & ->).
  simpl. repeat split; try done.
  exists w, nano. rewrite Hw. by repeat split.
Qed.

Lemma inputs_kept_and_flags_witness :
  MainConfig accepted_input = Ok accepted_output
  ∧ Main.is_wandb_enabled accepted_output = Some true
  ∧ Main.run_name accepted_output
    = Some "parity_NANO_GPT_LR0.001_its10000_layers12_seqlen3".
Proof.
  assert (H : MainConfig accepted_input = Ok accepted_output) by reflexivity.
  split; [exact H|].
  destruct (inputs_kept_and_flags accepted_input accepted_output H)
    as (_ & _ & _ & _ & _ & _ & w & nano & Hw & Hnano & Hflag & Hname).
  split; reflexivity.
Defined.

(** X8. The root validator is idempotent on its own dictionary: run
    on the dictionary it returned (with the section mappings it wrote
    to), [_set_fields] succeeds and returns that dictionary unchanged.
    This is about the validator's dictionary, not about the fields of
    the model object built from it. *)
Theorem set_fields_idempotent (v v' : Main.t) :
  _set_fields v = Ok v' → _set_fields v' = Ok v'.
Proof.
  intros H.
  apply _set_fields_iff in H
    as (instance & nano & rlct & sgld & sgnht & q & vocab & ov & pop & ns
        & Hres & Hnano & Hrlct & Hsgld & Hsgnht & Hclass & Hburn & Hq & Hvocab & Hov
        & Hpow & Hmin & ->).
  assert (Hnz : effective_eval_frequency v ≠ 0).
  { intros Hz. rewrite Hz in Hq. discriminate Hq. }
  assert (Heff : effective_eval_frequency
                   (derived_config v nano rlct vocab ov ns q)
                 = effective_eval_frequency v).
  { unfold effective_eval_frequency at 1. cbn [derived_config Main.eval_frequency].
    by rewrite (proj2 (Z.eqb_neq _ _) Hnz). }
  apply _set_fields_iff.
  exists instance,
    (NanoGPT.Build (RawTask.length (Main.task_config v) + 1) vocab ov (NanoGPT.n_layers nano)),
    (derived_rlct rlct ns), (SamplerKwargs.Build ns), (SamplerKwargs.Build ns), q, vocab, ov,
    pop, ns.
  rewrite Heff.
  repeat (split; [done|]).
  unfold derived_config at 2. cbn [derived_config Main.model_type Main.task_config
    Main.dataloader_config Main.optimizer_config Main.wandb_config Main.num_training_iter
    NanoGPT.n_layers].
  rewrite Heff. unfold derived_config. f_equal.
Qed.

Lemma set_fields_idempotent_witness :
  _set_fields accepted_input = Ok accepted_output
  ∧ accepted_input ≠ accepted_output
  ∧ _set_fields accepted_output = Ok accepted_output.
Proof.
  assert (H : _set_fields accepted_input = Ok accepted_output) by reflexivity.
  split; [exact H|]. split; [discriminate|].
  exact (set_fields_idempotent accepted_input accepted_output H).
Defined.

(** X9. What the raw input holds under the derived keys (block size
    and vocabulary sizes, [num_samples] in the RLCT section and in both
    kwargs, [rlct_data_dir], [run_name], [is_wandb_enabled],
    [num_epochs]) has no influence on a successful construction, and an
    [eval_frequency] of [0] gives what [None] gives. *)
Theorem derived_entries_overwritten
    (mt : string) (task : RawTask.t) (dl : DataLoader.t) (opt : Optimizer.t)
    (wandb : option WandB.t) (iters n_layers : Z)
    (cls : mapping_class) (sm : option RLCTSamplerType)
    (chains draws burn steps bs : Z) (online distill diag : bool)
    (block_size block_size' : Z) (vocab vocab' out out' ns ns' k1 k1' k2 k2' : pyval)
    (dir dir' rn rn' : option string) (iwe iwe' : option bool) (ne ne' : option Z)
    (v : Main.t) :
  let input block_size vocab out ns k1 k2 dir rn iwe ne ef :=
    Main.Build mt task dl opt (Some (NanoGPT.Build block_size vocab out n_layers))
      (Some (RLCT.Build cls sm chains draws ns burn steps bs online distill diag
               (Some (SamplerKwargs.Build k1)) (Some (SamplerKwargs.Build k2)) dir))
      wandb iters rn iwe ne ef in
  (∀ ef, MainConfig (input block_size vocab out ns k1 k2 dir rn iwe ne ef) = Ok v
         → MainConfig (input block_size' vocab' out' ns' k1' k2' dir' rn' iwe' ne' ef) = Ok v)
  ∧ (MainConfig (input block_size vocab out ns k1 k2 dir rn iwe ne (Some 0)) = Ok v
     ↔ MainConfig (input block_size vocab out ns k1 k2 dir rn iwe ne None) = Ok v).
Proof.
  intros input.
  assert (Hmove : ∀ b vo o n a1 a2 d r i e ef b' vo' o' n' a1' a2' d' r' i' e' ef',
    effective_eval_frequency (input b vo o n a1 a2 d r i e ef)
    = effective_eval_frequency (input b' vo' o' n' a1' a2' d' r' i' e' ef') →
    MainConfig (input b vo o n a1 a2 d r i e ef) = Ok v →
    MainConfig (input b' vo' o' n' a1' a2' d' r' i' e' ef') = Ok v).
  { intros b vo o n a1 a2 d r i e ef b' vo' o' n' a1' a2' d' r' i' e' ef' Heff H.
    apply MainConfig_iff in H as (H & w & Hw & Hsweep).
    apply _set_fields_iff in H
      as (instance & nano & rlct & sgld & sgnht & q & vocab0 & ov & pop & ns0
          & Hres & Hnano & Hrlct & Hsgld & Hsgnht & Hclass & Hburn & Hq & Hvocab & Hov
          & Hpow & Hmin & ->).
    apply MainConfig_iff. split; [|exists w; by split].
    apply _set_fields_iff.
    exists instance, (NanoGPT.Build b' vo' o' n_layers),
      (RLCT.Build cls sm chains draws n' burn steps bs online distill diag
         (Some (SamplerKwargs.Build a1')) (Some (SamplerKwargs.Build a2')) d'),
      (SamplerKwargs.Build a1'), (SamplerKwargs.Build a2'), q, vocab0, ov, pop, ns0.
    injection Hnano as <-. injection Hrlct as <-. simpl in Hclass, Hburn.
    rewrite <- Heff.
    repeat (split; [done|]).
    unfold derived_config. rewrite <- Heff. reflexivity. }
  split.
  - intros ef. by apply Hmove.
  - split; by apply Hmove.
Qed.

Lemma derived_entries_overwritten_witness :
  MainConfig accepted_input = Ok accepted_output
  ∧ MainConfig (Main.Build "NANO_GPT" parity_task (DataLoader.Build 64) (Optimizer.Build "0.001")
                  (Some (NanoGPT.Build 7 (PyInt 7) (PyInt 7) 12))
                  (Some (RLCT.Build DictConfig (Some SGLD) 10 100 (PyInt 7) 0 1 64 false false
                           true (Some (SamplerKwargs.Build (PyInt 7)))
                           (Some (SamplerKwargs.Build (PyInt 7))) (Some "elsewhere")))
                  (Some (WandB.Build true false None)) 10000
                  (Some "my_run") (Some false) (Some 7) None)
    = Ok accepted_output.
Proof.
  assert (H : MainConfig accepted_input = Ok accepted_output) by reflexivity.
  split; [exact H|].
  exact (proj1 (derived_entries_overwritten "NANO_GPT" parity_task (DataLoader.Build 64)
                  (Optimizer.Build "0.001") (Some (WandB.Build true false None)) 10000 12
                  DictConfig (Some SGLD) 10 100 0 1 64 false false true
                  1024 7 (PyInt 50304) (PyInt 7) PyNone (PyInt 7) PyNone (PyInt 7)
                  PyNone (PyInt 7) PyNone (PyInt 7) None (Some "elsewhere") None (Some "my_run")
                  None (Some false) None (Some 7) accepted_output) None H).
Defined.

(** X10. After a successful construction on sequences of length
    [length >= 0], [num_samples] is at most
    [num_draws * num_steps_bw_draws * train_bs], equals it when that
    count does not exceed [vocab_size ^ length], equals
    [vocab_size ^ length] otherwise, and is not negative when the count
    and the vocabulary size are not. *)
Theorem num_samples_bounds (raw v : Main.t) :
  MainConfig raw = Ok v →
  0 ≤ RawTask.length (Main.task_config raw) →
  ∃ rlct rlct' instance V n,
    Main.rlct_config raw = Some rlct
    ∧ Main.rlct_config v = Some rlct'
    ∧ resolve (Main.task_config raw) = Ok instance
    ∧ vocab_size instance = Ok (PyInt V)
    ∧ RLCT.num_samples rlct' = PyInt n
    ∧ let seen := RLCT.num_draws rlct * RLCT.num_steps_bw_draws rlct
                  * DataLoader.train_bs (Main.dataloader_config raw) in
      n ≤ seen
      ∧ (seen ≤ V ^ RawTask.length (Main.task_config raw) → n = seen)
      ∧ (V ^ RawTask.length (Main.task_config raw) ≤ seen →
         n = V ^ RawTask.length (Main.task_config raw))
      ∧ (0 ≤ seen → 0 ≤ V → 0 ≤ n).
Proof.
  intros H Hlen.
  apply MainConfig_derived in H
    as (instance & rlct & V & quotient & num_samples & Hres & Hrlct & _ & Hburn & Hvocab & _ & _
        & _ & Hns & _ & _ & _ & Hrlct' & _).
  exists rlct, (derived_rlct rlct num_samples), instance, V,
    (Z.min (samples_seen raw rlct) (V ^ RawTask.length (Main.task_config raw))).
  repeat (split; [done|]).
  split; [simpl; by apply Hns|].
  unfold samples_seen. rewrite Hburn, Z.add_0_r. cbn zeta.
  split; [lia|]. split; [lia|]. split; [lia|].
  intros Hseen HV.
  assert (0 ≤ V ^ RawTask.length (Main.task_config raw)) by (by apply Z.pow_nonneg). lia.
Qed.

Lemma num_samples_bounds_witness :
  MainConfig accepted_input = Ok accepted_output
  ∧ 0 ≤ RawTask.length (Main.task_config accepted_input)
  ∧ ∃ rlct' n, Main.rlct_config accepted_output = Some rlct'
               ∧ RLCT.num_samples rlct' = PyInt n
               ∧ n ≤ 100 * 1 * 64.
Proof.
  assert (H1 : MainConfig accepted_input = Ok accepted_output) by reflexivity.
  assert (H2 : 0 ≤ RawTask.length (Main.task_config accepted_input)) by (simpl; lia).
  split; [exact H1|]. split; [exact H2|].
  destruct (num_samples_bounds accepted_input accepted_output H1 H2)
    as (rlct & rlct' & instance & V & n & Hrlct & Hrlct' & _ & _ & Hn & Hle & _).
  exists rlct', n. split; [exact Hrlct'|]. split; [exact Hn|].
  injection Hrlct as <-. exact Hle.
Defined.

(** X11. With a positive [eval_frequency] and an iteration count in
    [0, 2^53), [num_epochs] epochs of [eval_frequency] steps cover the
    training iterations and one epoch less does not; there is no epoch
    for zero iterations and exactly one when the iterations fit in one
    evaluation period. *)
Theorem epochs_cover_iterations (raw v : Main.t) (eval_frequency : Z) :
  MainConfig raw = Ok v →
  Main.eval_frequency v = Some eval_frequency →
  0 < eval_frequency → eval_frequency < 2 ^ 1075 →
  0 ≤ Main.num_training_iter raw → Main.num_training_iter raw < 2 ^ 53 →
  ∃ num_epochs,
    Main.num_epochs v = Some num_epochs
    ∧ (num_epochs - 1) * eval_frequency < Main.num_training_iter raw
    ∧ Main.num_training_iter raw ≤ num_epochs * eval_frequency
    ∧ (Main.num_training_iter raw = 0 → num_epochs = 0)
    ∧ (0 < Main.num_training_iter raw → Main.num_training_iter raw ≤ eval_frequency →
       num_epochs = 1).
Proof.
  intros H Hef Hpos Hbound Hiter0 Hiter.
  apply MainConfig_derived in H
    as (? & ? & ? & quotient & ? & _ & _ & _ & _ & _ & _ & _ & Hq & _ & _ & Hef' & Hne & _).
  assert (effective_eval_frequency raw = eval_frequency) as Heq by congruence.
  rewrite Heq in Hq.
  destruct (math_ceil_int_truediv (Main.num_training_iter raw) eval_frequency)
    as (q & Hq' & Hceil); [lia | lia | lia |].
  assert (q = quotient) as -> by congruence.
  exists (ceil_div (Main.num_training_iter raw) eval_frequency).
  split; [congruence|].
  unfold ceil_div.
  pose proof (Z.div_mod (- Main.num_training_iter raw) eval_frequency ltac:(lia)) as Hdm.
  pose proof (Z.mod_pos_bound (- Main.num_training_iter raw) eval_frequency Hpos) as Hr.
  clear Hbound Hiter Hq Hq' Hceil.
  set (q' := - Main.num_training_iter raw / eval_frequency) in *.
  set (r := (- Main.num_training_iter raw) mod eval_frequency) in *.
  split; [nia|]. split; [nia|]. split; intros; nia.
Qed.

Lemma epochs_cover_iterations_witness :
  MainConfig accepted_input = Ok accepted_output
  ∧ Main.eval_frequency accepted_output = Some 600000
  ∧ 0 < 600000 ∧ 600000 < 2 ^ 1075
  ∧ 0 ≤ Main.num_training_iter accepted_input
  ∧ Main.num_training_iter accepted_input < 2 ^ 53
  ∧ Main.num_epochs accepted_output = Some 1.
Proof.
  assert (H1 : MainConfig accepted_input = Ok accepted_output) by reflexivity.
  assert (H2 : Main.eval_frequency accepted_output = Some 600000) by reflexivity.
  assert (H3 : 0 < 600000) by lia.
  assert (H4 : 600000 < 2 ^ 1075) by reflexivity.
  assert (H5 : 0 ≤ Main.num_training_iter accepted_input) by (simpl; lia).
  assert (H6 : Main.num_training_iter accepted_input < 2 ^ 53) by reflexivity.
  repeat (split; [assumption|]).
  destruct (epochs_cover_iterations accepted_input accepted_output 600000 H1 H2 H3 H4 H5 H6)
    as (num_epochs & Hne & _ & _ & _ & Hone).
  rewrite Hne. f_equal. apply Hone; simpl; lia.
Defined.

(** X12. A constructed permutation-with-reset instance has at least
    one generator, its [n] is the length of the first generator, and its
    vocabulary sizes are [n! + number of generators] and [n!]: on a
    constructed instance [math.factorial] never raises. *)
Theorem permutation_reset_instance (raw : RawTask.t) (c : PermutationResetAutomatonConfig.t) :
  PermutationResetAutomatonConfig.new raw = Ok c →
  ∃ g0 rest,
    PermutationResetAutomatonConfig.generators c = g0 :: rest
    ∧ PermutationResetAutomatonConfig.n c = Z.of_nat (length g0)
    ∧ PermutationResetAutomatonConfig.vocab_size c
      = Ok (PyInt (Z.of_nat (fact (length g0)) + Z.of_nat (length (g0 :: rest))))
    ∧ PermutationResetAutomatonConfig.output_vocab_size c
      = Ok (PyInt (Z.of_nat (fact (length g0)))).
Proof.
  unfold PermutationResetAutomatonConfig.new, mbind, result_bind. intros H.
  destruct (required_field "n" 4 (RawTask.n raw)) as [n|]; [|discriminate H].
  destruct (pre_value _ (RawTask.generators raw)) as [[|g0 rest]|]; simpl in H;
    try discriminate H.
  destruct (bool_decide (Some (Z.of_nat (length g0)) = Some n)) eqn:Hn; simpl in H;
    [|discriminate H].
  apply bool_decide_eq_true_1 in Hn. injection Hn as <-.
  destruct (PermutationResetAutomatonConfig.set_perm_probs _ _) as [p|]; [|discriminate H].
  injection H as <-. exists g0, rest.
  unfold PermutationResetAutomatonConfig.vocab_size,
    PermutationResetAutomatonConfig.output_vocab_size, math_factorial, mbind, result_bind.
  simpl. destruct (Z.ltb_spec (Z.of_nat (length g0)) 0); [lia|].
  by rewrite Nat2Z.id.
Qed.

Lemma permutation_reset_instance_witness :
  let raw := permutation_reset_task (Given 4) (Given [[1; 0; 2; 3]; [4; 0; 1]])
               (Given [Float 1 (-1); Float 1 (-1)]) in
  let c := PermutationResetAutomatonConfig.Build (DatasetConfig.new raw) 4
             [[1; 0; 2; 3]; [4; 0; 1]] [Float 1 (-1); Float 1 (-1)] in
  PermutationResetAutomatonConfig.new raw = Ok c
  ∧ PermutationResetAutomatonConfig.vocab_size c = Ok (PyInt 26)
  ∧ PermutationResetAutomatonConfig.output_vocab_size c = Ok (PyInt 24).
Proof.
  intros raw c.
  assert (H : PermutationResetAutomatonConfig.new raw = Ok c) by reflexivity.
  split; [exact H|].
  destruct (permutation_reset_instance raw c H) as (g0 & rest & Hg & Hn & Hv & Ho).
  injection Hg as <- <-. split; [exact Hv | exact Ho].
Defined.

(** X13. When [generators] is [None] the validator's [v[0]] is a
    [TypeError]; when it is the empty list, an [IndexError]. *)
Theorem generators_not_indexable (raw : RawTask.t) :
  RawTask.n raw ≠ Null →
  (RawTask.generators raw = Null →
   PermutationResetAutomatonConfig.new raw
   = Raise (TypeError "'NoneType' object is not subscriptable"))
  ∧ (RawTask.generators raw = Given [] →
     PermutationResetAutomatonConfig.new raw
     = Raise (IndexError "list index out of range")).
Proof.
  intros Hn. unfold PermutationResetAutomatonConfig.new, mbind, result_bind.
  destruct (RawTask.n raw) as [| |n]; [|done|]; simpl; split; by intros ->.
Qed.

Lemma generators_not_indexable_witness :
  let raw := permutation_reset_task (Given 4) (Given []) Absent in
  RawTask.n raw ≠ Null
  ∧ RawTask.generators raw = Given []
  ∧ PermutationResetAutomatonConfig.new raw = Raise (IndexError "list index out of range").
Proof.
  intros raw.
  assert (H1 : RawTask.n raw ≠ Null) by discriminate.
  assert (H2 : RawTask.generators raw = Given []) by reflexivity.
  split; [exact H1|]. split; [exact H2|].
  exact (proj2 (generators_not_indexable raw H1) H2).
Defined.

(** X14. With [generators] left to its default (two generators of
    length five) the construction succeeds exactly when [n] is given as
    [5]: the declared default [n = 4] is rejected. *)
Theorem default_generators_need_five (raw : RawTask.t) :
  RawTask.generators raw = Absent →
  (∃ c, PermutationResetAutomatonConfig.new raw = Ok c) ↔ RawTask.n raw = Given 5.
Proof.
  intros Hgens. unfold PermutationResetAutomatonConfig.new, mbind, result_bind.
  rewrite Hgens. split.
  - intros [c H].
    destruct (required_field "n" 4 (RawTask.n raw)) as [n|] eqn:Hreq; [|discriminate H].
    cbn [pre_value optional_field PermutationResetAutomatonConfig.default_generators
         PermutationResetAutomatonConfig.check_generators length mbind result_bind] in H.
    change (Z.of_nat 5) with 5 in H.
    destruct (bool_decide (Some 5 = Some n)) eqn:Hn; [|discriminate H].
    apply bool_decide_eq_true_1 in Hn. injection Hn as <-.
    destruct (RawTask.n raw) as [| |n]; simpl in Hreq; [discriminate Hreq..|].
    by injection Hreq as ->.
  - intros ->.
    cbn [required_field pre_value optional_field mbind result_bind
         PermutationResetAutomatonConfig.default_generators
         PermutationResetAutomatonConfig.check_generators length].
    change (Z.of_nat 5) with 5. rewrite bool_decide_eq_true_2 by done.
    cbn [py_assert mbind result_bind].
    destruct (set_perm_probs_None [[1; 0; 2; 3; 4]; [4; 0; 1; 2; 3]]) as (p & Hp & _);
      [reflexivity|].
    destruct (RawTask.perm_probs raw) as [| |l]; cbn [pre_value optional_field].
    1,2: rewrite Hp; by eexists.
    by eexists.
Qed.

Lemma default_generators_need_five_witness :
  let raw := permutation_reset_task (Given 5) Absent Absent in
  RawTask.generators raw = Absent
  ∧ RawTask.n raw = Given 5
  ∧ ∃ c, PermutationResetAutomatonConfig.new raw = Ok c.
Proof.
  intros raw.
  assert (H1 : RawTask.generators raw = Absent) by reflexivity.
  assert (H2 : RawTask.n raw = Given 5) by reflexivity.
  split; [exact H1|]. split; [exact H2|].
  exact (proj2 (default_generators_need_five raw H1) H2).
Defined.

(** X15. For the six classes with a [label_type], a [label_type] of
    [None] takes no case of the [match]: [output_vocab_size] is [None],
    and nothing is raised. *)
Theorem label_none_output_none (raw : RawTask.t) :
  RawTask.label_type raw = Null →
  RawTask.dataset_type raw ∈ ["gridworld"; "abab"; "adder"; "alternating"; "symmetric";
                              "dihedral"] →
  query output_vocab_size raw = Ok PyNone.
Proof.
  intros Hlabel Htag.
  destruct raw as [tag size len n n_addends n_actions label gens probs].
  simpl in Hlabel, Htag. subst label.
  repeat (apply elem_of_cons in Htag as [->|Htag]; [reflexivity|]).
  by apply elem_of_nil in Htag.
Qed.

Lemma label_none_output_none_witness :
  RawTask.label_type gridworld_unlabelled_task = Null
  ∧ RawTask.dataset_type gridworld_unlabelled_task
      ∈ ["gridworld"; "abab"; "adder"; "alternating"; "symmetric"; "dihedral"]
  ∧ query output_vocab_size gridworld_unlabelled_task = Ok PyNone.
Proof.
  assert (H1 : RawTask.label_type gridworld_unlabelled_task = Null) by reflexivity.
  assert (H2 : RawTask.dataset_type gridworld_unlabelled_task
                 ∈ ["gridworld"; "abab"; "adder"; "alternating"; "symmetric"; "dihedral"])
    by (simpl; apply list_elem_of_here).
  split; [exact H1|]. split; [exact H2|].
  exact (label_none_output_none gridworld_unlabelled_task H1 H2).
Defined.

(** X16. For the classes whose input vocabulary is computed from [n]
    (flip-flop, cyclic, alternating, symmetric, permutation-with-reset)
    an [n] of [None] is never accepted by the construction. *)
Theorem n_none_rejected (raw : Main.t) :
  RawTask.n (Main.task_config raw) = Null →
  RawTask.dataset_type (Main.task_config raw)
    ∈ ["flipflop"; "cyclic"; "alternating"; "symmetric"; "permutation_reset"] →
  ∃ e, MainConfig raw = Raise e.
Proof.
  intros Hn Htag.
  destruct (MainConfig raw) as [v|e] eqn:H; [|by exists e].
  apply MainConfig_derived in H
    as (instance & ? & V & ? & ? & Hres & _ & _ & _ & Hvocab & _).
  exfalso.
  destruct (resolve_by_tag (Main.task_config raw))
    as (_ & _ & Halt & Hcyc & _ & Hflip & _ & _ & _ & Hreset & Hsym).
  destruct (Main.task_config raw) as [tag size len n n_addends n_actions label gens probs].
  simpl in Hn, Htag, Halt, Hcyc, Hflip, Hreset, Hsym. subst n.
  unfold fmap, result_fmap in *.
  repeat (apply elem_of_cons in Htag as [->|Htag];
          [try (specialize (Hflip eq_refl); rewrite Hflip in Hres);
           try (specialize (Hcyc eq_refl); rewrite Hcyc in Hres);
           try (specialize (Halt eq_refl); rewrite Halt in Hres);
           try (specialize (Hsym eq_refl); rewrite Hsym in Hres);
           try (specialize (Hreset eq_refl); rewrite Hreset in Hres)|]).
  6: by apply elem_of_nil in Htag.
  all: unfold AlternatingAutomatonConfig.new, SymmetricAutomatonConfig.new,
         PermutationAutomatonConfig.new, label_field, mbind, result_bind in Hres;
       cbn [RawTask.label_type RawTask.n RawTask.n_actions] in Hres.
  3,4: destruct label as [| |label];
       [| |destruct (PermutationAutomatonConfig.Label_of_string label)].
  all: try discriminate Hres; injection Hres as <-; discriminate Hvocab.
Qed.

Lemma n_none_rejected_witness :
  let raw := sample_input_with cyclic_none_task (Some sample_nano)
               (Some (sample_rlct DictConfig 0)) (Some sample_wandb) in
  RawTask.n (Main.task_config raw) = Null
  ∧ RawTask.dataset_type (Main.task_config raw)
      ∈ ["flipflop"; "cyclic"; "alternating"; "symmetric"; "permutation_reset"]
  ∧ ∃ e, MainConfig raw = Raise e.
Proof.
  intros raw.
  assert (H1 : RawTask.n (Main.task_config raw) = Null) by reflexivity.
  assert (H2 : RawTask.dataset_type (Main.task_config raw)
                 ∈ ["flipflop"; "cyclic"; "alternating"; "symmetric"; "permutation_reset"])
    by (simpl; apply list_elem_of_further, list_elem_of_here).
  split; [exact H1|]. split; [exact H2|].
  exact (n_none_rejected raw H1 H2).
Defined.

(** X17. On a successfully constructed configuration
    [create_callbacks] never fails on its own: it assembles a list whose
    first handle is the estimator, built with the chain and draw counts
    of the raw input and the derived [num_samples], of five handles with
    diagnostics and one without; it returns this list with its class
    names when the imported check accepts it, and raises what the check
    raises otherwise. *)
Theorem create_callbacks_on_validated (validate : list Callback → result unit)
    (raw v : Main.t) (device : string) :
  MainConfig raw = Ok v →
  ∃ rlct rlct',
    Main.rlct_config raw = Some rlct
    ∧ Main.rlct_config v = Some rlct'
    ∧ let callbacks :=
        primary_estimator rlct' device
        :: (if RLCT.use_diagnostics rlct' then diagnostics rlct' device else []) in
      head callbacks
      = Some ((if RLCT.online rlct then OnlineLLCEstimator else LLCEstimator)
                (RLCT.num_chains rlct) (RLCT.num_draws rlct) (RLCT.num_samples rlct') device)
      ∧ length callbacks = (if RLCT.use_diagnostics rlct then 5 else 1)%nat
      ∧ (validate callbacks = Ok tt →
         create_callbacks validate v device = Ok (callbacks, map type_name callbacks))
      ∧ (∀ e, validate callbacks = Raise e → create_callbacks validate v device = Raise e).
Proof.
  intros H.
  apply MainConfig_derived in H
    as (? & rlct & ? & ? & ns & _ & Hrlct & _ & _ & _ & _ & _ & _ & _ & _ & _ & _ & Hrlct' & _).
  exists rlct, (derived_rlct rlct ns).
  split; [done|]. split; [done|]. intros callbacks.
  split; [reflexivity|]. split; [simpl; by destruct (RLCT.use_diagnostics rlct)|].
  split.
  - intros Hvalid. by apply create_callbacks_accepted.
  - intros e He. unfold create_callbacks, getattr_rlct_config. rewrite Hrlct'.
    cbn [mbind result_bind].
    assert (Hcb : (if RLCT.online (derived_rlct rlct ns)
                   then OnlineLLCEstimator (RLCT.num_chains (derived_rlct rlct ns))
                          (RLCT.num_draws (derived_rlct rlct ns))
                          (RLCT.num_samples (derived_rlct rlct ns)) device
                   else LLCEstimator (RLCT.num_chains (derived_rlct rlct ns))
                          (RLCT.num_draws (derived_rlct rlct ns))
                          (RLCT.num_samples (derived_rlct rlct ns)) device)
                  = primary_estimator (derived_rlct rlct ns) device).
    { unfold primary_estimator. by destruct (RLCT.online (derived_rlct rlct ns)). }
    rewrite Hcb. fold (diagnostics (derived_rlct rlct ns) device). fold callbacks.
    by rewrite He.
Qed.

Lemma create_callbacks_on_validated_witness :
  MainConfig accepted_input = Ok accepted_output
  ∧ ∃ callbacks,
      create_callbacks validate_callbacks accepted_output "cpu"
      = Ok (callbacks, map type_name callbacks)
      ∧ head callbacks = Some (LLCEstimator 10 100 (PyInt 8) "cpu")
      ∧ length callbacks = 5%nat.
Proof.
  assert (H : MainConfig accepted_input = Ok accepted_output) by reflexivity.
  split; [exact H|].
  destruct (create_callbacks_on_validated validate_callbacks accepted_input accepted_output
              "cpu" H)
    as (rlct & rlct' & Hrlct & Hrlct' & Hhead & Hlen & Hok & _).
  injection Hrlct as <-. injection Hrlct' as <-.
  eexists. split; [apply Hok; reflexivity|]. split; [exact Hhead | exact Hlen].
Defined.

(** X18. Whatever the imported check does, [create_callbacks] returns
    only a list the check accepted, of one or five handles all built for
    the configuration's chain and draw counts, with one class name per
    handle in the same order; it raises [AttributeError] when there is
    no RLCT section and otherwise exactly what the check raises. *)
Theorem create_callbacks_outcome (validate : list Callback → result unit)
    (config : Main.t) (device : string) :
  match create_callbacks validate config device with
  | Ok (callbacks, names) =>
      ∃ rlct_config,
        Main.rlct_config config = Some rlct_config
        ∧ validate callbacks = Ok tt
        ∧ names = map type_name callbacks
        ∧ length names = length callbacks
        ∧ (length callbacks = 1%nat ∨ length callbacks = 5%nat)
        ∧ Forall (fun c => expectations c
                           = (RLCT.num_chains rlct_config, RLCT.num_draws rlct_config))
                 callbacks
  | Raise e =>
      (Main.rlct_config config = None
       ∧ e = AttributeError "'NoneType' object has no attribute 'num_chains'")
      ∨ ∃ rlct_config,
          Main.rlct_config config = Some rlct_config
          ∧ validate (primary_estimator rlct_config device
                      :: (if RLCT.use_diagnostics rlct_config
                          then diagnostics rlct_config device else []))
            = Raise e
  end.
Proof.
  unfold create_callbacks, getattr_rlct_config, mbind, result_bind.
  destruct (Main.rlct_config config) as [rlct|]; [|by left].
  set (callbacks := _ :: _).
  assert (Hcb : callbacks = primary_estimator rlct device
                            :: (if RLCT.use_diagnostics rlct
                                then diagnostics rlct device else [])).
  { unfold callbacks, primary_estimator, diagnostics. by destruct (RLCT.online rlct). }
  destruct (validate callbacks) as [[]|e] eqn:Hvalid.
  - exists rlct. rewrite foldl_type_names, app_nil_l.
    split; [done|]. split; [done|]. split; [done|]. split; [by rewrite length_map|].
    rewrite Hcb. unfold primary_estimator, diagnostics.
    destruct (RLCT.use_diagnostics rlct), (RLCT.online rlct); simpl;
      (split; [by auto|]); repeat constructor.
  - right. exists rlct. by rewrite <- Hcb.
Qed.

(** ** The sample count and the uniform probabilities *)

(** X19. The sample count depends on the input only through the task,
    the training batch size, [num_draws] and [num_steps_bw_draws]: two
    accepted inputs that agree on these get the same [num_samples],
    whatever their RLCT [batch_size], [num_chains], sampler, model or
    iteration settings. *)
Theorem num_samples_inputs (raw1 raw2 v1 v2 : Main.t) (rlct1 rlct2 rlct1' rlct2' : RLCT.t) :
  MainConfig raw1 = Ok v1 →
  MainConfig raw2 = Ok v2 →
  Main.rlct_config raw1 = Some rlct1 → Main.rlct_config raw2 = Some rlct2 →
  Main.rlct_config v1 = Some rlct1' → Main.rlct_config v2 = Some rlct2' →
  Main.task_config raw1 = Main.task_config raw2 →
  DataLoader.train_bs (Main.dataloader_config raw1)
  = DataLoader.train_bs (Main.dataloader_config raw2) →
  RLCT.num_draws rlct1 = RLCT.num_draws rlct2 →
  RLCT.num_steps_bw_draws rlct1 = RLCT.num_steps_bw_draws rlct2 →
  RLCT.num_samples rlct1' = RLCT.num_samples rlct2'.
Proof.
  intros H1 H2 Hr1 Hr2 Hr1' Hr2' Htask Hbs Hdraws Hsteps.
  apply MainConfig_iff in H1 as [H1 _]. apply MainConfig_iff in H2 as [H2 _].
  apply _set_fields_iff in H1
    as (i1 & ? & r1 & ? & ? & ? & vo1 & ? & p1 & n1
        & Hres1 & _ & Hrl1 & _ & _ & _ & Hb1 & _ & Hv1 & _ & Hp1 & Hm1 & ->).
  apply _set_fields_iff in H2
    as (i2 & ? & r2 & ? & ? & ? & vo2 & ? & p2 & n2
        & Hres2 & _ & Hrl2 & _ & _ & _ & Hb2 & _ & Hv2 & _ & Hp2 & Hm2 & ->).
  simpl in Hr1', Hr2'. injection Hr1' as <-. injection Hr2' as <-. simpl.
  assert (r1 = rlct1) as -> by congruence. assert (r2 = rlct2) as -> by congruence.
  rewrite Htask in Hres1. assert (i1 = i2) as -> by congruence.
  assert (vo1 = vo2) as -> by congruence. assert (p1 = p2) as -> by congruence.
  unfold samples_seen in Hm1, Hm2.
  rewrite Hb1, Hbs, Hdraws, Hsteps in Hm1. rewrite Hb2 in Hm2. congruence.
Qed.

Lemma num_samples_inputs_witness :
  MainConfig accepted_input = Ok accepted_output
  ∧ MainConfig other_input = Ok other_output
  ∧ Main.task_config accepted_input = Main.task_config other_input
  ∧ DataLoader.train_bs (Main.dataloader_config accepted_input)
    = DataLoader.train_bs (Main.dataloader_config other_input)
  ∧ ∃ rlct1 rlct2 rlct1' rlct2',
      Main.rlct_config accepted_input = Some rlct1
      ∧ Main.rlct_config other_input = Some rlct2
      ∧ Main.rlct_config accepted_output = Some rlct1'
      ∧ Main.rlct_config other_output = Some rlct2'
      ∧ RLCT.num_draws rlct1 = RLCT.num_draws rlct2
      ∧ RLCT.num_steps_bw_draws rlct1 = RLCT.num_steps_bw_draws rlct2
      ∧ RLCT.num_chains rlct1 ≠ RLCT.num_chains rlct2
      ∧ RLCT.batch_size rlct1 ≠ RLCT.batch_size rlct2
      ∧ RLCT.num_samples rlct1' = RLCT.num_samples rlct2'.
Proof.
  assert (H1 : MainConfig accepted_input = Ok accepted_output) by reflexivity.
  assert (H2 : MainConfig other_input = Ok other_output) by reflexivity.
  split; [exact H1|]. split; [exact H2|]. split; [reflexivity|]. split; [reflexivity|].
  eexists _, _, _, _.
  split; [reflexivity|]. split; [reflexivity|]. split; [reflexivity|]. split; [reflexivity|].
  split; [reflexivity|]. split; [reflexivity|]. split; [discriminate|]. split; [discriminate|].
  exact (num_samples_inputs accepted_input other_input accepted_output other_output
           _ _ _ _ H1 H2 eq_refl eq_refl eq_refl eq_refl eq_refl eq_refl eq_refl eq_refl).
Defined.

(** X20. For a non-empty generator list of fewer than [2 ^ 53] entries
    and [perm_probs] left at [None], the entry [1.0 / n_generators] that
    [set_perm_probs] repeats is within [2^-53 / n_generators] of the exact
    quotient: the [n_generators] probabilities add up, in exact
    arithmetic, to 1 with an error of at most [2^-53]. *)
Theorem uniform_prob_accuracy (generators : list (list Z)) :
  generators ≠ [] → Z.of_nat (length generators) < 2 ^ 53 →
  ∃ p, PermutationResetAutomatonConfig.set_perm_probs None (Some generators)
       = Ok (replicate (length generators) p)
       ∧ (Qabs (inject_Z (Z.of_nat (length generators)) * float_to_Q p - 1)
          <= 1 # 2 ^ 53)%Q.
Proof.
  intros Hne Hlen.
  assert (Hn : 0 < Z.of_nat (length generators))
    by (destruct generators; [done | simpl; lia]).
  assert (Hlen' : Z.of_nat (length generators) < 2 ^ 63).
  { eapply Z.lt_trans; [exact Hlen|]. by apply Z.pow_lt_mono_r. }
  destruct (set_perm_probs_None generators Hlen') as (p & Hset & Huni).
  destruct (Huni Hne) as (d & Hd & Hdiv).
  exists p. split; [exact Hset|].
  by apply (uniform_prob_accurate _ d p Hn Hlen' Hd Hdiv).
Qed.

Lemma uniform_prob_accuracy_witness :
  [[1; 0]; [0; 1]; [1; 0]] ≠ ([] : list (list Z))
  ∧ Z.of_nat (length [[1; 0]; [0; 1]; [1; 0]]) < 2 ^ 53
  ∧ ∃ p, PermutationResetAutomatonConfig.set_perm_probs None (Some [[1; 0]; [0; 1]; [1; 0]])
         = Ok (replicate 3 p)
         ∧ (Qabs (inject_Z 3 * float_to_Q p - 1) <= 1 # 2 ^ 53)%Q.
Proof.
  split; [done|]. split; [reflexivity|].
  apply (uniform_prob_accuracy [[1; 0]; [0; 1]; [1; 0]]); [done | reflexivity].
Defined.
